(** * Skills portfolio: the quiz scoring engines and the student record engine

    A shallow embedding of the logic of three Tkinter programs:

    - [StudentReport.py]: [Student], [DataManager] and the add / delete /
      update handlers of [StudentApp] and [ManageFrame];
    - [quiz.py]: [MathQuizLogic], [QuizController.show_results] and the
      [QuizFrame] handlers that drive it;
    - [main.py]: the second quiz ([DifficultySelectPage.start_quiz],
      [QuizPage], [ResultsPage]).

    How the programs are read:

    - Python integers are [Z]; Python strings are [string], a text being
      the bytes of its UTF-8 form, and the text primitives ([strip], [lower],
      [isdigit], [len], [int], ...) are Python's on ASCII text ([isascii]);
      Python floats are the kernel's binary64 floats, an integer operand
      being converted first.
    - Objects that are mutated live in an explicit state; every method is a
      function of the monad [Py.M], which threads the state and ends in a
      value or an exception, so that [try] / [except] is a combinator and a
      state changed before an exception stays changed.  An object of a list
      is referred to by its position.
    - The file of the roster is its text, as read in text mode, or its
      absence; a write either replaces the whole text or fails at [open].
    - The outcomes of [random] are read off a tape; the answers to message
      boxes and the entries typed are arguments of the handlers; widgets
      that only display are left out, while message boxes, sounds and page
      switches are logged.
    - The definitions come first, module by module and in the order of the
      sources; the facts about them follow. *)

From Stdlib Require Import ZArith Bool List String Ascii Lia Floats Uint63.
From Stdlib Require Import Sorted Permutation.
From stdpp Require Import base list.
Import ListNotations.
Local Open Scope string_scope.
Local Open Scope Z_scope.

(* ===================================================================== *)
(** * Python text primitives *)
(* ===================================================================== *)

Module PyText.

(** [str.isspace] on one ASCII character: TAB, LF, VT, FF, CR, the four
    separators FS..US and the space. *)
Definition isspace (c : ascii) : bool :=
  let n := nat_of_ascii c in
  ((9 <=? n) && (n <=? 13) || (28 <=? n) && (n <=? 32))%nat.

(** [str.isdigit] on one ASCII character. *)
Definition isdigit_char (c : ascii) : bool :=
  let n := nat_of_ascii c in ((48 <=? n) && (n <=? 57))%nat.

Definition digit_val (c : ascii) : Z := Z.of_nat (nat_of_ascii c) - 48.

Definition digit_char (d : Z) : ascii := ascii_of_nat (48 + Z.to_nat d).

Definition lower_char (c : ascii) : ascii :=
  let n := nat_of_ascii c in
  if ((65 <=? n) && (n <=? 90))%nat then ascii_of_nat (n + 32) else c.

(** [s.isascii()]: every character is below 128.  On such a text the
    primitives of this module are those of Python. *)
Fixpoint isascii (s : string) : bool :=
  match s with
  | EmptyString => true
  | String c r => (nat_of_ascii c <? 128)%nat && isascii r
  end.

(** [len(s)], on ASCII text: a character is one byte. *)
Definition len (s : string) : Z := Z.of_nat (String.length s).

(** An ASCII text of at most 4300 characters: a text that [int] reads as
    this module says whatever the version of the interpreter, the limit on
    the digits of a literal being out of reach. *)
Definition plain (s : string) : bool := isascii s && (len s <=? 4300).

(** [s.lower()], on ASCII text: the letters A to Z. *)
Fixpoint lower (s : string) : string :=
  match s with
  | EmptyString => EmptyString
  | String c r => String (lower_char c) (lower r)
  end.

Fixpoint lstrip (s : string) : string :=
  match s with
  | EmptyString => EmptyString
  | String c r => if isspace c then lstrip r else s
  end.

Fixpoint rstrip (s : string) : string :=
  match s with
  | EmptyString => EmptyString
  | String c r =>
      match rstrip r with
      | EmptyString => if isspace c then EmptyString else String c EmptyString
      | r' => String c r'
      end
  end.

(** [s.strip()], on ASCII text. *)
Definition strip (s : string) : string := lstrip (rstrip s).

(** [s.split(sep)] for a one-character separator: never the empty list. *)
Fixpoint split (sep : ascii) (s : string) : list string :=
  match s with
  | EmptyString => [EmptyString]
  | String c r =>
      if Ascii.eqb c sep then EmptyString :: split sep r
      else match split sep r with
           | h :: t => String c h :: t
           | [] => [String c EmptyString]
           end
  end.

(** [sep.join(parts)] *)
Fixpoint join (sep : string) (parts : list string) : string :=
  match parts with
  | [] => EmptyString
  | [p] => p
  | p :: rest => (p ++ sep ++ join sep rest)%string
  end.

(** [needle in hay] *)
Fixpoint contains (needle hay : string) : bool :=
  String.prefix needle hay ||
  match hay with
  | EmptyString => false
  | String _ r => contains needle r
  end.

(** [s.isdigit()], on ASCII text: every character one of the digits 0 to 9,
    and at least one. *)
Fixpoint all_digits (s : string) : bool :=
  match s with
  | EmptyString => true
  | String c r => isdigit_char c && all_digits r
  end.

Definition isdigit (s : string) : bool :=
  match s with
  | EmptyString => false
  | _ => all_digits s
  end.

(** The digits of a decimal literal, with the single underscores Python
    allows between two digits.  [prev] tells whether the previous character
    was a digit. *)
Fixpoint int_digits (s : string) (acc : Z) (prev : bool) : option Z :=
  match s with
  | EmptyString => if prev then Some acc else None
  | String c r =>
      if isdigit_char c then int_digits r (acc * 10 + digit_val c) true
      else if Ascii.eqb c "_" then
             if prev then int_digits r acc false else None
           else None
  end.

(** The white space [int] allows around a literal: TAB, LF, VT, FF, CR and
    the space.  The separators FS..US, which [strip] removes, are not among
    them: [int] refuses a text that holds one. *)
Definition isspace_literal (c : ascii) : bool :=
  let n := nat_of_ascii c in
  ((9 <=? n) && (n <=? 13) || (n =? 32))%nat.

Fixpoint literal_lstrip (s : string) : string :=
  match s with
  | EmptyString => EmptyString
  | String c r => if isspace_literal c then literal_lstrip r else s
  end.

Fixpoint literal_rstrip (s : string) : string :=
  match s with
  | EmptyString => EmptyString
  | String c r =>
      match literal_rstrip r with
      | EmptyString => if isspace_literal c then EmptyString else String c EmptyString
      | r' => String c r'
      end
  end.

(** [int(s)] for a string: the white space around the literal is dropped,
    one sign is allowed; [None] stands for [ValueError].  (The interpreter's
    limit on the number of digits of a literal, 4300 by default where it
    exists, is not modelled.) *)
Definition int (s : string) : option Z :=
  match literal_lstrip (literal_rstrip s) with
  | String "-" r => option_map Z.opp (int_digits r 0 false)
  | String "+" r => int_digits r 0 false
  | r => int_digits r 0 false
  end.

Fixpoint str_digits (fuel : nat) (n : Z) (acc : string) : string :=
  match fuel with
  | O => acc
  | S f =>
      let acc' := String (digit_char (n mod 10)) acc in
      if n / 10 =? 0 then acc' else str_digits f (n / 10) acc'
  end.

Definition str_nonneg (n : Z) : string :=
  str_digits (S (Z.to_nat (Z.log2 n))) n EmptyString.

(** [str(z)] for an integer. *)
Definition str (z : Z) : string :=
  if z <? 0 then String "-" (str_nonneg (- z)) else str_nonneg z.

Definition LF : ascii := ascii_of_nat 10.
Definition newline : string := String LF EmptyString.

(** [f.readlines()] on the text of a file: the lines with their line feed,
    the last one without when the text does not end in one. *)
Fixpoint readlines (text : string) : list string :=
  match text with
  | EmptyString => []
  | String c r =>
      if Ascii.eqb c LF then newline :: readlines r
      else match readlines r with
           | h :: t => String c h :: t
           | [] => [String c EmptyString]
           end
  end.

(** [f.writelines(lines)] *)
Definition writelines (lines : list string) : string := String.concat EmptyString lines.

(** An [int] as a float operand ([int / int], [float * int], [float >= int]):
    exact for the integers of magnitude below 2^53. *)
Definition float_of_int (z : Z) : float :=
  if z <? 0 then PrimFloat.opp (PrimFloat.of_uint63 (Uint63.of_Z (- z)))
  else PrimFloat.of_uint63 (Uint63.of_Z z).

End PyText.

(* ===================================================================== *)
(** * State and exceptions *)
(* ===================================================================== *)

Module Py.

(** The exceptions the programs can meet. *)
Inductive Exn : Type :=
| ValueError (literal : string)
| FileNotFoundError
| OSError
| IndexError
| KeyError
| ZeroDivisionError.

Inductive Result (A : Type) : Type :=
| Ok (a : A)
| Raise (e : Exn).
Arguments Ok {A} a.
Arguments Raise {A} e.

(** A method over a mutable state [S]: it ends in a value or an exception,
    and the state it leaves stands in both cases. *)
Definition M (S A : Type) : Type := S -> S * Result A.

Definition ret {S A} (a : A) : M S A := fun s => (s, Ok a).

Definition bind {S A B} (m : M S A) (k : A -> M S B) : M S B :=
  fun s => match m s with
           | (s', Ok a) => k a s'
           | (s', Raise e) => (s', Raise e)
           end.

Definition raise {S A} (e : Exn) : M S A := fun s => (s, Raise e).

Definition get {S} : M S S := fun s => (s, Ok s).

Definition modify {S} (f : S -> S) : M S unit := fun s => (f s, Ok tt).

(** [try: body / except Exception as e: handler e] *)
Definition try_except {S A} (body : M S A) (handler : Exn -> M S A) : M S A :=
  fun s => match body s with
           | (s', Ok a) => (s', Ok a)
           | (s', Raise e) => handler e s'
           end.

(** [for x in l: body x] *)
Fixpoint for_each {S A} (l : list A) (body : A -> M S unit) : M S unit :=
  match l with
  | [] => ret tt
  | x :: rest => bind (body x) (fun _ => for_each rest body)
  end.

Definition exec {S A} (m : M S A) (s : S) : S := fst (m s).
Definition eval {S A} (m : M S A) (s : S) : Result A := snd (m s).

(** A value a Python function takes where the programs pass now a string
    and now an integer. *)
Inductive Val : Type :=
| VStr (s : string)
| VInt (z : Z).

(** [int(v)] *)
Definition int {S} (v : Val) : M S Z :=
  match v with
  | VInt z => ret z
  | VStr s => match PyText.int s with
              | Some z => ret z
              | None => raise (ValueError s)
              end
  end.

(** [str(v)] *)
Definition str (v : Val) : string :=
  match v with
  | VStr s => s
  | VInt z => PyText.str z
  end.

(** [d[key]] on a dictionary written as the list of its items. *)
Fixpoint dict_get {S V} (d : list (string * V)) (key : string) : M S V :=
  match d with
  | [] => raise KeyError
  | (k, v) :: rest => if String.eqb k key then ret v else dict_get rest key
  end.

(** [l[i]] on a list: a negative index counts from the end. *)
Definition list_get {S A} (l : list A) (i : Z) : M S A :=
  let n := Z.of_nat (length l) in
  let j := if i <? 0 then n + i else i in
  if (j <? 0) || (n <=? j) then raise IndexError
  else match l !! Z.to_nat j with
       | Some x => ret x
       | None => raise IndexError
       end.

(** The random module: the outcomes of its draws are read off a tape, one
    cell a draw; every outcome a call can have is the outcome for some cell. *)
Record Rng : Type := mkRng {
  tape : nat -> Z;
  cursor : nat
}.

Definition rng_next (r : Rng) : Z * Rng :=
  (tape r (cursor r), mkRng (tape r) (S (cursor r))).

(** [random.randint(a, b)] *)
Definition rng_randint (a b : Z) (r : Rng) : Rng * Result Z :=
  if b <? a then (r, Raise (ValueError ""))
  else let (raw, r') := rng_next r in (r', Ok (a + raw mod (b - a + 1))).

(** [random.choice(l)] *)
Definition rng_choice {A} (l : list A) (r : Rng) : Rng * Result A :=
  match l with
  | [] => (r, Raise IndexError)
  | _ => let (raw, r') := rng_next r in
         match l !! Z.to_nat (raw mod Z.of_nat (length l)) with
         | Some x => (r', Ok x)
         | None => (r', Raise IndexError)
         end
  end.

End Py.

Declare Scope py_scope.
Delimit Scope py_scope with py.
Notation "x <- m ;; k" := (Py.bind m (fun x => k))
  (at level 100, m at next level, k at level 200, right associativity) : py_scope.
Notation "m ;; k" := (Py.bind m (fun _ => k))
  (at level 100, k at level 200, right associativity) : py_scope.
Local Open Scope py_scope.


(* ===================================================================== *)
(** * StudentReport.py *)
(* ===================================================================== *)

Module StudentReport.
Import PyText Py.

Definition TOTAL_MAX_MARKS : Z := 160.

(** ** class Student *)

(** The attributes of a [Student] object, the derived ones included: they are
    stored by [_recalculate_derived_data] and read back later. *)
Record Student : Type := mkStudent {
  code : string;
  name : string;
  c1 : Z;
  c2 : Z;
  c3 : Z;
  exam : Z;
  coursework_total : Z;
  total_score : Z;
  overall_percentage : float;
  grade : string
}.

Definition set_name (v : string) (s : Student) : Student :=
  mkStudent (code s) v (c1 s) (c2 s) (c3 s) (exam s)
            (coursework_total s) (total_score s) (overall_percentage s) (grade s).
Definition set_c1 (v : Z) (s : Student) : Student :=
  mkStudent (code s) (name s) v (c2 s) (c3 s) (exam s)
            (coursework_total s) (total_score s) (overall_percentage s) (grade s).
Definition set_c2 (v : Z) (s : Student) : Student :=
  mkStudent (code s) (name s) (c1 s) v (c3 s) (exam s)
            (coursework_total s) (total_score s) (overall_percentage s) (grade s).
Definition set_c3 (v : Z) (s : Student) : Student :=
  mkStudent (code s) (name s) (c1 s) (c2 s) v (exam s)
            (coursework_total s) (total_score s) (overall_percentage s) (grade s).
Definition set_exam (v : Z) (s : Student) : Student :=
  mkStudent (code s) (name s) (c1 s) (c2 s) (c3 s) v
            (coursework_total s) (total_score s) (overall_percentage s) (grade s).

(** [x >= n], [n <= x] and [x <= n] between a float and an integer literal. *)
Definition float_ge (x : float) (n : Z) : bool := PrimFloat.leb (float_of_int n) x.
Definition float_le (x : float) (n : Z) : bool := PrimFloat.leb x (float_of_int n).

(** [Student._calculate_grade], reading the percentage [p] of the object. *)
Definition grade_of_percentage (p : float) : string :=
  if float_ge p 70 then "A"
  else if float_ge p 60 && float_le p 69 then "B"
  else if float_ge p 50 && float_le p 59 then "C"
  else if float_ge p 40 && float_le p 49 then "D"
  else "F".

Definition _calculate_grade (self : Student) : string :=
  grade_of_percentage (overall_percentage self).

(** [(total_score / TOTAL_MAX_MARKS) * 100] *)
Definition percentage_of_total (total : Z) : float :=
  PrimFloat.mul (PrimFloat.div (float_of_int total) (float_of_int TOTAL_MAX_MARKS))
                (float_of_int 100).

(** [Student._recalculate_derived_data]: the four assignments in order.
    (With a total beyond the range of a float the division raises
    [OverflowError]; what is stated of loaded or entered marks bounds
    them.) *)
Definition _recalculate_derived_data (self : Student) : Student :=
  let coursework_total' := c1 self + c2 self + c3 self in
  let total_score' := coursework_total' + exam self in
  let overall_percentage' := percentage_of_total total_score' in
  let self' := mkStudent (code self) (name self) (c1 self) (c2 self) (c3 self) (exam self)
                         coursework_total' total_score' overall_percentage' (grade self) in
  mkStudent (code self') (name self') (c1 self') (c2 self') (c3 self') (exam self')
            (coursework_total self') (total_score self') (overall_percentage self')
            (_calculate_grade self').

(** [Student.__init__]: [str(code)], the name as given, [int] of each score
    in turn (the first that is no integer raises), then the derived data. *)
Definition Student__init__ {S} (code : Val) (name : string) (c1 c2 c3 exam : Val) : M S Student :=
  v1 <- int c1 ;;
  v2 <- int c2 ;;
  v3 <- int c3 ;;
  v4 <- int exam ;;
  ret (_recalculate_derived_data
         (mkStudent (str code) name v1 v2 v3 v4 0 0 PrimFloat.zero "")).

(** [Student.to_file_format] *)
Definition to_file_format (self : Student) : string :=
  (code self ++ "," ++ name self ++ "," ++ PyText.str (c1 self) ++ "," ++
   PyText.str (c2 self) ++ "," ++ PyText.str (c3 self) ++ "," ++ PyText.str (exam self))%string.

(** ** class DataManager *)

Record DataManager : Type := mkDataManager {
  students : list Student;
  class_size : Z
}.

(** What is at [STUDENT_FILE_PATH]. *)
Inductive FileState : Type :=
| NoFile
| Unreadable
| FileText (text : string).

(** The message boxes shown, with the exception a message prints. *)
Inductive Dialog : Type :=
| showerror (title body : string) (e : option Exn)
| showinfo (title body : string)
| showwarning (title body : string)
| askyesno (title body : string) (answer : bool).

(** The program: its data manager, the file, whether the file can be opened
    for writing, and the message boxes shown so far (latest first). *)
Record App : Type := mkApp {
  data_manager : DataManager;
  file : FileState;
  writable : bool;
  dialogs : list Dialog
}.

Definition get_students : M App (list Student) :=
  fun a => (a, Ok (students (data_manager a))).
Definition set_students (l : list Student) : M App unit :=
  modify (fun a => mkApp (mkDataManager l (class_size (data_manager a)))
                         (file a) (writable a) (dialogs a)).
Definition set_class_size (n : Z) : M App unit :=
  modify (fun a => mkApp (mkDataManager (students (data_manager a)) n)
                         (file a) (writable a) (dialogs a)).
Definition messagebox (d : Dialog) : M App unit :=
  modify (fun a => mkApp (data_manager a) (file a) (writable a) (d :: dialogs a)).

(** [open(STUDENT_FILE_PATH, 'r')] and [f.readlines()] *)
Definition open_readlines : M App (list string) :=
  fun a => match file a with
           | NoFile => (a, Raise FileNotFoundError)
           | Unreadable => (a, Raise OSError)
           | FileText text => (a, Ok (readlines text))
           end.

(** [open(STUDENT_FILE_PATH, 'w')] and [f.writelines(lines)] *)
Definition open_writelines (lines : list string) : M App unit :=
  fun a => if writable a
           then (mkApp (data_manager a) (FileText (writelines lines)) true (dialogs a), Ok tt)
           else (a, Raise OSError).

(** [self.students.append(student)] *)
Definition students_append (student : Student) : M App unit :=
  l <- get_students ;; set_students (l ++ [student]).

(** The body of the loop of [load_data] over [lines[1:]]. *)
Definition load_line (line : string) : M App unit :=
  match split "," (strip line) with
  | [p0; p1; p2; p3; p4; p5] =>
      student <- Student__init__ (VStr p0) p1 (VStr p2) (VStr p3) (VStr p4) (VStr p5) ;;
      students_append student
  | _ => ret tt
  end.

(** [DataManager.load_data] *)
Definition load_data : M App unit :=
  set_students [] ;;
  try_except
    (lines <- open_readlines ;;
     match lines with
     | [] => ret tt
     | first :: rest =>
         n <- int (VStr (strip first)) ;;
         set_class_size n ;;
         for_each rest load_line ;;
         l <- get_students ;;
         set_class_size (Z.of_nat (length l))
     end)
    (fun e => match e with
              | FileNotFoundError => ret tt
              | _ => messagebox (showerror "Error" "Error processing student data: " (Some e))
              end).

(** [DataManager.__init__] *)
Definition DataManager__init__ : M App unit :=
  set_students [] ;;
  set_class_size 0 ;;
  load_data.

(** [DataManager.save_data] *)
Definition save_data : M App bool :=
  try_except
    (l <- get_students ;;
     set_class_size (Z.of_nat (length l)) ;;
     n <- (fun a => (a, Ok (class_size (data_manager a)))) ;;
     let output_lines := (PyText.str n ++ newline)%string ::
                         map (fun student => (to_file_format student ++ newline)%string) l in
     open_writelines output_lines ;;
     ret true)
    (fun e =>
       messagebox (showerror "Save Error" "Could not save data to file: " (Some e)) ;;
       ret false).

(** [sum(s.overall_percentage for s in students)]: from the integer 0, left
    to right (interpreters that compensate the rounding of the partial sums
    give the same float whenever these sums are exact). *)
Definition sum_percentages (l : list Student) : float :=
  fold_left (fun acc s => PrimFloat.add acc (overall_percentage s)) l (float_of_int 0).

(** [DataManager.get_summary]: the size is an integer, the average a float. *)
Definition get_summary (dm : DataManager) : Result (Z * float) :=
  match students dm with
  | [] => Ok (0, PrimFloat.zero)
  | _ =>
      let total_percentage := sum_percentages (students dm) in
      if class_size dm =? 0 then Raise ZeroDivisionError
      else Ok (class_size dm,
               PrimFloat.div total_percentage (float_of_int (class_size dm)))
  end.

(** The condition of the loop of [find_student]. *)
Definition matches (search_term : string) (student : Student) : bool :=
  String.eqb (code student) search_term || contains search_term (lower (name student)).

(** The loop of [find_student] from position [i] on: each result is a
    reference to an object of the roster, that is its position, with the
    object found there. *)
Fixpoint find_loop (search_term : string) (i : nat) (l : list Student) : list (nat * Student) :=
  match l with
  | [] => []
  | student :: rest =>
      if matches search_term student
      then (i, student) :: find_loop search_term (S i) rest
      else find_loop search_term (S i) rest
  end.

(** [DataManager.find_student] *)
Definition find_student (search_term : string) (dm : DataManager) : list (nat * Student) :=
  let search_term := lower (strip search_term) in
  find_loop search_term 0 (students dm).

(** ** The handlers of StudentApp and ManageFrame *)

(** The six entry fields of the management form. *)
Record Inputs : Type := mkInputs {
  in_code : string;
  in_name : string;
  in_c1 : string;
  in_c2 : string;
  in_c3 : string;
  in_exam : string
}.

Definition get_data_manager : M App DataManager := fun a => (a, Ok (data_manager a)).

(** [StudentApp._handle_submission] *)
Definition _handle_submission (code name : string) (c1 c2 c3 exam : Z) : M App unit :=
  new_student <- Student__init__ (VStr code) name (VInt c1) (VInt c2) (VInt c3) (VInt exam) ;;
  students_append new_student ;;
  saved <- save_data ;;
  if saved : bool
  then messagebox (showinfo "Success" ("Student " ++ name ++ " added and saved.")%string)
  else l <- get_students ;; set_students (removelast l).

(** [ManageFrame._submit_inline_add] *)
Definition _submit_inline_add (inputs : Inputs) : M App unit :=
  let code := in_code inputs in
  let name := in_name inputs in
  try_except
    (c1 <- int (VStr (in_c1 inputs)) ;;
     c2 <- int (VStr (in_c2 inputs)) ;;
     c3 <- int (VStr (in_c3 inputs)) ;;
     exam <- int (VStr (in_exam inputs)) ;;
     if negb (len code =? 4) || negb (isdigit code) || String.eqb name ""
     then messagebox (showwarning "Validation Error"
                        "Code must be 4 digits and Name must be filled.")
     else _handle_submission code name c1 c2 c3 exam)
    (fun e => match e with
              | ValueError _ =>
                  messagebox (showerror "Input Error"
                                "Please ensure all mark fields are complete numbers." None)
              | _ => raise e
              end).

(** [self.students.remove(student)]: the object is found by identity, so the
    one removed is the one at the position the reference holds. *)
Definition students_remove (ref : nat) : M App unit :=
  l <- get_students ;; set_students (delete ref l).

(** An assignment to an attribute of the object a reference points to. *)
Definition student_assign (ref : nat) (f : Student -> Student) : M App unit :=
  l <- get_students ;; set_students (alter f ref l).

(** [ManageFrame._submit_inline_delete]; [confirm] is the answer to the
    question the handler asks. *)
Definition _submit_inline_delete (inputs : Inputs) (confirm : bool) : M App unit :=
  let search_term := in_code inputs in
  if String.eqb search_term ""
  then messagebox (showwarning "Search Required"
                     "Please enter a Student Code or Name to identify the record.")
  else
    dm <- get_data_manager ;;
    match find_student search_term dm with
    | [] => messagebox (showwarning "Not Found" "No student found matching that code/name.")
    | (ref, student_to_delete) :: _ =>
        messagebox (askyesno "Confirm Delete"
                      ("Are you sure you want to delete " ++ name student_to_delete ++
                       " (" ++ code student_to_delete ++ ")?")%string confirm) ;;
        if confirm
        then students_remove ref ;;
             saved <- save_data ;;
             if saved : bool
             then messagebox (showinfo "Success"
                                ("Record for " ++ name student_to_delete ++
                                 " deleted and file saved.")%string)
             else ret tt
        else ret tt
    end.

(** [if entry: student.attr = int(entry)] *)
Definition assign_if_filled (ref : nat) (entry : string) (set : Z -> Student -> Student) : M App unit :=
  if String.eqb entry "" then ret tt
  else v <- int (VStr entry) ;; student_assign ref (set v).

(** [ManageFrame._submit_inline_update] *)
Definition _submit_inline_update (inputs : Inputs) : M App unit :=
  let search_term := in_code inputs in
  if String.eqb search_term ""
  then messagebox (showwarning "Search Required"
                     "Please enter the Student Code or Name to identify the record.")
  else
    dm <- get_data_manager ;;
    match find_student search_term dm with
    | [] => messagebox (showwarning "Not Found" "Student not found.")
    | (ref, _) :: _ =>
        try_except
          (let new_name := in_name inputs in
           (if String.eqb new_name "" then ret tt
            else student_assign ref (set_name new_name)) ;;
           assign_if_filled ref (in_c1 inputs) set_c1 ;;
           assign_if_filled ref (in_c2 inputs) set_c2 ;;
           assign_if_filled ref (in_c3 inputs) set_c3 ;;
           assign_if_filled ref (in_exam inputs) set_exam ;;
           student_assign ref _recalculate_derived_data ;;
           saved <- save_data ;;
           if saved : bool
           then l <- get_students ;;
                messagebox (showinfo "Success"
                              ("Record for " ++ match l !! ref with
                                                | Some student => name student
                                                | None => ""
                                                end ++ " updated and file saved.")%string)
           else ret tt)
          (fun e => match e with
                    | ValueError _ =>
                        messagebox (showerror "Input Error"
                                      "Please ensure mark fields contain valid numbers." None)
                    | _ => raise e
                    end)
    end.

(** ** The other methods of DataManager and ManageFrame *)

(** [max(l, key=key)] on a list that starts with [best]: the first of the
    greatest. *)
Fixpoint max_from (key : Student -> Z) (best : Student) (l : list Student) : Student :=
  match l with
  | [] => best
  | s :: rest => if key best <? key s then max_from key s rest else max_from key best rest
  end.

(** [min(l, key=key)] on a list that starts with [best]: the first of the
    least. *)
Fixpoint min_from (key : Student -> Z) (best : Student) (l : list Student) : Student :=
  match l with
  | [] => best
  | s :: rest => if key s <? key best then min_from key s rest else min_from key best rest
  end.

(** [DataManager.find_extremes] *)
Definition find_extremes (highest : bool) (dm : DataManager) : option Student :=
  match students dm with
  | [] => None
  | s :: rest =>
      let key_func := total_score in
      if highest then Some (max_from key_func s rest)
      else Some (min_from key_func s rest)
  end.

(** The value of a sort key: a data attribute of a student is an integer,
    a float or a string. *)
Inductive Key : Type :=
| KInt (z : Z)
| KFloat (f : float)
| KStr (s : string).

(** [getattr(s, key_attr)] for the ten attributes [__init__] and
    [_recalculate_derived_data] assign.  Any other name is outside this
    model and gives [None]: Python raises [AttributeError] for most of them,
    but answers a bound method or a special attribute for the names the
    class and [object] define. *)
Definition getattr (s : Student) (key_attr : string) : option Key :=
  if String.eqb key_attr "code" then Some (KStr (code s))
  else if String.eqb key_attr "name" then Some (KStr (name s))
  else if String.eqb key_attr "c1" then Some (KInt (c1 s))
  else if String.eqb key_attr "c2" then Some (KInt (c2 s))
  else if String.eqb key_attr "c3" then Some (KInt (c3 s))
  else if String.eqb key_attr "exam" then Some (KInt (exam s))
  else if String.eqb key_attr "coursework_total" then Some (KInt (coursework_total s))
  else if String.eqb key_attr "total_score" then Some (KInt (total_score s))
  else if String.eqb key_attr "overall_percentage" then Some (KFloat (overall_percentage s))
  else if String.eqb key_attr "grade" then Some (KStr (grade s))
  else None.

(** [a < b] between two keys of one attribute: integers by value, floats
    by value, strings by code points. *)
Definition key_lt (a b : Key) : bool :=
  match a, b with
  | KInt x, KInt y => x <? y
  | KFloat x, KFloat y => PrimFloat.ltb x y
  | KStr x, KStr y => String.ltb x y
  | _, _ => false
  end.

(** [list.sort] is stable: an element goes in front of the first element of
    the sorted rest that is not smaller than it.  With a consistent order the
    outcome is the one of any stable sort. *)
Fixpoint insert_by {A} (lt : A -> A -> bool) (x : A) (l : list A) : list A :=
  match l with
  | [] => [x]
  | y :: rest => if lt y x then y :: insert_by lt x rest else x :: y :: rest
  end.

Fixpoint sort_by {A} (lt : A -> A -> bool) (l : list A) : list A :=
  match l with
  | [] => []
  | x :: rest => insert_by lt x (sort_by lt rest)
  end.

(** [l.sort(key=..., reverse=reverse)] on the list of the keys paired with
    their elements: with [reverse] the list is reversed, sorted and reversed
    again, which keeps the order of equal elements. *)
Definition list_sort {A} (reverse : bool) (keyed : list (Key * A)) : list A :=
  let lt := fun p q : Key * A => key_lt (fst p) (fst q) in
  map snd (if reverse then rev (sort_by lt (rev keyed)) else sort_by lt keyed).

(** The keys of all the elements, computed before anything moves; [None]
    when the key is none of the data attributes and there is an element to
    read it from. *)
Fixpoint keyed_by (key_attr : string) (l : list Student) : option (list (Key * Student)) :=
  match l with
  | [] => Some []
  | s :: rest =>
      match getattr s key_attr with
      | None => None
      | Some k => option_map (cons (k, s)) (keyed_by key_attr rest)
      end
  end.

(** [DataManager.sort_records] under a key that is a data attribute; [None]
    for the other keys, which this model does not follow. *)
Definition sort_records (key_attr : string) (ascending : bool) (dm : DataManager)
  : option DataManager :=
  let keyed :=
    if String.eqb key_attr "total_score"
    then Some (map (fun s => (KInt (total_score s), s)) (students dm))
    else if String.eqb key_attr "overall_percentage"
         then Some (map (fun s => (KFloat (overall_percentage s), s)) (students dm))
         else keyed_by key_attr (students dm) in
  match keyed with
  | None => None
  | Some keyed => Some (mkDataManager (list_sort (negb ascending) keyed) (class_size dm))
  end.

(** [ManageFrame._validate_numeric_input]: the text an entry would hold after
    a keystroke, and the field of the entry. *)
Definition _validate_numeric_input {S} (P key : string) : M S bool :=
  if isdigit P || String.eqb P ""
  then
    if String.eqb P "" then ret true
    else
      val <- int (VStr P) ;;
      if String.eqb key "exam" && (100 <? val) then ret false
      else if (String.eqb key "c1" || String.eqb key "c2" || String.eqb key "c3") && (20 <? val)
           then ret false
           else ret true
  else ret false.

End StudentReport.

(* ===================================================================== *)
(** * A1 - Resources/MathsQuiz/quiz.py *)
(* ===================================================================== *)

Module Quiz.
Import PyText Py.

Definition DIFFICULTY_SETTINGS : list (string * (Z * Z)) :=
  [("Beginner", (1, 9)); ("Intermediate", (10, 99)); ("Advanced", (1000, 9999))].
Definition QUESTION_TIME_LIMIT : Z := 15.
Definition MAX_LIVES : Z := 5.

(** The attributes of [MathQuizLogic] ([controller] is the state below). *)
Record MathQuizLogic : Type := mkLogic {
  score : Z;
  questions_attempted : Z;
  current_answer : option Z;
  attempts_remaining : Z;
  lives : Z;
  difficulty : option string;
  max_questions : Z;
  start_time : option Z
}.

(** What the user hears and sees, latest first. *)
Inductive UiEvent : Type :=
| play_sfx (type : string)
| quiz_complete (message : string) (difficulty : option string) (total_score : Z) (final_rank : string)
| tkraise (frame_name : string).

(** The callbacks handed to [after]. *)
Inductive Callback : Type :=
| cb_update_timer_display
| cb_next_question.

(** [QuizController] with its [quiz_logic], the [QuizFrame] attributes the
    handlers read, the callbacks waiting in the event loop, the random
    module, the clock and the log of what was shown. *)
Record Controller : Type := mkController {
  quiz_logic : MathQuizLogic;
  time_left : Z;
  after_id : option nat;
  pending : list (nat * Callback);
  next_id : nat;
  controls_enabled : bool;
  rng : Rng;
  clock : Z;
  ui : list UiEvent
}.

Definition initial_logic : MathQuizLogic :=
  mkLogic 0 0 None 2 MAX_LIVES None 10 None.

Definition get_logic : M Controller MathQuizLogic := fun c => (c, Ok (quiz_logic c)).
Definition set_logic (f : MathQuizLogic -> MathQuizLogic) : M Controller unit :=
  modify (fun c => mkController (f (quiz_logic c)) (time_left c) (after_id c) (pending c)
                                (next_id c) (controls_enabled c) (rng c) (clock c) (ui c)).
Definition emit (e : UiEvent) : M Controller unit :=
  modify (fun c => mkController (quiz_logic c) (time_left c) (after_id c) (pending c)
                                (next_id c) (controls_enabled c) (rng c) (clock c) (e :: ui c)).
Definition set_time_left (t : Z) : M Controller unit :=
  modify (fun c => mkController (quiz_logic c) t (after_id c) (pending c)
                                (next_id c) (controls_enabled c) (rng c) (clock c) (ui c)).
Definition set_after_id (i : option nat) : M Controller unit :=
  modify (fun c => mkController (quiz_logic c) (time_left c) i (pending c)
                                (next_id c) (controls_enabled c) (rng c) (clock c) (ui c)).
Definition set_controls (b : bool) : M Controller unit :=
  modify (fun c => mkController (quiz_logic c) (time_left c) (after_id c) (pending c)
                                (next_id c) b (rng c) (clock c) (ui c)).
Definition with_rng {A} (f : Rng -> Rng * Result A) : M Controller A :=
  fun c => let (r, res) := f (rng c) in
           (mkController (quiz_logic c) (time_left c) (after_id c) (pending c)
                         (next_id c) (controls_enabled c) r (clock c) (ui c), res).

(** [self.after(ms, callback)]: the callback waits; its identifier is returned. *)
Definition after (cb : Callback) : M Controller nat :=
  fun c => (mkController (quiz_logic c) (time_left c) (after_id c)
                         ((next_id c, cb) :: pending c)
                         (S (next_id c)) (controls_enabled c) (rng c) (clock c) (ui c),
            Ok (next_id c)).

(** [self.after_cancel(id)] *)
Definition after_cancel (id : nat) : M Controller unit :=
  modify (fun c => mkController (quiz_logic c) (time_left c) (after_id c)
                                (List.filter (fun p => negb (Nat.eqb (fst p) id)) (pending c))
                                (next_id c) (controls_enabled c) (rng c) (clock c) (ui c)).

Definition set_score v (l : MathQuizLogic) :=
  mkLogic v (questions_attempted l) (current_answer l) (attempts_remaining l) (lives l)
          (difficulty l) (max_questions l) (start_time l).
Definition set_questions_attempted v (l : MathQuizLogic) :=
  mkLogic (score l) v (current_answer l) (attempts_remaining l) (lives l)
          (difficulty l) (max_questions l) (start_time l).
Definition set_current_answer v (l : MathQuizLogic) :=
  mkLogic (score l) (questions_attempted l) v (attempts_remaining l) (lives l)
          (difficulty l) (max_questions l) (start_time l).
Definition set_attempts_remaining v (l : MathQuizLogic) :=
  mkLogic (score l) (questions_attempted l) (current_answer l) v (lives l)
          (difficulty l) (max_questions l) (start_time l).
Definition set_lives v (l : MathQuizLogic) :=
  mkLogic (score l) (questions_attempted l) (current_answer l) (attempts_remaining l) v
          (difficulty l) (max_questions l) (start_time l).
Definition set_difficulty_field v (l : MathQuizLogic) :=
  mkLogic (score l) (questions_attempted l) (current_answer l) (attempts_remaining l) (lives l)
          v (max_questions l) (start_time l).
Definition set_start_time v (l : MathQuizLogic) :=
  mkLogic (score l) (questions_attempted l) (current_answer l) (attempts_remaining l) (lives l)
          (difficulty l) (max_questions l) v.

(** [MathQuizLogic.set_difficulty] *)
Definition set_difficulty (level : string) : M Controller unit :=
  set_logic (set_difficulty_field (Some level)).

(** [MathQuizLogic.random_int] *)
Definition random_int (min_val max_val : Z) : M Controller Z :=
  with_rng (rng_randint min_val max_val).

(** [MathQuizLogic.decide_operation] *)
Definition decide_operation : M Controller string :=
  with_rng (rng_choice ["+"; "-"]).

(** [MathQuizLogic.generate_problem] *)
Definition generate_problem : M Controller string :=
  logic <- get_logic ;;
  range <- match difficulty logic with
           | Some level => dict_get DIFFICULTY_SETTINGS level
           | None => raise KeyError
           end ;;
  let '(min_val, max_val) := range in
  num1 <- random_int min_val max_val ;;
  num2 <- random_int min_val max_val ;;
  operation <- decide_operation ;;
  let '(num1, num2) :=
    if String.eqb operation "-" && (num1 <? num2) then (num2, num1) else (num1, num2) in
  (if String.eqb operation "+"
   then set_logic (set_current_answer (Some (num1 + num2)))
   else set_logic (set_current_answer (Some (num1 - num2)))) ;;
  set_logic (set_attempts_remaining 2) ;;
  now <- (fun c => (c, Ok (clock c))) ;;
  set_logic (set_start_time (Some now)) ;;
  ret (PyText.str num1 ++ " " ++ operation ++ " " ++ PyText.str num2)%string.

(** [score_percent] of [calculate_rank]: the integer 0 when [max_questions]
    is 0, else [(score / (max_questions * 10)) * 100]. *)
Definition score_percent (l : MathQuizLogic) : float :=
  if max_questions l =? 0 then float_of_int 0
  else PrimFloat.mul (PrimFloat.div (float_of_int (score l))
                                    (float_of_int (max_questions l * 10)))
                     (float_of_int 100).

(** [MathQuizLogic.calculate_rank] *)
Definition calculate_rank (l : MathQuizLogic) : string :=
  let score_percent := score_percent l in
  if PrimFloat.leb (float_of_int 90) score_percent then "A+ (Outstanding!)"
  else if PrimFloat.leb (float_of_int 80) score_percent then "A (Excellent!)"
  else if PrimFloat.leb (float_of_int 70) score_percent then "B (Very Good)"
  else if PrimFloat.leb (float_of_int 60) score_percent then "C (Good)"
  else "F (Try Again)".

(** [QuizController.show_frame] *)
Definition show_frame (frame_name : string) : M Controller unit :=
  emit (tkraise frame_name).

(** [QuizController.show_results] *)
Definition show_results (message : string) : M Controller unit :=
  logic <- get_logic ;;
  let final_rank := calculate_rank logic in
  let total_score := score logic in
  set_logic (set_lives MAX_LIVES) ;;
  set_logic (set_questions_attempted 0) ;;
  emit (quiz_complete message (difficulty logic) total_score final_rank) ;;
  show_frame "MainMenuFrame".

(** [str(current_answer)] inside the f-string of the feedback. *)
Definition str_answer (a : option Z) : string :=
  match a with
  | Some z => PyText.str z
  | None => "None"
  end.

(** [MathQuizLogic.check_answer] *)
Definition check_answer (user_input : string) : M Controller (string * bool) :=
  parsed <- try_except (v <- int (VStr user_input) ;; ret (Some v))
                       (fun e => match e with
                                 | ValueError _ => ret None
                                 | _ => raise e
                                 end) ;;
  match parsed with
  | None => ret ("Invalid Input", false)
  | Some user_answer =>
      logic <- get_logic ;;
      if match current_answer logic with
         | Some a => user_answer =? a
         | None => false
         end
      then
        emit (play_sfx "correct") ;;
        let points := if attempts_remaining logic =? 2 then 10 else 5 in
        set_logic (fun l => set_score (score l + points) l) ;;
        set_logic (fun l => set_questions_attempted (questions_attempted l + 1) l) ;;
        ret (("Correct! (+" ++ PyText.str points ++ " points)")%string, true)
      else
        emit (play_sfx "wrong") ;;
        set_logic (fun l => set_attempts_remaining (attempts_remaining l - 1) l) ;;
        logic <- get_logic ;;
        if attempts_remaining logic =? 0
        then
          set_logic (fun l => set_lives (lives l - 1) l) ;;
          set_logic (fun l => set_questions_attempted (questions_attempted l + 1) l) ;;
          logic <- get_logic ;;
          let feedback := ("Wrong! The answer was " ++ str_answer (current_answer logic) ++
                           ". You lost a life.")%string in
          (if lives logic <=? 0
           then show_results "Game Over! Out of Lives."
           else ret tt) ;;
          ret (feedback, true)
        else ret ("Wrong. One more attempt remaining.", false)
  end.

(** ** class QuizFrame *)

(** [QuizFrame.update_timer_display]: one tick of the countdown, or the
    time-out. *)
Definition update_timer_display : M Controller unit :=
  c <- get ;;
  if 0 <=? time_left c
  then
    set_time_left (time_left c - 1) ;;
    id <- after cb_update_timer_display ;;
    set_after_id (Some id)
  else
    set_controls false ;;
    set_logic (set_attempts_remaining 1) ;;
    _ <- check_answer "Timeout" ;;
    _ <- after cb_next_question ;;
    ret tt.

(** [QuizFrame.start_timer] *)
Definition start_timer : M Controller unit :=
  c <- get ;;
  match after_id c with
  | Some id => after_cancel id
  | None => ret tt
  end ;;
  set_time_left QUESTION_TIME_LIMIT ;;
  update_timer_display.

(** [QuizFrame.next_question] *)
Definition next_question : M Controller unit :=
  logic <- get_logic ;;
  if max_questions logic <=? questions_attempted logic
  then show_results "Quiz Completed Successfully!"
  else
    set_controls true ;;
    _ <- generate_problem ;;
    start_timer.

(** [QuizFrame.initialize_quiz] *)
Definition initialize_quiz : M Controller unit :=
  set_time_left QUESTION_TIME_LIMIT ;;
  set_logic (set_score 0) ;;
  set_logic (set_questions_attempted 0) ;;
  set_logic (set_lives MAX_LIVES) ;;
  next_question.

(** [QuizController.start_game] *)
Definition start_game (level : string) : M Controller unit :=
  set_difficulty level ;;
  initialize_quiz ;;
  show_frame "QuizFrame".

(** [QuizFrame.submit_answer]; [entry] is the text of the answer entry. *)
Definition submit_answer (entry : string) : M Controller unit :=
  let user_input := strip entry in
  if String.eqb user_input "" then ret tt
  else
    c <- get ;;
    match after_id c with
    | Some id => after_cancel id ;; set_after_id None
    | None => ret tt
    end ;;
    r <- check_answer user_input ;;
    let '(feedback, solved) := r in
    if contains "Correct" feedback || contains "Wrong!" feedback
    then (if solved : bool then _ <- after cb_next_question ;; ret tt else start_timer)
    else if contains "Invalid Input" feedback
         then start_timer
         else (if solved : bool then _ <- after cb_next_question ;; ret tt else start_timer).

(** ** The event loop *)

(** [QuizController.__init__] with [MathQuizLogic.__init__] and
    [QuizFrame.__init__]: no score, five lives, ten questions to a game, no
    timer, nothing in the queue, the main menu on show.  ([time_left] is
    given its first value by [initialize_quiz] or [start_timer], before any
    method reads it.) *)
Definition opened (r : Rng) (now : Z) : Controller :=
  mkController initial_logic QUESTION_TIME_LIMIT None [] 0 true r now
               [tkraise "MainMenuFrame"].

(** What reaches the handlers while the window is open: the Submit button or
    the Return key of the answer entry, with the text the entry holds; a
    level button of the level page; a button that only raises a frame; a
    callback that [after] has registered, when it is due. *)
Inductive Event : Type :=
| Submit (entry : string)
| StartGame (level : string)
| ShowFrame (frame_name : string)
| Due (id : nat).

(** The callback that waits under the identifier [id]. *)
Fixpoint waiting_under (id : nat) (pending : list (nat * Callback)) : option Callback :=
  match pending with
  | [] => None
  | (i, cb) :: rest => if Nat.eqb i id then Some cb else waiting_under id rest
  end.

(** The method a callback is. *)
Definition call (cb : Callback) : M Controller unit :=
  match cb with
  | cb_update_timer_display => update_timer_display
  | cb_next_question => next_question
  end.

(** A callback that is due leaves the queue and is called; an identifier
    under which nothing waits is due for nothing. *)
Definition fire (id : nat) : M Controller unit :=
  c <- get ;;
  match waiting_under id (pending c) with
  | Some cb => after_cancel id ;; call cb
  | None => ret tt
  end.

(** One turn of the event loop.  A handler runs to its end before the next
    event is taken, the message box of [show_results] being answered within
    it; an exception in a handler is reported by Tk and the loop goes on with
    the state the handler left.  No event is ruled out by the frame on show
    or by the state of the controls, so that the runs of the program are
    among the runs of this loop. *)
Definition handle (c : Controller) (e : Event) : Controller :=
  match e with
  | Submit entry => exec (submit_answer entry) c
  | StartGame level => exec (start_game level) c
  | ShowFrame frame_name => exec (show_frame frame_name) c
  | Due id => exec (fire id) c
  end.

Definition run (c : Controller) (events : list Event) : Controller :=
  fold_left handle events c.

End Quiz.

(* ===================================================================== *)
(** * MathsQuiz/main.py *)
(* ===================================================================== *)

Module Main.
Import PyText Py.

Definition DIFFICULTY_RANGES : list (string * (Z * Z)) :=
  [("Beginner", (1, 9)); ("Intermediate", (10, 99)); ("Advanced", (100, 999))].
Definition MAX_QUESTIONS : Z := 10.
Definition MAX_LIVES : Z := 5.
Definition FIRST_ATTEMPT_POINTS : Z := 10.
Definition SECOND_ATTEMPT_POINTS : Z := 5.

(** One entry of [quiz_data]: the dictionary with keys [q_str], [answer]
    and [attempts]. *)
Record Question : Type := mkQuestion {
  q_str : string;
  answer : Z;
  attempts : Z
}.

(** The page on show; the results page keeps the score and the rank its
    constructor put in its labels. *)
Inductive Page : Type :=
| MainMenuPage
| InstructionsPage
| DifficultySelectPage
| SettingsPage
| QuizPage
| ResultsPage (shown_score : Z) (shown_max : Z) (rank : string).

Inductive Dialog : Type :=
| showerror (title body : string)
| showinfo (title body : string)
| askyesno (title body : string) (answer : bool).

(** [MathsQuizApp]: its game state, the page on show, the random module and
    the message boxes shown (latest first). *)
Record App : Type := mkApp {
  score : Z;
  lives : Z;
  difficulty : option string;
  quiz_data : list Question;
  question_index : Z;
  current_page : option Page;
  rng : Rng;
  dialogs : list Dialog
}.

Definition set_score v (a : App) :=
  mkApp v (lives a) (difficulty a) (quiz_data a) (question_index a) (current_page a) (rng a) (dialogs a).
Definition set_lives v (a : App) :=
  mkApp (score a) v (difficulty a) (quiz_data a) (question_index a) (current_page a) (rng a) (dialogs a).
Definition set_difficulty v (a : App) :=
  mkApp (score a) (lives a) v (quiz_data a) (question_index a) (current_page a) (rng a) (dialogs a).
Definition set_quiz_data v (a : App) :=
  mkApp (score a) (lives a) (difficulty a) v (question_index a) (current_page a) (rng a) (dialogs a).
Definition set_question_index v (a : App) :=
  mkApp (score a) (lives a) (difficulty a) (quiz_data a) v (current_page a) (rng a) (dialogs a).
Definition set_current_page v (a : App) :=
  mkApp (score a) (lives a) (difficulty a) (quiz_data a) (question_index a) v (rng a) (dialogs a).
Definition add_dialog (d : Dialog) (a : App) :=
  mkApp (score a) (lives a) (difficulty a) (quiz_data a) (question_index a)
        (current_page a) (rng a) (d :: dialogs a).
Definition messagebox (d : Dialog) : M App unit := modify (add_dialog d).
Definition with_rng {A} (f : Rng -> Rng * Result A) : M App A :=
  fun a => let (r, res) := f (rng a) in
           (mkApp (score a) (lives a) (difficulty a) (quiz_data a) (question_index a)
                  (current_page a) r (dialogs a), res).

(** [MathsQuizApp.__init__], before it shows the main menu. *)
Definition initial_app (r : Rng) : App :=
  mkApp 0 MAX_LIVES None [] 0 None r [].

(** [ResultsPage.__init__]: the rank from the raw score. *)
Definition ResultsPage__init__ : M App Page :=
  a <- get ;;
  let score := score a in
  let max_score := MAX_QUESTIONS * FIRST_ATTEMPT_POINTS in
  let rank := if 90 <=? score then "A+ (Excellent!)"
              else if 80 <=? score then "A (Great Job!)"
              else if 70 <=? score then "B (Good Work!)"
              else "C (Keep Practicing!)" in
  ret (ResultsPage score max_score rank).

(** [MathsQuizApp.show_results]: [switch_page(ResultsPage)]. *)
Definition show_results : M App unit :=
  new_page <- ResultsPage__init__ ;;
  modify (set_current_page (Some new_page)).

(** [MathsQuizApp.show_main_menu] *)
Definition show_main_menu : M App unit := modify (set_current_page (Some MainMenuPage)).

(** [QuizPage.display_problem] *)
Definition display_problem : M App unit :=
  a <- get ;;
  if (MAX_QUESTIONS <=? question_index a) || (lives a <=? 0)
  then show_results
  else
    _ <- list_get (quiz_data a) (question_index a) ;;
    ret tt.

(** [switch_page(QuizPage)]: the page is built, its constructor displays the
    first problem, and the page becomes the current one unless the
    constructor has already moved on, in which case the assignment at the
    end of the outer [switch_page] still makes it the current page. *)
Definition switch_to_quiz_page : M App unit :=
  display_problem ;;
  modify (set_current_page (Some QuizPage)).

(** One round of the loop of [start_quiz]. *)
Definition generate_question (min_val max_val : Z) : M App unit :=
  n1 <- with_rng (rng_randint min_val max_val) ;;
  n2 <- with_rng (rng_randint min_val max_val) ;;
  op <- with_rng (rng_choice ["+"; "-"]) ;;
  let ans := if String.eqb op "+" then n1 + n2 else n1 - n2 in
  modify (fun a => set_quiz_data
                     (quiz_data a ++
                      [mkQuestion (PyText.str n1 ++ " " ++ op ++ " " ++ PyText.str n2 ++ " =")%string
                                  ans 1]) a).

(** [DifficultySelectPage.start_quiz] *)
Definition start_quiz (level : string) : M App unit :=
  modify (set_difficulty (Some level)) ;;
  modify (set_score 0) ;;
  modify (set_lives MAX_LIVES) ;;
  modify (set_question_index 0) ;;
  modify (set_quiz_data []) ;;
  range <- dict_get DIFFICULTY_RANGES level ;;
  let '(min_val, max_val) := range in
  for_each (seq 0 (Z.to_nat MAX_QUESTIONS)) (fun _ => generate_question min_val max_val) ;;
  switch_to_quiz_page.

(** [q['attempts'] += 1] on the dictionary at [quiz_data[question_index]]. *)
Definition bump_attempts (q : Question) : Question :=
  mkQuestion (q_str q) (answer q) (attempts q + 1).

Definition index_nat (l : list Question) (i : Z) : nat :=
  Z.to_nat (if i <? 0 then Z.of_nat (length l) + i else i).

(** The message of the second miss, as the source file spells it: between
    its two sentences stand the four characters U+F8FF, U+00FC, U+00ED and
    U+00EE (here in UTF-8, nine bytes) and a blank. *)
Definition heart_lost (answer : Z) : string :=
  ("Wrong again! Answer was " ++ PyText.str answer ++ ". üíî 1 Heart Lost.")%string.

(** [QuizPage.check_answer]; [entry] is the text of the answer entry. *)
Definition check_answer (entry : string) : M App unit :=
  parsed <- try_except (v <- int (VStr entry) ;; ret (Some v))
                       (fun e => match e with
                                 | ValueError _ =>
                                     messagebox (showerror "Invalid Input"
                                                   "Please enter a valid whole number.") ;;
                                     ret None
                                 | _ => raise e
                                 end) ;;
  match parsed with
  | None => ret tt
  | Some user_ans =>
      a <- get ;;
      q <- list_get (quiz_data a) (question_index a) ;;
      if user_ans =? answer q
      then
        let points := if attempts q =? 1 then FIRST_ATTEMPT_POINTS else SECOND_ATTEMPT_POINTS in
        modify (fun a => set_score (score a + points) a) ;;
        messagebox (showinfo "Correct" ("Nice! +" ++ PyText.str points ++ " points")%string) ;;
        modify (fun a => set_question_index (question_index a + 1) a) ;;
        display_problem
      else
        modify (fun a => set_quiz_data
                           (alter bump_attempts (index_nat (quiz_data a) (question_index a))
                                  (quiz_data a)) a) ;;
        if 2 <? attempts q + 1
        then
          modify (fun a => set_lives (lives a - 1) a) ;;
          messagebox (showerror "Incorrect" (heart_lost (answer q))) ;;
          modify (fun a => set_question_index (question_index a + 1) a) ;;
          display_problem
        else ret tt
  end.

(** [QuizPage.confirm_quit]; [answer] is the answer to its question. *)
Definition confirm_quit (answer : bool) : M App unit :=
  messagebox (askyesno "Quit"
                "Are you sure you want to quit? Your current score will be calculated."
                answer) ;;
  if answer then show_results else ret tt.

(** What the user can do on the quiz page. *)
Inductive Event : Type :=
| Submit (entry : string)
| QuitGame (answer : bool).

(** The event loop while a quiz is on: an event reaches the quiz page only
    while that page is the current one (a page that is switched away from is
    destroyed with its widgets); an exception in a handler is reported by
    Tk and the loop goes on with the state the handler left. *)
Definition handle (a : App) (e : Event) : App :=
  match current_page a with
  | Some QuizPage =>
      match e with
      | Submit entry => exec (check_answer entry) a
      | QuitGame answer => exec (confirm_quit answer) a
      end
  | _ => a
  end.

Definition run (a : App) (events : list Event) : App := fold_left handle events a.

End Main.

(* ===================================================================== *)
(** * Facts about the text primitives *)
(* ===================================================================== *)

Module PyTextFacts.
Import PyText.

(** ** The primitives on a few inputs *)

Example str_examples :
  map PyText.str [0; 7; 10; -12; 1234] = ["0"; "7"; "10"; "-12"; "1234"].
Proof. reflexivity. Qed.

Example int_examples :
  map PyText.int ["12"; " 05 "; "+3"; "-0"; "1_0"; "1__0"; "_1"; ""; "Timeout"; "- 1"; "4.5"]
  = [Some 12; Some 5; Some 3; Some 0; Some 10; None; None; None; None; None; None].
Proof. reflexivity. Qed.

(** [strip] removes the separators FS..US, [int] refuses them. *)
Example int_separator_examples :
  PyText.int (String (ascii_of_nat 28) "12") = None /\
  PyText.int (strip (String (ascii_of_nat 28) "12")) = Some 12 /\
  plain "12" = true /\ isascii (String (ascii_of_nat 195) "") = false.
Proof. repeat split; reflexivity. Qed.

Example split_examples :
  split "," "a,b,,c" = ["a"; "b"; ""; "c"] /\ split "," "" = [""].
Proof. split; reflexivity. Qed.

Example readlines_examples :
  readlines ("a" ++ newline ++ "b")%string = [("a" ++ newline)%string; "b"] /\
  readlines ("a" ++ newline ++ newline)%string = [("a" ++ newline)%string; newline].
Proof. split; reflexivity. Qed.

Example strip_examples :
  strip "  ab c  " = "ab c" /\ strip (" 12" ++ newline) = "12" /\ strip "   " = "".
Proof. repeat split; reflexivity. Qed.

Example lower_contains_examples :
  lower "Ann-Marie 2B" = "ann-marie 2b" /\
  contains "mar" "ann-marie" = true /\ contains "" "ann" = true /\
  contains "42" "0042" = true /\ contains "x" "ann" = false.
Proof. repeat split; reflexivity. Qed.

(** ** Strings *)

Lemma append_nil_r (s : string) : (s ++ "")%string = s.
Proof. induction s as [|c s IH]; cbn; [|rewrite IH]; reflexivity. Qed.

Lemma append_assoc (s t u : string) : ((s ++ t) ++ u)%string = (s ++ t ++ u)%string.
Proof. induction s as [|c s IH]; cbn; [|rewrite IH]; reflexivity. Qed.

(** [c in s] for one character. *)
Fixpoint has_char (c : ascii) (s : string) : bool :=
  match s with
  | EmptyString => false
  | String d r => Ascii.eqb d c || has_char c r
  end.

(** No character of [s] is white space. *)
Fixpoint no_space (s : string) : bool :=
  match s with
  | EmptyString => true
  | String c r => negb (isspace c) && no_space r
  end.

(** ** split and join *)

Lemma split_not_nil (sep : ascii) (s : string) : split sep s <> [].
Proof.
  induction s as [|c s IH]; cbn; [discriminate|].
  destruct (Ascii.eqb c sep); [discriminate|].
  destruct (split sep s); [contradiction | discriminate].
Qed.

Lemma join_split (sep : ascii) (s : string) :
  join (String sep "") (split sep s) = s.
Proof.
  induction s as [|c s IH]; cbn; [reflexivity|].
  destruct (Ascii.eqb_spec c sep) as [->|Hc].
  - cbn. pose proof (split_not_nil sep s) as Hne.
    destruct (split sep s) as [|h t]; [contradiction|].
    cbn in *. rewrite IH. reflexivity.
  - pose proof (split_not_nil sep s) as Hne.
    destruct (split sep s) as [|h t]; [contradiction|].
    destruct t as [|h' t]; cbn in *; rewrite <- IH; reflexivity.
Qed.

(** ** strip *)

Lemma rstrip_no_space (s : string) : no_space s = true -> rstrip s = s.
Proof.
  induction s as [|c s IH]; cbn; [reflexivity|].
  intros H. apply andb_prop in H as [Hc Hs]. rewrite (IH Hs).
  destruct s; [|reflexivity].
  destruct (isspace c); [discriminate | reflexivity].
Qed.

Lemma lstrip_no_space (s : string) : no_space s = true -> lstrip s = s.
Proof.
  destruct s as [|c s]; cbn; [reflexivity|].
  intros H. apply andb_prop in H as [Hc _].
  destruct (isspace c); [discriminate | reflexivity].
Qed.

Lemma strip_no_space (s : string) : no_space s = true -> strip s = s.
Proof.
  intros H. unfold strip. rewrite (rstrip_no_space s H). apply lstrip_no_space, H.
Qed.

(** The line feed at the end of a line goes with the white space. *)
Lemma rstrip_newline (s : string) : rstrip (s ++ newline) = rstrip s.
Proof.
  induction s as [|c s IH]; cbn; [reflexivity|].
  rewrite IH. reflexivity.
Qed.

Lemma strip_newline (s : string) : strip (s ++ newline) = strip s.
Proof. unfold strip. rewrite rstrip_newline. reflexivity. Qed.

(** ** readlines and writelines *)

Lemma writelines_cons (line : string) (lines : list string) :
  writelines (line :: lines) = (line ++ writelines lines)%string.
Proof.
  unfold writelines. destruct lines as [|l lines]; cbn; [|reflexivity].
  symmetry. apply append_nil_r.
Qed.

Lemma readlines_line (r rest : string) :
  has_char LF r = false ->
  readlines (r ++ String LF rest) = (r ++ newline)%string :: readlines rest.
Proof.
  induction r as [|c r IH]; cbn; [reflexivity|].
  intros H. apply orb_false_elim in H as [Hc Hr].
  rewrite Hc, (IH Hr). reflexivity.
Qed.

Lemma readlines_writelines (rs : list string) :
  Forall (fun r => has_char LF r = false) rs ->
  readlines (writelines (map (fun r => (r ++ newline)%string) rs))
  = map (fun r => (r ++ newline)%string) rs.
Proof.
  induction 1 as [|r rs Hr _ IH]; [reflexivity|].
  cbn [map]. rewrite writelines_cons, append_assoc.
  change (newline ++ ?t)%string with (String LF t).
  rewrite (readlines_line _ _ Hr), IH. reflexivity.
Qed.

(** ** int and str *)

Lemma digit_val_char (d : Z) : 0 <= d < 10 -> digit_val (digit_char d) = d.
Proof.
  intros H.
  assert (E : d = 0 \/ d = 1 \/ d = 2 \/ d = 3 \/ d = 4 \/ d = 5 \/ d = 6 \/ d = 7 \/
              d = 8 \/ d = 9) by lia.
  repeat (destruct E as [->|E]; [reflexivity|]). subst. reflexivity.
Qed.

Lemma isdigit_digit_char (d : Z) : 0 <= d < 10 -> isdigit_char (digit_char d) = true.
Proof.
  intros H.
  assert (E : d = 0 \/ d = 1 \/ d = 2 \/ d = 3 \/ d = 4 \/ d = 5 \/ d = 6 \/ d = 7 \/
              d = 8 \/ d = 9) by lia.
  repeat (destruct E as [->|E]; [reflexivity|]). subst. reflexivity.
Qed.

(** The digits [str_digits] puts before [acc] read back as [n]. *)
Lemma int_digits_str_digits (fuel : nat) (n : Z) (acc : string) (prev : bool) :
  0 <= n < 2 ^ Z.of_nat fuel ->
  (0 < fuel)%nat ->
  int_digits (str_digits fuel n acc) 0 prev = int_digits acc n true.
Proof.
  revert n acc prev. induction fuel as [|fuel IH]; intros n acc prev Hn Hf; [lia|].
  cbn [str_digits].
  pose proof (Z.mod_pos_bound n 10 ltac:(lia)) as Hm.
  pose proof (Z.div_mod n 10 ltac:(lia)) as Hdm.
  destruct (Z.eqb_spec (n / 10) 0) as [Hz|Hz].
  - cbn [int_digits]. rewrite isdigit_digit_char, digit_val_char by lia.
    f_equal. lia.
  - assert (Hq : 0 < n / 10) by (pose proof (Z.div_pos n 10); lia).
    assert (Hpow : 2 ^ Z.of_nat (S fuel) = 2 * 2 ^ Z.of_nat fuel)
      by (rewrite Nat2Z.inj_succ, Z.pow_succ_r by lia; reflexivity).
    assert (Hlt : n / 10 < 2 ^ Z.of_nat fuel) by (apply Z.div_lt_upper_bound; lia).
    assert (Hfuel : (0 < fuel)%nat).
    { destruct fuel; [|lia]. cbn in Hlt. lia. }
    rewrite (IH (n / 10) _ prev ltac:(lia) Hfuel).
    cbn [int_digits]. rewrite isdigit_digit_char, digit_val_char by lia.
    f_equal. lia.
Qed.

Lemma all_digits_str_digits (fuel : nat) (n : Z) (acc : string) :
  0 <= n -> all_digits acc = true -> all_digits (str_digits fuel n acc) = true.
Proof.
  revert n acc. induction fuel as [|fuel IH]; intros n acc Hn Hacc; [exact Hacc|].
  cbn [str_digits].
  pose proof (Z.mod_pos_bound n 10 ltac:(lia)) as Hm.
  assert (Hacc' : all_digits (String (digit_char (n mod 10)) acc) = true)
    by (cbn; rewrite isdigit_digit_char by lia; exact Hacc).
  destruct (n / 10 =? 0); [exact Hacc'|].
  apply IH; [apply Z.div_pos; lia | exact Hacc'].
Qed.

Lemma str_digits_not_empty (fuel : nat) (n : Z) (acc : string) :
  (0 < fuel)%nat -> str_digits fuel n acc <> "".
Proof.
  revert n acc. induction fuel as [|fuel IH]; intros n acc Hf; [lia|].
  cbn [str_digits]. destruct (n / 10 =? 0); [discriminate|].
  destruct fuel; [discriminate | apply IH; lia].
Qed.

Lemma log2_fuel (n : Z) : 0 <= n -> n < 2 ^ Z.of_nat (S (Z.to_nat (Z.log2 n))).
Proof.
  intros H. rewrite Nat2Z.inj_succ, Z2Nat.id by apply Z.log2_nonneg.
  destruct (Z.eq_dec n 0) as [->|Hn]; [reflexivity|].
  apply Z.log2_spec. lia.
Qed.

Lemma int_digits_str_nonneg (n : Z) (prev : bool) :
  0 <= n -> int_digits (str_nonneg n) 0 prev = Some n.
Proof.
  intros H. unfold str_nonneg.
  rewrite int_digits_str_digits; [reflexivity | | lia].
  split; [exact H | apply log2_fuel, H].
Qed.

Lemma all_digits_no_space (s : string) : all_digits s = true -> no_space s = true.
Proof.
  induction s as [|c s IH]; cbn; [reflexivity|].
  intros H. apply andb_prop in H as [Hc Hs]. rewrite (IH Hs), andb_true_r.
  destruct c as [[] [] [] [] [] [] [] []]; try discriminate; reflexivity.
Qed.

(** The white space of a literal is white space for [strip]. *)
Lemma isspace_literal_isspace (c : ascii) : isspace c = false -> isspace_literal c = false.
Proof. destruct c as [[] [] [] [] [] [] [] []]; intros H; try discriminate H; reflexivity. Qed.

Lemma literal_rstrip_no_space (s : string) : no_space s = true -> literal_rstrip s = s.
Proof.
  induction s as [|c s IH]; cbn; [reflexivity|].
  intros H. apply andb_prop in H as [Hc Hs]. rewrite (IH Hs).
  destruct s; [|reflexivity].
  rewrite isspace_literal_isspace; [reflexivity|].
  destruct (isspace c); [discriminate | reflexivity].
Qed.

Lemma literal_lstrip_no_space (s : string) : no_space s = true -> literal_lstrip s = s.
Proof.
  destruct s as [|c s]; cbn; [reflexivity|].
  intros H. apply andb_prop in H as [Hc _].
  rewrite isspace_literal_isspace; [reflexivity|].
  destruct (isspace c); [discriminate | reflexivity].
Qed.

Lemma literal_strip_no_space (s : string) :
  no_space s = true -> literal_lstrip (literal_rstrip s) = s.
Proof.
  intros H. rewrite (literal_rstrip_no_space s H). apply literal_lstrip_no_space, H.
Qed.

(** A literal that starts with a digit has no sign to take off. *)
Lemma int_unsigned (s : string) :
  all_digits s = true -> PyText.int s = int_digits s 0 false.
Proof.
  intros H. unfold PyText.int. rewrite (literal_strip_no_space s (all_digits_no_space s H)).
  destruct s as [|c r]; [reflexivity|].
  cbn in H. apply andb_prop in H as [Hc _].
  destruct c as [[] [] [] [] [] [] [] []]; try discriminate; reflexivity.
Qed.

(** [int(str(z))] is [z]. *)
Lemma int_str (z : Z) : PyText.int (PyText.str z) = Some z.
Proof.
  unfold PyText.str. destruct (Z.ltb_spec z 0) as [Hneg|Hpos].
  - assert (Hd : all_digits (str_nonneg (- z)) = true)
      by (apply all_digits_str_digits; [lia | reflexivity]).
    unfold PyText.int.
    rewrite literal_strip_no_space by (cbn; apply all_digits_no_space, Hd).
    rewrite int_digits_str_nonneg by lia. cbn. f_equal. lia.
  - assert (Hd : all_digits (str_nonneg z) = true)
      by (apply all_digits_str_digits; [lia | reflexivity]).
    rewrite (int_unsigned _ Hd). apply int_digits_str_nonneg, Hpos.
Qed.


End PyTextFacts.

(* ===================================================================== *)
(** * Running a method *)
(* ===================================================================== *)

Module PyFacts.
Import Py.

Lemma exec_ret {S A} (x : A) (s : S) : exec (ret x) s = s.
Proof. reflexivity. Qed.

Lemma exec_modify {S} (f : S -> S) (s : S) : exec (modify f) s = f s.
Proof. reflexivity. Qed.

Lemma exec_bind_modify {S A} (f : S -> S) (k : unit -> M S A) (s : S) :
  exec (bind (modify f) k) s = exec (k tt) (f s).
Proof. reflexivity. Qed.

Lemma eval_bind_modify {S A} (f : S -> S) (k : unit -> M S A) (s : S) :
  eval (bind (modify f) k) s = eval (k tt) (f s).
Proof. reflexivity. Qed.

Lemma run_bind_modify {S A} (f : S -> S) (k : unit -> M S A) (s : S) :
  bind (modify f) k s = k tt (f s).
Proof. reflexivity. Qed.

Lemma run_bind_ret {S A B} (x : A) (k : A -> M S B) (s : S) :
  bind (ret x) k s = k x s.
Proof. reflexivity. Qed.

Lemma run_bind_ok {S A B} (m : M S A) (k : A -> M S B) (s s' : S) (x : A) :
  m s = (s', Ok x) -> bind m k s = k x s'.
Proof. intros H. unfold bind. rewrite H. reflexivity. Qed.

Lemma run_bind_raise {S A B} (m : M S A) (k : A -> M S B) (s s' : S) (e : Exn) :
  m s = (s', Raise e) -> bind m k s = (s', Raise e).
Proof. intros H. unfold bind. rewrite H. reflexivity. Qed.

Lemma run_try_ok {S A} (m : M S A) (h : Exn -> M S A) (s s' : S) (x : A) :
  m s = (s', Ok x) -> try_except m h s = (s', Ok x).
Proof. intros H. unfold try_except. rewrite H. reflexivity. Qed.

(** A test that holds on every integer of [0, n), by running it. *)
Lemma check_range (P : Z -> bool) (n : nat) :
  forallb P (map Z.of_nat (seq 0 n)) = true ->
  forall z, 0 <= z < Z.of_nat n -> P z = true.
Proof.
  intros H z Hz. rewrite forallb_forall in H. apply H.
  replace z with (Z.of_nat (Z.to_nat z)) by lia.
  apply in_map, in_seq. lia.
Qed.

Lemma run_try_raise {S A} (m : M S A) (h : Exn -> M S A) (s s' : S) (e : Exn) :
  m s = (s', Raise e) -> try_except m h s = h e s'.
Proof. intros H. unfold try_except. rewrite H. reflexivity. Qed.

End PyFacts.

(* ===================================================================== *)
(** * Facts about quiz.py *)
(* ===================================================================== *)

Module QuizFacts.
Import PyText Py Quiz.

(** A controller in the middle of a quiz, for the examples. *)
Definition tape0 : nat -> Z := fun _ => 0.
Definition controller_at (l : MathQuizLogic) : Controller :=
  mkController l 9 (Some 3%nat) [(3%nat, cb_update_timer_display)] 4 true (mkRng tape0 0) 0 [].

Ltac run_py :=
  cbv [check_answer bind try_except Py.int ret raise get get_logic set_logic emit modify
       show_results show_frame exec eval fst snd].

(** [check_answer] on an input that [int] rejects. *)
Lemma check_answer_rejects (user_input : string) (c : Controller) :
  PyText.int user_input = None ->
  check_answer user_input c = (c, Ok ("Invalid Input", false)).
Proof.
  intros H. run_py. rewrite H. reflexivity.
Qed.



(** The time-out of [update_timer_display] sets the attempts to 1 and calls
    [check_answer("Timeout")]: no life is lost and no question is counted. *)
Lemma timeout_takes_no_life (c : Controller) :
  time_left c < 0 ->
  let c' := exec update_timer_display c in
  lives (quiz_logic c') = lives (quiz_logic c) /\
  questions_attempted (quiz_logic c') = questions_attempted (quiz_logic c) /\
  score (quiz_logic c') = score (quiz_logic c) /\
  attempts_remaining (quiz_logic c') = 1.
Proof.
  intros H c'. subst c'. unfold update_timer_display, exec.
  rewrite (PyFacts.run_bind_ok _ _ c c c eq_refl).
  destruct (Z.leb_spec 0 (time_left c)); [lia|].
  unfold set_controls, set_logic. rewrite !PyFacts.run_bind_modify.
  erewrite PyFacts.run_bind_ok by (apply check_answer_rejects; reflexivity).
  destruct c as [l ? ? ? ? ? ? ? ?]; destruct l; cbn. auto.
Qed.

Ltac open_controller c :=
  let l := fresh "l" in
  destruct c as [l ? ? ? ? ? ? ? ?]; destruct l; cbn in *; subst.

Ltac decide_tests :=
  repeat match goal with
    | |- context [Z.eqb ?a ?b] => destruct (Z.eqb_spec a b); try lia; try congruence; cbn
    | |- context [Z.leb ?a ?b] => destruct (Z.leb_spec a b); try lia; cbn
    | |- context [Z.ltb ?a ?b] => destruct (Z.ltb_spec a b); try lia; cbn
    end.

(** The state [check_answer] leaves after a wrong answer that is not the
    last attempt: one attempt fewer, the sound played, nothing else. *)
Lemma check_answer_wrong_first (c : Controller) (x : string) (v a : Z) :
  PyText.int x = Some v -> v <> a ->
  current_answer (quiz_logic c) = Some a ->
  attempts_remaining (quiz_logic c) <> 1 ->
  check_answer x c =
    (exec (emit (play_sfx "wrong") ;;
           set_logic (set_attempts_remaining (attempts_remaining (quiz_logic c) - 1))) c,
     Ok ("Wrong. One more attempt remaining.", false)).
Proof.
  intros Hx Hv Ha Hr. open_controller c. run_py. rewrite Hx. cbn.
  decide_tests; reflexivity.
Qed.

(** A right answer: 10 points when both attempts are left, 5 otherwise. *)
Lemma check_answer_correct (c : Controller) (x : string) (a : Z) :
  PyText.int x = Some a ->
  current_answer (quiz_logic c) = Some a ->
  let points := if attempts_remaining (quiz_logic c) =? 2 then 10 else 5 in
  check_answer x c =
    (exec (emit (play_sfx "correct") ;;
           set_logic (set_score (score (quiz_logic c) + points)) ;;
           set_logic (set_questions_attempted (questions_attempted (quiz_logic c) + 1))) c,
     Ok (("Correct! (+" ++ PyText.str points ++ " points)")%string, true)).
Proof.
  intros Hx Ha. open_controller c. run_py. rewrite Hx. cbn.
  rewrite Z.eqb_refl. reflexivity.
Qed.

(** The last wrong answer while more than one life is left. *)
Lemma check_answer_wrong_last (c : Controller) (x : string) (v a : Z) :
  PyText.int x = Some v -> v <> a ->
  current_answer (quiz_logic c) = Some a ->
  attempts_remaining (quiz_logic c) = 1 ->
  1 < lives (quiz_logic c) ->
  check_answer x c =
    (exec (emit (play_sfx "wrong") ;;
           set_logic (set_attempts_remaining 0) ;;
           set_logic (set_lives (lives (quiz_logic c) - 1)) ;;
           set_logic (set_questions_attempted (questions_attempted (quiz_logic c) + 1))) c,
     Ok (("Wrong! The answer was " ++ PyText.str a ++ ". You lost a life.")%string, true)).
Proof.
  intros Hx Hv Ha Hr Hl. open_controller c. run_py. rewrite Hx. cbn.
  decide_tests; reflexivity.
Qed.

(** The last wrong answer on the last life: [show_results] runs inside
    [check_answer], and puts the lives back to [MAX_LIVES] and the count of
    questions back to 0 before the method returns. *)
Lemma check_answer_wrong_game_over (c : Controller) (x : string) (v a : Z) :
  PyText.int x = Some v -> v <> a ->
  current_answer (quiz_logic c) = Some a ->
  attempts_remaining (quiz_logic c) = 1 ->
  lives (quiz_logic c) <= 1 ->
  check_answer x c =
    (exec (emit (play_sfx "wrong") ;;
           set_logic (set_attempts_remaining 0) ;;
           set_logic (set_lives MAX_LIVES) ;;
           set_logic (set_questions_attempted 0) ;;
           emit (quiz_complete "Game Over! Out of Lives." (difficulty (quiz_logic c))
                               (score (quiz_logic c))
                               (calculate_rank (quiz_logic c))) ;;
           emit (tkraise "MainMenuFrame")) c,
     Ok (("Wrong! The answer was " ++ PyText.str a ++ ". You lost a life.")%string, true)).
Proof.
  intros Hx Hv Ha Hr Hl. open_controller c. run_py. rewrite Hx. cbn.
  decide_tests; reflexivity.
Qed.

(** The three runs of one problem, from the state [generate_problem] leaves
    (two attempts, the answer [a] stored). *)
Lemma quiz_two_attempt_rule (c : Controller) (a : Z) :
  current_answer (quiz_logic c) = Some a ->
  attempts_remaining (quiz_logic c) = 2 ->
  (forall x, PyText.int x = Some a ->
     let c1 := exec (check_answer x) c in
     eval (check_answer x) c = Ok ("Correct! (+10 points)", true) /\
     score (quiz_logic c1) = score (quiz_logic c) + 10 /\
     questions_attempted (quiz_logic c1) = questions_attempted (quiz_logic c) + 1 /\
     lives (quiz_logic c1) = lives (quiz_logic c)) /\
  (forall x y vx, PyText.int x = Some vx -> vx <> a -> PyText.int y = Some a ->
     let c1 := exec (check_answer x) c in
     let c2 := exec (check_answer y) c1 in
     eval (check_answer x) c = Ok ("Wrong. One more attempt remaining.", false) /\
     score (quiz_logic c1) = score (quiz_logic c) /\
     questions_attempted (quiz_logic c1) = questions_attempted (quiz_logic c) /\
     lives (quiz_logic c1) = lives (quiz_logic c) /\
     eval (check_answer y) c1 = Ok ("Correct! (+5 points)", true) /\
     score (quiz_logic c2) = score (quiz_logic c) + 5 /\
     questions_attempted (quiz_logic c2) = questions_attempted (quiz_logic c) + 1 /\
     lives (quiz_logic c2) = lives (quiz_logic c)) /\
  (forall x y vx vy, PyText.int x = Some vx -> vx <> a -> PyText.int y = Some vy -> vy <> a ->
     let c1 := exec (check_answer x) c in
     let c2 := exec (check_answer y) c1 in
     eval (check_answer y) c1 =
       Ok (("Wrong! The answer was " ++ PyText.str a ++ ". You lost a life.")%string, true) /\
     score (quiz_logic c2) = score (quiz_logic c) /\
     (1 < lives (quiz_logic c) ->
        lives (quiz_logic c2) = lives (quiz_logic c) - 1 /\
        questions_attempted (quiz_logic c2) = questions_attempted (quiz_logic c) + 1 /\
        ui c2 = play_sfx "wrong" :: play_sfx "wrong" :: ui c) /\
     (lives (quiz_logic c) <= 1 ->
        lives (quiz_logic c2) = MAX_LIVES /\
        questions_attempted (quiz_logic c2) = 0 /\
        ui c2 = tkraise "MainMenuFrame" ::
                quiz_complete "Game Over! Out of Lives." (difficulty (quiz_logic c))
                              (score (quiz_logic c)) (calculate_rank (quiz_logic c)) ::
                play_sfx "wrong" :: play_sfx "wrong" :: ui c)).
Proof.
  intros Ha Hr. split; [|split].
  - intros x Hx c1. subst c1. unfold exec, eval.
    rewrite (check_answer_correct c x a Hx Ha). rewrite Hr.
    open_controller c. cbn. auto.
  - intros x y vx Hx Hvx Hy c1 c2. subst c2 c1. unfold exec, eval.
    rewrite (check_answer_wrong_first c x vx a Hx Hvx Ha) by lia.
    rewrite (check_answer_correct _ y a Hy) by (open_controller c; reflexivity).
    open_controller c. cbn. auto 10.
  - intros x y vx vy Hx Hvx Hy Hvy c1 c2. subst c2 c1. unfold exec, eval.
    rewrite (check_answer_wrong_first c x vx a Hx Hvx Ha) by lia.
    destruct (Z.lt_ge_cases 1 (lives (quiz_logic c))) as [Hl|Hl].
    + rewrite (check_answer_wrong_last _ y vy a Hy Hvy)
        by (open_controller c; first [reflexivity | assumption]).
      open_controller c. cbn. repeat split; intros; try reflexivity; lia.
    + rewrite (check_answer_wrong_game_over _ y vy a Hy Hvy)
        by (open_controller c; first [reflexivity | assumption]).
      open_controller c. cbn. repeat split; intros; try reflexivity; lia.
Qed.

(** A Beginner problem whose answer is 12, answered 7 and then 12: the first
    answer is wrong with one attempt left, the second is right for 5 points. *)
Example wrong_then_right :
  let c := controller_at (mkLogic 0 0 (Some 12) 2 MAX_LIVES (Some "Beginner") 10 (Some 0)) in
  eval (check_answer "7") c = Ok ("Wrong. One more attempt remaining.", false) /\
  eval (check_answer "12") (exec (check_answer "7") c) = Ok ("Correct! (+5 points)", true) /\
  score (quiz_logic (exec (check_answer "12") (exec (check_answer "7") c))) = 5.
Proof. cbv zeta. repeat split; vm_compute; reflexivity. Qed.

(** A quiz on its last life, the problem [5 + 7] posed. *)
Definition last_life : Controller :=
  controller_at (mkLogic 40 6 (Some 12) 2 1 (Some "Beginner") 10 (Some 0)).

(** C3, the counterexample.  Two wrong answers on the last life: when
    [check_answer] returns, the lives are not one fewer (they are back at 5)
    and the count of questions has not gone up by one (it is back at 0). *)
Lemma two_wrong_on_last_life_resets :
  let c2 := exec (check_answer "8") (exec (check_answer "7") last_life) in
  attempts_remaining (quiz_logic last_life) = 2 /\
  current_answer (quiz_logic last_life) = Some 12 /\
  eval (check_answer "7") last_life = Ok ("Wrong. One more attempt remaining.", false) /\
  eval (check_answer "8") (exec (check_answer "7") last_life)
    = Ok ("Wrong! The answer was 12. You lost a life.", true) /\
  lives (quiz_logic last_life) = 1 /\
  lives (quiz_logic c2) = 5 /\
  lives (quiz_logic c2) <> lives (quiz_logic last_life) - 1 /\
  questions_attempted (quiz_logic last_life) = 6 /\
  questions_attempted (quiz_logic c2) = 0 /\
  questions_attempted (quiz_logic c2) <> questions_attempted (quiz_logic last_life) + 1.
Proof.
  vm_compute. repeat split; congruence.
Qed.

(** ** calculate_rank *)

(** The rank by the exact percentage [score / (max_questions * 10) * 100],
    compared with a threshold [t] as [t * (max_questions * 10) <= score * 100]. *)
Definition rank_of_exact_percent (score max_questions : Z) : string :=
  let reaches t := t * (max_questions * 10) <=? score * 100 in
  if reaches 90 then "A+ (Outstanding!)"
  else if reaches 80 then "A (Excellent!)"
  else if reaches 70 then "B (Very Good)"
  else if reaches 60 then "C (Good)"
  else "F (Try Again)".

Definition logic_with (score max_questions : Z) : MathQuizLogic :=
  mkLogic score 0 None 2 MAX_LIVES None max_questions None.

Lemma calculate_rank_reads (l : MathQuizLogic) :
  calculate_rank l = calculate_rank (logic_with (score l) (max_questions l)).
Proof. destruct l. reflexivity. Qed.

Definition rank_agrees (max_questions score : Z) : bool :=
  (max_questions =? 0) ||
  String.eqb (calculate_rank (logic_with score max_questions))
             (rank_of_exact_percent score max_questions).

Lemma rank_agrees_upto :
  forallb (fun m => forallb (rank_agrees m) (map Z.of_nat (seq 0 1001)))
          (map Z.of_nat (seq 0 21)) = true.
Proof. vm_compute. reflexivity. Qed.

(** [calculate_rank] takes the percentage as
    [(score / (max_questions * 10)) * 100] and ranks it by the thresholds
    90, 80, 70 and 60: the float it compares falls on the same side of each
    threshold as the exact percentage, so below 60 per cent the rank is F.
    (Run for every number of questions up to 20 and every score up to 1000;
    the program's number of questions is 10 and a quiz scores at most 100.) *)
Lemma calculate_rank_by_percent (l : MathQuizLogic) :
  1 <= max_questions l <= 20 ->
  0 <= score l <= 1000 ->
  score_percent l =
    PrimFloat.mul (PrimFloat.div (float_of_int (score l)) (float_of_int (max_questions l * 10)))
                  (float_of_int 100) /\
  calculate_rank l = rank_of_exact_percent (score l) (max_questions l) /\
  (score l * 100 < 60 * (max_questions l * 10) -> calculate_rank l = "F (Try Again)").
Proof.
  intros Hm Hs.
  assert (Hrank : calculate_rank l = rank_of_exact_percent (score l) (max_questions l)).
  { rewrite calculate_rank_reads. apply String.eqb_eq.
    pose proof (PyFacts.check_range _ _ rank_agrees_upto (max_questions l) ltac:(lia)) as H.
    cbv beta in H.
    pose proof (PyFacts.check_range _ _ H (score l) ltac:(lia)) as H'.
    unfold rank_agrees in H'.
    destruct (Z.eqb_spec (max_questions l) 0); [lia | exact H']. }
  split; [|split].
  - unfold score_percent. destruct (Z.eqb_spec (max_questions l) 0); [lia | reflexivity].
  - exact Hrank.
  - intros Hlow. rewrite Hrank. unfold rank_of_exact_percent.
    repeat match goal with
      | |- context [Z.leb ?a ?b] => destruct (Z.leb_spec a b); [lia|]
      end.
    reflexivity.
Qed.

Example calculate_rank_at_55 :
  calculate_rank (mkLogic 55 10 (Some 12) 2 3 (Some "Beginner") 10 (Some 0)) = "F (Try Again)".
Proof. reflexivity. Qed.

(** ** generate_problem *)

(** The cell of the tape the next draw reads, and the controller after a draw. *)
Definition draw (c : Controller) : Z := tape (rng c) (cursor (rng c)).
Definition advance (c : Controller) : Controller :=
  mkController (quiz_logic c) (time_left c) (after_id c) (pending c) (next_id c)
               (controls_enabled c) (mkRng (tape (rng c)) (S (cursor (rng c)))) (clock c) (ui c).

Lemma random_int_run (lo hi : Z) (c : Controller) :
  lo <= hi ->
  random_int lo hi c = (advance c, Ok (lo + draw c mod (hi - lo + 1))).
Proof.
  intros H. unfold random_int, with_rng, rng_randint, rng_next, advance, draw.
  destruct (Z.ltb_spec hi lo); [lia | reflexivity].
Qed.

Lemma decide_operation_run (c : Controller) :
  decide_operation c = (advance c, Ok (if draw c mod 2 =? 0 then "+" else "-")).
Proof.
  unfold decide_operation, with_rng, rng_choice, rng_next, advance, draw.
  change (Z.of_nat (length ["+"; "-"])) with 2.
  pose proof (Z.mod_pos_bound (tape (rng c) (cursor (rng c))) 2 ltac:(lia)) as Hb.
  destruct (Z.eqb_spec (tape (rng c) (cursor (rng c)) mod 2) 0) as [E|E].
  - rewrite E. reflexivity.
  - replace (tape (rng c) (cursor (rng c)) mod 2) with 1 by lia. reflexivity.
Qed.

(** The stored answer of a generated problem is the sum or the difference of
    the operands shown, the first operand of a subtraction is the larger, and
    the answer is not negative. *)
Lemma generate_problem_answer (c : Controller) (level : string) (lo hi : Z) :
  difficulty (quiz_logic c) = Some level ->
  In (level, (lo, hi)) DIFFICULTY_SETTINGS ->
  exists (num1 num2 : Z) (operation : string),
    eval generate_problem c = Ok (PyText.str num1 ++ " " ++ operation ++ " " ++ PyText.str num2)%string /\
    lo <= num1 <= hi /\ lo <= num2 <= hi /\
    (operation = "+" /\
       current_answer (quiz_logic (exec generate_problem c)) = Some (num1 + num2) \/
     operation = "-" /\ num2 <= num1 /\
       current_answer (quiz_logic (exec generate_problem c)) = Some (num1 - num2)) /\
    (exists a, current_answer (quiz_logic (exec generate_problem c)) = Some a /\ 0 <= a) /\
    attempts_remaining (quiz_logic (exec generate_problem c)) = 2.
Proof.
  intros Hd Hin.
  assert (Hrange : 1 <= lo <= hi) by
    (cbn in Hin; intuition (try match goal with H : (_, _) = (_, _) |- _ => inversion H end; lia)).
  assert (Hget : dict_get DIFFICULTY_SETTINGS level c = (c, Ok (lo, hi))).
  { cbn in Hin. intuition; try match goal with H : (_, _) = (_, _) |- _ => inversion H end;
      subst; reflexivity. }
  set (r1 := lo + draw c mod (hi - lo + 1)).
  set (r2 := lo + draw (advance c) mod (hi - lo + 1)).
  assert (H1 : lo <= r1 <= hi)
    by (subst r1; pose proof (Z.mod_pos_bound (draw c) (hi - lo + 1)); lia).
  assert (H2 : lo <= r2 <= hi)
    by (subst r2; pose proof (Z.mod_pos_bound (draw (advance c)) (hi - lo + 1)); lia).
  unfold generate_problem, eval, exec, bind, get_logic. rewrite Hd, Hget.
  rewrite (random_int_run lo hi c) by lia.
  rewrite (random_int_run lo hi (advance c)) by lia.
  rewrite decide_operation_run. fold r1 r2.
  destruct (draw (advance (advance c)) mod 2 =? 0).
  - exists r1, r2, "+". cbn.
    split; [reflexivity|]. split; [lia|]. split; [lia|].
    split; [left; split; reflexivity|].
    split; [|reflexivity]. exists (r1 + r2). split; [reflexivity | lia].
  - cbn [String.eqb Ascii.eqb Bool.eqb andb].
    destruct (Z.ltb_spec r1 r2).
    + exists r2, r1, "-". cbn.
      split; [reflexivity|]. split; [lia|]. split; [lia|].
      split; [right; split; [reflexivity | split; [lia | reflexivity]]|].
      split; [|reflexivity]. exists (r2 - r1). split; [reflexivity | lia].
    + exists r1, r2, "-". cbn.
      split; [reflexivity|]. split; [lia|]. split; [lia|].
      split; [right; split; [reflexivity | split; [lia | reflexivity]]|].
      split; [|reflexivity]. exists (r1 - r2). split; [reflexivity | lia].
Qed.

(** ** When the results are shown *)

Definition is_quiz_complete (e : UiEvent) : bool :=
  match e with
  | quiz_complete _ _ _ _ => true
  | _ => false
  end.

(** How many times the results have been shown. *)
Definition results_shown (c : Controller) : nat :=
  length (List.filter is_quiz_complete (ui c)).

(** The test of [check_answer] for the end of the game: the input is a
    wrong integer, it uses up the last attempt, and the life it costs is the
    last one. *)
Definition loses_last_life (user_input : string) (c : Controller) : bool :=
  match PyText.int user_input with
  | None => false
  | Some v =>
      negb match current_answer (quiz_logic c) with
           | Some a => v =? a
           | None => false
           end
      && (attempts_remaining (quiz_logic c) - 1 =? 0)
      && (lives (quiz_logic c) - 1 <=? 0)
  end.

Lemma check_answer_ui (c : Controller) (x : string) :
  ui (exec (check_answer x) c) =
    match PyText.int x with
    | None => ui c
    | Some v =>
        if match current_answer (quiz_logic c) with
           | Some a => v =? a
           | None => false
           end
        then play_sfx "correct" :: ui c
        else if loses_last_life x c
             then tkraise "MainMenuFrame" ::
                  quiz_complete "Game Over! Out of Lives." (difficulty (quiz_logic c))
                                (score (quiz_logic c)) (calculate_rank (quiz_logic c)) ::
                  play_sfx "wrong" :: ui c
             else play_sfx "wrong" :: ui c
    end.
Proof.
  unfold loses_last_life. open_controller c. run_py.
  destruct (PyText.int x) as [v|]; [|reflexivity]. cbn.
  destruct current_answer0 as [a|]; cbn.
  - destruct (v =? a); cbn; [reflexivity|].
    destruct (attempts_remaining0 - 1 =? 0); cbn; [|reflexivity].
    destruct (lives0 - 1 <=? 0); reflexivity.
  - destruct (attempts_remaining0 - 1 =? 0); cbn; [|reflexivity].
    destruct (lives0 - 1 <=? 0); reflexivity.
Qed.

Lemma check_answer_shows_results (c : Controller) (x : string) :
  results_shown (exec (check_answer x) c) =
    if loses_last_life x c then S (results_shown c) else results_shown c.
Proof.
  unfold results_shown. rewrite check_answer_ui. unfold loses_last_life.
  destruct (PyText.int x) as [v|]; [|reflexivity].
  destruct (match current_answer (quiz_logic c) with Some a => v =? a | None => false end);
    cbn; [reflexivity|].
  destruct ((attempts_remaining (quiz_logic c) - 1 =? 0) && (lives (quiz_logic c) - 1 <=? 0));
    reflexivity.
Qed.

(** Methods that show nothing. *)
Definition keeps_ui {A} (m : M Controller A) : Prop := forall c, ui (fst (m c)) = ui c.

Lemma keeps_ui_bind {A B} (m : M Controller A) (k : A -> M Controller B) :
  keeps_ui m -> (forall x, keeps_ui (k x)) -> keeps_ui (bind m k).
Proof.
  intros Hm Hk c. unfold bind. specialize (Hm c).
  destruct (m c) as [c1 [x|e]]; cbn in *; [rewrite Hk|]; assumption.
Qed.

Lemma keeps_ui_ret {A} (x : A) : keeps_ui (ret x).
Proof. intros c. reflexivity. Qed.

Lemma keeps_ui_raise {A} (e : Exn) : keeps_ui (@raise Controller A e).
Proof. intros c. reflexivity. Qed.

Lemma keeps_ui_set_logic f : keeps_ui (set_logic f).
Proof. intros c. reflexivity. Qed.

Lemma keeps_ui_get_logic : keeps_ui get_logic.
Proof. intros c. reflexivity. Qed.

Lemma keeps_ui_get : keeps_ui get.
Proof. intros c. reflexivity. Qed.

Lemma keeps_ui_with_rng {A} (f : Rng -> Rng * Result A) : keeps_ui (with_rng f).
Proof. intros c. unfold with_rng. destruct (f (rng c)). reflexivity. Qed.

Lemma keeps_ui_dict_get {V} (d : list (string * V)) (key : string) :
  keeps_ui (dict_get d key).
Proof.
  induction d as [|[k v] d IH]; intros c; cbn; [reflexivity|].
  destruct (String.eqb k key); [reflexivity | apply IH].
Qed.

Lemma keeps_ui_generate_problem : keeps_ui generate_problem.
Proof.
  unfold generate_problem, random_int, decide_operation.
  repeat first
    [ apply keeps_ui_bind; [|intros]
    | apply keeps_ui_ret | apply keeps_ui_raise | apply keeps_ui_set_logic
    | apply keeps_ui_get_logic | apply keeps_ui_with_rng | apply keeps_ui_dict_get
    | match goal with
      | |- keeps_ui (match ?x with _ => _ end) => destruct x
      | |- keeps_ui (let '(_, _) := ?x in _) => destruct x
      end
    | intros c; reflexivity ].
Qed.

Lemma keeps_ui_start_timer : keeps_ui start_timer.
Proof.
  intros c. open_controller c. unfold start_timer, update_timer_display, bind, get.
  destruct after_id0; reflexivity.
Qed.

Lemma next_question_shows_results (c : Controller) :
  results_shown (exec next_question c) =
    if max_questions (quiz_logic c) <=? questions_attempted (quiz_logic c)
    then S (results_shown c) else results_shown c.
Proof.
  unfold results_shown, next_question, exec.
  rewrite (PyFacts.run_bind_ok _ _ c c (quiz_logic c) eq_refl).
  destruct (max_questions (quiz_logic c) <=? questions_attempted (quiz_logic c)).
  - destruct c; reflexivity.
  - unfold set_controls. rewrite PyFacts.run_bind_modify.
    pose proof (keeps_ui_bind _ _ keeps_ui_generate_problem (fun _ => keeps_ui_start_timer)) as H.
    unfold keeps_ui in H. rewrite H.
    destruct c; reflexivity.
Qed.

Lemma update_timer_display_shows_no_results (c : Controller) :
  results_shown (exec update_timer_display c) = results_shown c.
Proof.
  unfold results_shown, update_timer_display, exec.
  rewrite (PyFacts.run_bind_ok _ _ c c c eq_refl).
  destruct (0 <=? time_left c); [destruct c; reflexivity|].
  unfold set_controls, set_logic. rewrite !PyFacts.run_bind_modify.
  erewrite PyFacts.run_bind_ok by (apply check_answer_rejects; reflexivity).
  destruct c; reflexivity.
Qed.

Lemma keeps_ui_after (cb : Callback) : keeps_ui (after cb).
Proof. intros c. reflexivity. Qed.

Lemma check_answer_returns (c : Controller) (x : string) :
  exists r, eval (check_answer x) c = Ok r.
Proof.
  open_controller c. run_py. destruct (PyText.int x) as [v|]; cbn; [|eauto].
  destruct (match current_answer0 with Some a => v =? a | None => false end); cbn; [eauto|].
  destruct (attempts_remaining0 - 1 =? 0); cbn; [|eauto].
  destruct (lives0 - 1 <=? 0); cbn; eauto.
Qed.

Lemma submit_answer_shows_results (c : Controller) (entry : string) :
  results_shown (exec (submit_answer entry) c) =
    if negb (String.eqb (strip entry) "") && loses_last_life (strip entry) c
    then S (results_shown c) else results_shown c.
Proof.
  unfold submit_answer, exec.
  destruct (String.eqb (strip entry) ""); [reflexivity|]. cbn [negb andb].
  rewrite (PyFacts.run_bind_ok _ _ c c c eq_refl).
  set (stop := match after_id c with
               | Some id => after_cancel id ;; set_after_id None
               | None => ret tt
               end).
  assert (Hstop : exists c0, stop c = (c0, Ok tt) /\ quiz_logic c0 = quiz_logic c /\ ui c0 = ui c).
  { subst stop. destruct c as [l tl [id|] pd ni ce rg ck u]; cbn; eexists; repeat split. }
  destruct Hstop as (c0 & Hrun & Hl & Hu).
  rewrite (PyFacts.run_bind_ok _ _ _ _ _ Hrun).
  destruct (check_answer_returns c0 (strip entry)) as ([feedback solved] & Hr).
  pose proof (check_answer_shows_results c0 (strip entry)) as Hshown.
  assert (Hck : check_answer (strip entry) c0 =
                (exec (check_answer (strip entry)) c0, Ok (feedback, solved))).
  { unfold exec, eval in *. destruct (check_answer (strip entry) c0); cbn in *; congruence. }
  rewrite (PyFacts.run_bind_ok _ _ _ _ _ Hck). cbv beta iota.
  set (c1 := exec (check_answer (strip entry)) c0) in *.
  assert (Hsame : loses_last_life (strip entry) c0 = loses_last_life (strip entry) c)
    by (unfold loses_last_life; rewrite Hl; reflexivity).
  assert (Hcount : results_shown c0 = results_shown c)
    by (unfold results_shown; rewrite Hu; reflexivity).
  rewrite <- Hsame, <- Hcount, <- Hshown. unfold results_shown. f_equal. f_equal.
  assert (Hlater : keeps_ui (_ <- after cb_next_question ;; ret tt))
    by (apply keeps_ui_bind; [apply keeps_ui_after | intros; apply keeps_ui_ret]).
  destruct (contains "Correct" feedback || contains "Wrong!" feedback);
    [|destruct (contains "Invalid Input" feedback)]; try destruct solved;
    first [apply Hlater | apply keeps_ui_start_timer].
Qed.


End QuizFacts.

(* ===================================================================== *)
(** * Facts about main.py *)
(* ===================================================================== *)

Module MainFacts.
Import PyText Py Main.

Ltac run_main :=
  cbv [check_answer confirm_quit display_problem show_results ResultsPage__init__
       bind try_except Py.int ret raise get modify messagebox exec eval fst snd].

Lemma list_get_lookup {S A} (l : list A) (i : Z) (x : A) (s : S) :
  0 <= i -> l !! Z.to_nat i = Some x -> list_get l i s = (s, Ok x).
Proof.
  intros Hi Hx. unfold list_get.
  assert (Hlt : (Z.to_nat i < length l)%nat) by (eapply lookup_lt_Some; eassumption).
  destruct (Z.ltb_spec i 0); [lia|].
  destruct (Z.ltb_spec i 0); [lia|].
  destruct (Z.leb_spec (Z.of_nat (length l)) i); [lia|]. cbn.
  rewrite Hx. reflexivity.
Qed.

Lemma index_nat_nonneg (l : list Question) (i : Z) : 0 <= i -> index_nat l i = Z.to_nat i.
Proof. intros H. unfold index_nat. destruct (Z.ltb_spec i 0); [lia | reflexivity]. Qed.

(** What [check_answer] does to the score, the lives, the index and the
    attempts of the current question, for an entry that parses. *)
Definition after_answer (a : App) (q : Question) (user_ans : Z) : App :=
  if user_ans =? answer q
  then
    let points := if attempts q =? 1 then FIRST_ATTEMPT_POINTS else SECOND_ATTEMPT_POINTS in
    exec display_problem
      (set_question_index (question_index a + 1)
         (add_dialog (showinfo "Correct" ("Nice! +" ++ PyText.str points ++ " points")%string)
            (set_score (score a + points) a)))
  else
    let a' := set_quiz_data (alter bump_attempts (Z.to_nat (question_index a)) (quiz_data a)) a in
    if 2 <? attempts q + 1
    then exec display_problem
           (set_question_index (question_index a + 1)
              (add_dialog (showerror "Incorrect" (heart_lost (answer q)))
                 (set_lives (lives a - 1) a')))
    else a'.

Lemma check_answer_parsed (a : App) (entry : string) (user_ans : Z) (q : Question) :
  PyText.int entry = Some user_ans ->
  0 <= question_index a ->
  quiz_data a !! Z.to_nat (question_index a) = Some q ->
  exec (check_answer entry) a = after_answer a q user_ans.
Proof.
  intros He Hi Hq. unfold after_answer.
  assert (E : (question_index a <? 0) = false) by (apply Z.ltb_ge; lia).
  destruct a as [sc lv df qd qi pg rg dl]; cbn in *.
  unfold check_answer, bind, try_except, Py.int, exec, index_nat. rewrite He. cbn.
  rewrite (list_get_lookup qd qi q _ Hi Hq).
  destruct (user_ans =? answer q); [reflexivity|].
  cbn. rewrite !E. destruct (2 <? attempts q + 1); reflexivity.
Qed.

(** The nine bytes between the two sentences of the message of the second
    miss. *)
Example heart_lost_characters :
  map nat_of_ascii (list_ascii_of_string (substring 28 9 (heart_lost 12)))
  = [239; 163; 191; 195; 188; 195; 173; 195; 174]%nat.
Proof. reflexivity. Qed.

(** [display_problem] changes the page at most. *)
Lemma display_problem_fields (a : App) :
  let a' := exec display_problem a in
  score a' = score a /\ lives a' = lives a /\ question_index a' = question_index a /\
  quiz_data a' = quiz_data a /\ dialogs a' = dialogs a /\ rng a' = rng a.
Proof.
  destruct a as [sc lv df qd qi pg rg dl].
  unfold display_problem, exec, bind, get. cbn.
  destruct ((MAX_QUESTIONS <=? qi) || (lv <=? 0)); cbn; [auto 10|].
  destruct (list_get qd qi _) as [s' [x|e]] eqn:E; cbn;
    unfold list_get in E; cbn in E;
    repeat match type of E with
      | context [if ?b then _ else _] => destruct b
      | context [match ?o with Some _ => _ | None => _ end] => destruct o
      end; inversion E; subst; cbn; auto 10.
Qed.

Ltac through_display :=
  match goal with
  | |- context [exec display_problem ?s] =>
      let H := fresh in
      pose proof (display_problem_fields s) as H; cbv zeta in H;
      let H1 := fresh in let H2 := fresh in let H3 := fresh in
      let H4 := fresh in let H5 := fresh in let H6 := fresh in
      destruct H as (H1 & H2 & H3 & H4 & H5 & H6);
      rewrite ?H1, ?H2, ?H3, ?H4, ?H5, ?H6; clear H1 H2 H3 H4 H5 H6
  end.

(** The three runs of one question of the second quiz, from its first
    attempt on. *)
Lemma main_two_attempt_rule (a : App) (q : Question) :
  0 <= question_index a ->
  quiz_data a !! Z.to_nat (question_index a) = Some q ->
  attempts q = 1 ->
  (forall x, PyText.int x = Some (answer q) ->
     let a1 := exec (check_answer x) a in
     score a1 = score a + 10 /\ question_index a1 = question_index a + 1 /\
     lives a1 = lives a) /\
  (forall x y vx, PyText.int x = Some vx -> vx <> answer q -> PyText.int y = Some (answer q) ->
     let a1 := exec (check_answer x) a in
     let a2 := exec (check_answer y) a1 in
     (score a1 = score a /\ question_index a1 = question_index a /\ lives a1 = lives a /\
      current_page a1 = current_page a) /\
     score a2 = score a + 5 /\ question_index a2 = question_index a + 1 /\
     lives a2 = lives a) /\
  (forall x y vx vy, PyText.int x = Some vx -> vx <> answer q ->
                     PyText.int y = Some vy -> vy <> answer q ->
     let a1 := exec (check_answer x) a in
     let a2 := exec (check_answer y) a1 in
     score a2 = score a /\ lives a2 = lives a - 1 /\
     question_index a2 = question_index a + 1 /\
     dialogs a2 = showerror "Incorrect" (heart_lost (answer q)) :: dialogs a).
Proof.
  intros Hi Hq Hatt.
  (* the state after a first wrong answer *)
  assert (Hwrong : forall x vx, PyText.int x = Some vx -> vx <> answer q ->
            exec (check_answer x) a =
            set_quiz_data (alter bump_attempts (Z.to_nat (question_index a)) (quiz_data a)) a).
  { intros x vx Hx Hvx. rewrite (check_answer_parsed a x vx q Hx Hi Hq).
    unfold after_answer. destruct (Z.eqb_spec vx (answer q)); [contradiction|].
    rewrite Hatt. reflexivity. }
  assert (Hq' : forall a', a' = set_quiz_data (alter bump_attempts (Z.to_nat (question_index a))
                                                    (quiz_data a)) a ->
            quiz_data a' !! Z.to_nat (question_index a') = Some (bump_attempts q)).
  { intros a' ->. destruct a; cbn in *. rewrite list_lookup_alter_eq, Hq. reflexivity. }
  split; [|split].
  - intros x Hx a1. subst a1. rewrite (check_answer_parsed a x _ q Hx Hi Hq).
    unfold after_answer. rewrite Z.eqb_refl, Hatt. cbn [Z.eqb Pos.eqb].
    through_display. destruct a; cbn. repeat split; reflexivity.
  - intros x y vx Hx Hvx Hy a1 a2. subst a2 a1.
    rewrite (Hwrong x vx Hx Hvx).
    split; [destruct a; cbn; auto|].
    rewrite (check_answer_parsed _ y _ (bump_attempts q) Hy)
      by (first [apply Hq'; reflexivity | destruct a; cbn in *; lia]).
    unfold after_answer. cbn [answer bump_attempts attempts].
    rewrite Z.eqb_refl, Hatt. cbn [Z.eqb Pos.eqb Z.add Pos.add].
    through_display. destruct a; cbn. repeat split; reflexivity.
  - intros x y vx vy Hx Hvx Hy Hvy a1 a2. subst a2 a1.
    rewrite (Hwrong x vx Hx Hvx).
    rewrite (check_answer_parsed _ y _ (bump_attempts q) Hy)
      by (first [apply Hq'; reflexivity | destruct a; cbn in *; lia]).
    unfold after_answer. cbn [answer bump_attempts attempts].
    destruct (Z.eqb_spec vy (answer q)); [contradiction|].
    rewrite Hatt. change (2 <? 1 + 1 + 1) with true. cbv iota.
    through_display. destruct a; cbn. repeat split; reflexivity.
Qed.

(** ** start_quiz *)

Definition draw (a : App) : Z := tape (rng a) (cursor (rng a)).
Definition advance (a : App) : App :=
  mkApp (score a) (lives a) (difficulty a) (quiz_data a) (question_index a) (current_page a)
        (mkRng (tape (rng a)) (S (cursor (rng a)))) (dialogs a).

Lemma randint_run (lo hi : Z) (a : App) :
  lo <= hi ->
  with_rng (rng_randint lo hi) a = (advance a, Ok (lo + draw a mod (hi - lo + 1))).
Proof.
  intros H. unfold with_rng, rng_randint, rng_next, advance, draw.
  destruct (Z.ltb_spec hi lo); [lia | reflexivity].
Qed.

Lemma choice_run (a : App) :
  with_rng (rng_choice ["+"; "-"]) a = (advance a, Ok (if draw a mod 2 =? 0 then "+" else "-")).
Proof.
  unfold with_rng, rng_choice, rng_next, advance, draw.
  change (Z.of_nat (length ["+"; "-"])) with 2.
  pose proof (Z.mod_pos_bound (tape (rng a) (cursor (rng a))) 2 ltac:(lia)) as Hb.
  destruct (Z.eqb_spec (tape (rng a) (cursor (rng a)) mod 2) 0) as [E|E].
  - rewrite E. reflexivity.
  - replace (tape (rng a) (cursor (rng a)) mod 2) with 1 by lia. reflexivity.
Qed.

(** A stored question whose answer is the sum or the difference of the two
    operands its text shows, both drawn from [lo, hi], on its first attempt. *)
Definition answer_matches (lo hi : Z) (q : Question) : Prop :=
  exists (n1 n2 : Z) (op : string),
    q_str q = (PyText.str n1 ++ " " ++ op ++ " " ++ PyText.str n2 ++ " =")%string /\
    lo <= n1 <= hi /\ lo <= n2 <= hi /\
    (op = "+" /\ answer q = n1 + n2 \/ op = "-" /\ answer q = n1 - n2) /\
    attempts q = 1.

(** The fields a round of the loop leaves alone. *)
Definition same_game (a a' : App) : Prop :=
  score a' = score a /\ lives a' = lives a /\ difficulty a' = difficulty a /\
  question_index a' = question_index a /\ current_page a' = current_page a /\
  dialogs a' = dialogs a.

Lemma generate_question_run (lo hi : Z) (a : App) :
  lo <= hi ->
  exists a' q,
    generate_question lo hi a = (a', Ok tt) /\
    quiz_data a' = (quiz_data a ++ [q])%list /\ answer_matches lo hi q /\ same_game a a'.
Proof.
  intros H.
  set (n1 := lo + draw a mod (hi - lo + 1)).
  set (n2 := lo + draw (advance a) mod (hi - lo + 1)).
  assert (H1 : lo <= n1 <= hi)
    by (subst n1; pose proof (Z.mod_pos_bound (draw a) (hi - lo + 1)); lia).
  assert (H2 : lo <= n2 <= hi)
    by (subst n2; pose proof (Z.mod_pos_bound (draw (advance a)) (hi - lo + 1)); lia).
  unfold generate_question, bind.
  rewrite (randint_run lo hi a) by lia.
  rewrite (randint_run lo hi (advance a)) by lia.
  rewrite choice_run. fold n1 n2.
  eexists. eexists. split; [reflexivity|].
  split; [destruct a; reflexivity|].
  split; [|destruct a; repeat split].
  exists n1, n2, (if draw (advance (advance a)) mod 2 =? 0 then "+" else "-").
  destruct (draw (advance (advance a)) mod 2 =? 0); cbn; repeat split; auto; lia.
Qed.

Lemma generate_questions_run (lo hi : Z) (rounds : list nat) (a : App) :
  lo <= hi ->
  exists a' qs,
    for_each rounds (fun _ => generate_question lo hi) a = (a', Ok tt) /\
    quiz_data a' = (quiz_data a ++ qs)%list /\ length qs = length rounds /\
    Forall (answer_matches lo hi) qs /\ same_game a a'.
Proof.
  intros H. revert a. induction rounds as [|r rounds IH]; intros a.
  - exists a, []. cbn. rewrite app_nil_r. repeat split; auto.
  - destruct (generate_question_run lo hi a H) as (a1 & q & Hrun & Hq & Hm & Hs).
    destruct (IH a1) as (a2 & qs & Hrun2 & Hqs & Hlen & Hall & Hs2).
    exists a2, (q :: qs). cbn [for_each]. unfold bind at 1. rewrite Hrun. rewrite Hrun2.
    split; [reflexivity|]. split; [rewrite Hqs, Hq, <- app_assoc; reflexivity|].
    split; [cbn; lia|]. split; [constructor; assumption|].
    unfold same_game in *. intuition congruence.
Qed.

(** The state [start_quiz] leaves: ten questions, a fresh game, the quiz
    page on show. *)
Lemma start_quiz_run (level : string) (lo hi : Z) (a : App) :
  In (level, (lo, hi)) DIFFICULTY_RANGES ->
  let a' := exec (start_quiz level) a in
  length (quiz_data a') = 10%nat /\ Forall (answer_matches lo hi) (quiz_data a') /\
  score a' = 0 /\ lives a' = MAX_LIVES /\ question_index a' = 0 /\
  current_page a' = Some QuizPage.
Proof.
  intros Hin a'. subst a'.
  assert (Hrange : lo <= hi) by
    (cbn in Hin; intuition (try match goal with H : (_, _) = (_, _) |- _ => inversion H end; lia)).
  assert (Hget : forall s : App, dict_get DIFFICULTY_RANGES level s = (s, Ok (lo, hi))).
  { intros s. cbn in Hin. intuition; try match goal with H : (_, _) = (_, _) |- _ => inversion H end;
      subst; reflexivity. }
  unfold start_quiz, exec.
  rewrite !PyFacts.run_bind_modify.
  rewrite (PyFacts.run_bind_ok _ _ _ _ _ (Hget _)). cbv beta iota.
  match goal with |- context [bind (for_each ?l ?f) _ ?s] =>
    destruct (generate_questions_run lo hi l s Hrange) as (a1 & qs & Hrun & Hqs & Hlen & Hall & Hs)
  end.
  rewrite (PyFacts.run_bind_ok _ _ _ _ _ Hrun).
  destruct a as [sc lv df qd qi pg rg dl]. cbn in Hqs, Hlen, Hs.
  destruct Hs as (Hsc & Hlv & Hdf & Hqi & Hpg & Hdl).
  destruct a1 as [sc1 lv1 df1 qd1 qi1 pg1 rg1 dl1]. cbn in *. subst.
  destruct qs as [|q0 qs]; [discriminate|].
  unfold switch_to_quiz_page, display_problem, bind, get, list_get. cbn.
  repeat split; auto.
Qed.

(** ** The end of a quiz *)

Definition on_results (a : App) : Prop :=
  exists shown_score shown_max rank, current_page a = Some (ResultsPage shown_score shown_max rank).

Definition results_page (a : App) : Page :=
  ResultsPage (score a) (MAX_QUESTIONS * FIRST_ATTEMPT_POINTS)
    (if 90 <=? score a then "A+ (Excellent!)"
     else if 80 <=? score a then "A (Great Job!)"
     else if 70 <=? score a then "B (Good Work!)"
     else "C (Keep Practicing!)").

Lemma show_results_run (a : App) :
  show_results a = (set_current_page (Some (results_page a)) a, Ok tt).
Proof. reflexivity. Qed.

Lemma display_problem_page (a : App) :
  current_page (exec display_problem a) =
    if (MAX_QUESTIONS <=? question_index a) || (lives a <=? 0)
    then Some (results_page a) else current_page a.
Proof.
  destruct a as [sc lv df qd qi pg rg dl].
  unfold display_problem, exec, bind, get. cbn.
  destruct ((MAX_QUESTIONS <=? qi) || (lv <=? 0)); cbn; [reflexivity|].
  destruct (list_get qd qi _) as [s' [x|e]] eqn:E; cbn;
    unfold list_get in E; cbn in E;
    repeat match type of E with
      | context [if ?b then _ else _] => destruct b
      | context [match ?o with Some _ => _ | None => _ end] => destruct o
      end; inversion E; subst; reflexivity.
Qed.

Lemma check_answer_unparsed (a : App) (entry : string) :
  PyText.int entry = None ->
  exec (check_answer entry) a =
    add_dialog (showerror "Invalid Input" "Please enter a valid whole number.") a.
Proof.
  intros H. unfold check_answer, exec, bind, try_except, Py.int. rewrite H. reflexivity.
Qed.

(** What holds of a game between two events: ten questions, and either the
    quiz page with a question to show, lives left and no confirmed quit, or
    the results page with the reason it came up. *)
Definition game_inv (a : App) (seen : list Event) : Prop :=
  length (quiz_data a) = 10%nat /\
  0 <= question_index a <= MAX_QUESTIONS /\ 0 <= lives a /\
  (current_page a = Some QuizPage /\ question_index a < MAX_QUESTIONS /\ 0 < lives a /\
   ~ In (QuitGame true) seen
   \/
   on_results a /\
   (lives a = 0 \/ question_index a = MAX_QUESTIONS \/ In (QuitGame true) seen)).

(** [display_problem] settles the page by the index and the lives. *)
Lemma display_problem_inv (a : App) (seen : list Event) :
  length (quiz_data a) = 10%nat ->
  0 <= question_index a <= MAX_QUESTIONS -> 0 <= lives a ->
  current_page a = Some QuizPage ->
  ~ In (QuitGame true) seen ->
  game_inv (exec display_problem a) seen.
Proof.
  intros Hlen Hidx Hlv Hpg Hq.
  pose proof (display_problem_fields a) as (_ & H2 & H3 & H4 & _).
  pose proof (display_problem_page a) as H5.
  unfold game_inv. rewrite H2, H3, H4.
  split; [assumption|]. split; [assumption|]. split; [assumption|].
  destruct (Z.leb_spec MAX_QUESTIONS (question_index a)) as [Hi|Hi];
    destruct (Z.leb_spec (lives a) 0) as [Hl|Hl]; cbn in H5.
  1-3: right; split; [eexists _, _, _; exact H5 | lia].
  left. rewrite H5. auto.
Qed.

Lemma handle_inv (a : App) (seen : list Event) (e : Event) :
  game_inv a seen -> game_inv (handle a e) (seen ++ [e]).
Proof.
  intros (Hlen & Hidx & Hlv & [(Hpg & Hi & Hl & Hq) | (Hres & Hwhy)]).
  2:{ destruct Hres as (s1 & s2 & s3 & Hpg). unfold handle. rewrite Hpg.
      split; [assumption|]. split; [assumption|]. split; [assumption|].
      right. split; [exists s1, s2, s3; assumption|].
      rewrite in_app_iff. tauto. }
  unfold handle. rewrite Hpg. destruct e as [entry | [|]].
  - (* an answer *)
    assert (Hseen : ~ In (QuitGame true) (seen ++ [Submit entry])).
    { rewrite in_app_iff. cbn. intros [?|[?|[]]]; [tauto|discriminate]. }
    destruct (PyText.int entry) as [v|] eqn:Hv.
    + assert (Hq0 : exists q, quiz_data a !! Z.to_nat (question_index a) = Some q).
      { apply lookup_lt_is_Some. unfold MAX_QUESTIONS in *. lia. }
      destruct Hq0 as (q & Hq0).
      rewrite (check_answer_parsed a entry v q Hv ltac:(lia) Hq0).
      unfold after_answer.
      destruct (v =? answer q).
      * apply display_problem_inv; try assumption; destruct a; cbn in *; lia.
      * destruct (2 <? attempts q + 1).
        -- apply display_problem_inv; try assumption; destruct a; cbn in *;
             rewrite ?length_alter; lia.
        -- destruct a; cbn in *. unfold game_inv; cbn. rewrite length_alter.
           split; [assumption|]. split; [assumption|]. split; [assumption|]. left. auto.
    + rewrite (check_answer_unparsed a entry Hv).
      destruct a; cbn in *. unfold game_inv; cbn.
      split; [assumption|]. split; [assumption|]. split; [assumption|]. left. auto.
  - (* quit, confirmed *)
    destruct a; cbn in *. unfold game_inv, on_results; cbn.
    split; [assumption|]. split; [assumption|]. split; [assumption|].
    right. split; [eexists _, _, _; reflexivity|].
    right. right. rewrite in_app_iff. cbn. auto.
  - (* quit, declined *)
    destruct a; cbn in *. unfold game_inv; cbn.
    split; [assumption|]. split; [assumption|]. split; [assumption|]. left.
    repeat split; try assumption.
    rewrite in_app_iff. cbn. intros [?|[?|[]]]; [tauto|discriminate].
Qed.

Lemma run_inv (events seen : list Event) (a : App) :
  game_inv a seen -> game_inv (run a events) (seen ++ events).
Proof.
  revert a seen. induction events as [|e events IH]; intros a seen H.
  - rewrite app_nil_r. exact H.
  - cbn. replace (seen ++ e :: events)%list with ((seen ++ [e]) ++ events)%list
      by (rewrite <- app_assoc; reflexivity).
    apply IH, handle_inv, H.
Qed.

(** A quiz run from [start_quiz] is on the results page exactly when the
    lives are at 0, or the ten questions are done, or the player has confirmed
    the Quit Game question. *)
Lemma main_quiz_finishes (level : string) (lo hi : Z) (a0 : App) (events : list Event) :
  In (level, (lo, hi)) DIFFICULTY_RANGES ->
  let a := run (exec (start_quiz level) a0) events in
  on_results a <->
  lives a = 0 \/ question_index a = MAX_QUESTIONS \/ In (QuitGame true) events.
Proof.
  intros Hin a.
  pose proof (start_quiz_run level lo hi a0 Hin) as (Hlen & _ & _ & Hlv & Hidx & Hpg).
  assert (Hinv : game_inv (exec (start_quiz level) a0) []).
  { unfold game_inv. rewrite Hlv, Hidx. unfold MAX_LIVES, MAX_QUESTIONS.
    split; [assumption|]. split; [lia|]. split; [lia|]. left.
    split; [assumption|]. split; [lia|]. split; [lia|]. intros []. }
  apply (run_inv events) in Hinv. cbn [app] in Hinv. fold a in Hinv.
  destruct Hinv as (_ & _ & _ & [(Hp & Hi & Hl & Hq) | (Hres & Hwhy)]).
  - split.
    + intros (s1 & s2 & s3 & Hp'). congruence.
    + intros [H | [H | H]]; [lia | lia | contradiction].
  - tauto.
Qed.

End MainFacts.

(* ===================================================================== *)
(** * Facts about StudentReport.py *)
(* ===================================================================== *)

Module StudentReportFacts.
Import PyText Py StudentReport PyTextFacts.

(** ** Grades *)

(** The grade is read off the four raw scores alone. *)
Lemma recalculated_grade (s : Student) :
  grade (_recalculate_derived_data s) =
    grade_of_percentage (percentage_of_total (c1 s + c2 s + c3 s + exam s)) /\
  overall_percentage (_recalculate_derived_data s) =
    percentage_of_total (c1 s + c2 s + c3 s + exam s) /\
  total_score (_recalculate_derived_data s) = c1 s + c2 s + c3 s + exam s.
Proof. repeat split. Qed.

(** The grade of each total a student can have, as the code gives it: the
    totals 79, 95 and 111 (49.375, 59.375 and 69.375 per cent) fall between
    two bands and get F. *)
Definition grade_of_total (total : Z) : string :=
  if 112 <=? total then "A"
  else if (96 <=? total) && (total <=? 110) then "B"
  else if (80 <=? total) && (total <=? 94) then "C"
  else if (64 <=? total) && (total <=? 78) then "D"
  else "F".

Lemma grades_upto_160 :
  forallb (fun total => String.eqb (grade_of_percentage (percentage_of_total total))
                                   (grade_of_total total))
          (map Z.of_nat (seq 0 161)) = true.
Proof. vm_compute. reflexivity. Qed.

Lemma grade_by_total (s : Student) :
  0 <= c1 s + c2 s + c3 s + exam s <= 160 ->
  grade (_recalculate_derived_data s) = grade_of_total (c1 s + c2 s + c3 s + exam s).
Proof.
  intros H. apply String.eqb_eq.
  exact (PyFacts.check_range _ _ grades_upto_160 (c1 s + c2 s + c3 s + exam s) ltac:(lia)).
Qed.

(** C1.  A student whose scores add up to 111 has 69.375 per cent, which is
    in none of the bands of [_calculate_grade] (above 69, below 70): the
    grade is F, the grade of the students below 40 per cent, though 69.375 is
    not below 40. *)
Theorem grade_between_bands_is_F (s : Student) :
  c1 s + c2 s + c3 s + exam s = 111 ->
  overall_percentage (_recalculate_derived_data s) = 69.375%float /\
  float_ge (overall_percentage (_recalculate_derived_data s)) 60 = true /\
  float_ge (overall_percentage (_recalculate_derived_data s)) 70 = false /\
  grade (_recalculate_derived_data s) = "F".
Proof.
  intros H. destruct (recalculated_grade s) as (Hg & Hp & _).
  rewrite Hg, Hp, H. repeat split; reflexivity.
Qed.

Lemma grade_between_bands_is_F_at_111 :
  eval (S := unit) (Student__init__ (VStr "1001") "Ann" (VInt 20) (VInt 20) (VInt 20) (VInt 51)) tt
    = Ok (mkStudent "1001" "Ann" 20 20 20 51 60 111 69.375%float "F").
Proof.
  pose proof (grade_between_bands_is_F (mkStudent "1001" "Ann" 20 20 20 51 0 0 PrimFloat.zero "")
                eq_refl) as (Hp & _ & _ & Hg).
  unfold eval, Student__init__, bind, Py.int, ret. cbn [snd].
  destruct (_recalculate_derived_data _) eqn:E. cbn in Hp, Hg. subst.
  inversion E. reflexivity.
Defined.

(** ** find_student *)

Lemma lower_char_idempotent (c : ascii) : lower_char (lower_char c) = lower_char c.
Proof.
  destruct c as [[] [] [] [] [] [] [] []]; reflexivity.
Qed.

Lemma lower_idempotent (s : string) : lower (lower s) = lower s.
Proof.
  induction s as [|c s IH]; cbn; [reflexivity|].
  rewrite lower_char_idempotent, IH. reflexivity.
Qed.

(** The students found are those the test of the loop accepts, in the order
    of the roster. *)
Lemma find_loop_students (term : string) (i : nat) (l : list Student) :
  map snd (find_loop term i l) = List.filter (matches term) l.
Proof.
  revert i. induction l as [|s l IH]; intros i; cbn; [reflexivity|].
  destruct (matches term s); cbn; rewrite IH; reflexivity.
Qed.

(** Each result refers to the object at its position. *)
Lemma find_loop_refs (term : string) (i : nat) (l : list Student) (j : nat) (s : Student) :
  In (j, s) (find_loop term i l) -> (i <= j)%nat /\ l !! (j - i)%nat = Some s.
Proof.
  revert i. induction l as [|s0 l IH]; intros i; cbn; [tauto|].
  destruct (matches term s0); cbn.
  - intros [E | H].
    + inversion E; subst. rewrite Nat.sub_diag. auto.
    + apply IH in H as [Hle Hl]. split; [lia|].
      replace (j - i)%nat with (S (j - S i)) by lia. exact Hl.
  - intros H. apply IH in H as [Hle Hl]. split; [lia|].
    replace (j - i)%nat with (S (j - S i)) by lia. exact Hl.
Qed.

Lemma find_student_students (search_term : string) (dm : DataManager) :
  map snd (find_student search_term dm)
  = List.filter (matches (lower (strip search_term))) (students dm).
Proof. apply find_loop_students. Qed.

(** The first result is the first student of the roster that matches. *)
Lemma find_student_first (search_term : string) (dm : DataManager)
      (ref : nat) (s : Student) (rest : list (nat * Student)) :
  find_student search_term dm = (ref, s) :: rest ->
  students dm !! ref = Some s.
Proof.
  intros H.
  destruct (find_loop_refs (lower (strip search_term)) 0 (students dm) ref s) as [_ Hl].
  - unfold find_student in H. rewrite H. left. reflexivity.
  - rewrite Nat.sub_0_r in Hl. exact Hl.
Qed.

(** C8.  A student whose code has a capital letter is never found by code:
    the term is put in lower case, the code is not, so the two differ
    whatever the term - the code itself included.  Such a student is found
    through the name only. *)
Theorem find_student_misses_capital_code (dm : DataManager) (s : Student) (search_term : string) :
  lower (code s) <> code s ->
  contains (lower (strip search_term)) (lower (name s)) = false ->
  ~ In s (map snd (find_student search_term dm)).
Proof.
  intros Hcode Hname Hin.
  rewrite find_student_students in Hin. apply filter_In in Hin as [_ Hm].
  unfold matches in Hm. rewrite Hname, orb_false_r in Hm.
  apply String.eqb_eq in Hm. apply Hcode. rewrite Hm. apply lower_idempotent.
Qed.

Definition zed : Student :=
  mkStudent "AB12" "Zed" 10 10 10 50 30 80 50%float "C".

Lemma find_student_misses_capital_code_AB12 :
  lower (code zed) <> code zed /\
  ~ In zed (map snd (find_student "AB12" (mkDataManager [zed] 1))).
Proof.
  split; [discriminate|].
  apply find_student_misses_capital_code; [discriminate | reflexivity].
Defined.

(** The roster holds a student with the code AB12; the search for AB12
    finds nobody. *)
Example find_student_AB12 : find_student "AB12" (mkDataManager [zed] 1) = [].
Proof. reflexivity. Qed.

(** A term that is a proper part of a code and of no name finds nothing. *)
Example find_student_code_is_exact :
  find_student "42" (mkDataManager [mkStudent "0042" "Ann" 10 10 10 50 30 80 50%float "C"] 1) = [].
Proof. reflexivity. Qed.


(** ** save_data and the handlers that call it *)

#[local] Arguments PyText.str : simpl never.

Definition with_class_size (n : Z) (a : App) : App :=
  mkApp (mkDataManager (students (data_manager a)) n) (file a) (writable a) (dialogs a).
Definition with_students (l : list Student) (a : App) : App :=
  mkApp (mkDataManager l (class_size (data_manager a))) (file a) (writable a) (dialogs a).
Definition with_dialog (d : Dialog) (a : App) : App :=
  mkApp (data_manager a) (file a) (writable a) (d :: dialogs a).
Definition with_file (text : string) (a : App) : App :=
  mkApp (data_manager a) (FileText text) (writable a) (dialogs a).

(** The lines [save_data] writes. *)
Definition output_lines (l : list Student) : list string :=
  (PyText.str (Z.of_nat (length l)) ++ newline)%string ::
  map (fun student => (to_file_format student ++ newline)%string) l.

(** [save_data] when the file cannot be opened for writing: the class size
    has already been set, the file is as it was, the answer is False. *)
Lemma save_data_fails (a : App) :
  writable a = false ->
  save_data a =
    (with_dialog (showerror "Save Error" "Could not save data to file: " (Some OSError))
       (with_class_size (Z.of_nat (length (students (data_manager a)))) a),
     Ok false).
Proof.
  intros H. destruct a as [[sts cs] f w d]. cbn in H. subst w. reflexivity.
Qed.

Lemma save_data_succeeds (a : App) :
  writable a = true ->
  save_data a =
    (with_file (writelines (output_lines (students (data_manager a))))
       (with_class_size (Z.of_nat (length (students (data_manager a)))) a),
     Ok true).
Proof.
  intros H. destruct a as [[sts cs] f w d]. cbn in H. subst w. reflexivity.
Qed.

(** After [save_data], saved or not, the class size is the length of the
    roster. *)
Lemma save_data_class_size (a : App) :
  class_size (data_manager (exec save_data a))
  = Z.of_nat (length (students (data_manager (exec save_data a)))).
Proof.
  unfold exec. destruct (writable a) eqn:H.
  - rewrite (save_data_succeeds a H). reflexivity.
  - rewrite (save_data_fails a H). reflexivity.
Qed.

Lemma handle_submission_run (a : App) (code name : string) (c1 c2 c3 exam : Z) :
  let new_student :=
    _recalculate_derived_data (mkStudent code name c1 c2 c3 exam 0 0 PrimFloat.zero "") in
  let l := students (data_manager a) in
  exec (_handle_submission code name c1 c2 c3 exam) a =
    if writable a
    then with_dialog (showinfo "Success" ("Student " ++ name ++ " added and saved.")%string)
           (with_file (writelines (output_lines (l ++ [new_student])))
              (with_class_size (Z.of_nat (length (l ++ [new_student])))
                 (with_students (l ++ [new_student]) a)))
    else with_students l
           (with_dialog (showerror "Save Error" "Could not save data to file: " (Some OSError))
              (with_class_size (Z.of_nat (length (l ++ [new_student]))) a)).
Proof.
  intros new_student l. subst l new_student.
  destruct a as [[sts cs] f w d].
  unfold _handle_submission, exec, Student__init__, students_append, save_data,
    get_students, set_students, set_class_size, messagebox, open_writelines,
    bind, try_except, modify, ret, Py.int.
  destruct w; cbn -[_recalculate_derived_data writelines length];
    rewrite ?removelast_last; reflexivity.
Qed.
(** A failed add: the student appended is taken off again, the class size
    [save_data] had set stays. *)
Lemma failed_add_run (a : App) (code name : string) (c1 c2 c3 exam : Z) :
  writable a = false ->
  let a' := exec (_handle_submission code name c1 c2 c3 exam) a in
  students (data_manager a') = students (data_manager a) /\
  class_size (data_manager a') = Z.of_nat (length (students (data_manager a))) + 1 /\
  file a' = file a.
Proof.
  intros H a'. subst a'. rewrite handle_submission_run. rewrite H.
  destruct a as [[sts cs] f w d]. cbn. rewrite length_app. cbn. repeat split. lia.
Qed.

(** A failed delete, once confirmed: the student is off the roster and stays
    off, the file still has the record. *)
Lemma failed_delete_run (a : App) (inputs : Inputs) (ref : nat) (s : Student)
      (rest : list (nat * Student)) :
  writable a = false ->
  in_code inputs <> "" ->
  find_student (in_code inputs) (data_manager a) = (ref, s) :: rest ->
  let a' := exec (_submit_inline_delete inputs true) a in
  students (data_manager a') = delete ref (students (data_manager a)) /\
  class_size (data_manager a') = Z.of_nat (length (delete ref (students (data_manager a)))) /\
  file a' = file a.
Proof.
  intros Hw Hcode Hfind a'. subst a'.
  unfold _submit_inline_delete, exec.
  destruct (String.eqb_spec (in_code inputs) ""); [contradiction|].
  rewrite (PyFacts.run_bind_ok _ _ a a (data_manager a) eq_refl). rewrite Hfind.
  destruct a as [[sts cs] f w d]. cbn in Hw. subst w. cbn. repeat split.
Qed.

(** C4.  A delete whose save fails is not undone: the student found is
    removed from the roster in memory, the roster is one shorter than before
    and than the file, which still holds every record.  (An add whose save
    fails does take the appended student off again, see [failed_add_run].) *)
Theorem failed_delete_is_not_undone (a : App) (inputs : Inputs) (ref : nat) (s : Student)
        (rest : list (nat * Student)) :
  writable a = false ->
  in_code inputs <> "" ->
  find_student (in_code inputs) (data_manager a) = (ref, s) :: rest ->
  let a' := exec (_submit_inline_delete inputs true) a in
  students (data_manager a') = delete ref (students (data_manager a)) /\
  S (length (students (data_manager a'))) = length (students (data_manager a)) /\
  students (data_manager a') <> students (data_manager a) /\
  file a' = file a.
Proof.
  intros Hw Hcode Hfind a'.
  destruct (failed_delete_run a inputs ref s rest Hw Hcode Hfind) as (Hs & _ & Hf).
  fold a' in Hs, Hf.
  pose proof (find_student_first _ _ _ _ _ Hfind) as Href.
  assert (Hlen : S (length (students (data_manager a'))) = length (students (data_manager a))).
  { rewrite Hs, length_delete by eauto.
    apply lookup_lt_Some in Href. lia. }
  repeat split; try assumption.
  intros E. rewrite E in Hlen. lia.
Qed.

(** A roster of two on a file that cannot be written. *)
Definition ann : Student :=
  _recalculate_derived_data (mkStudent "1001" "Ann" 10 10 10 50 0 0 PrimFloat.zero "").
Definition bob : Student :=
  _recalculate_derived_data (mkStudent "1002" "Bob" 20 20 20 100 0 0 PrimFloat.zero "").
Definition two_on_file : string :=
  writelines (output_lines [ann; bob]).
Definition read_only : App :=
  mkApp (mkDataManager [ann; bob] 2) (FileText two_on_file) false [].

Lemma failed_delete_is_not_undone_bob :
  students (data_manager (exec (_submit_inline_delete (mkInputs "1002" "" "" "" "" "") true)
                               read_only)) = [ann] /\
  file (exec (_submit_inline_delete (mkInputs "1002" "" "" "" "" "") true) read_only)
    = FileText two_on_file.
Proof.
  destruct (failed_delete_is_not_undone read_only (mkInputs "1002" "" "" "" "" "") 1 bob []
              eq_refl ltac:(discriminate) eq_refl) as (H1 & _ & _ & H2).
  split; [exact H1 | exact H2].
Defined.

(** An update whose save fails is not undone either. *)
Example failed_update_is_not_undone :
  map exam (students (data_manager
     (exec (_submit_inline_update (mkInputs "1002" "" "" "" "" "40")) read_only))) = [50; 40] /\
  file (exec (_submit_inline_update (mkInputs "1002" "" "" "" "" "40")) read_only)
    = FileText two_on_file.
Proof. split; reflexivity. Qed.

(** C10.  An add whose save fails leaves the class size one above the
    number of students: [save_data] sets it before it opens the file, and the
    handler takes the student off the roster without setting it back.
    [get_summary] then divides the sum of the percentages by the stale size. *)
Theorem failed_add_leaves_class_size_stale (a : App) (code name : string) (c1 c2 c3 exam : Z) :
  writable a = false ->
  let a' := exec (_handle_submission code name c1 c2 c3 exam) a in
  students (data_manager a') = students (data_manager a) /\
  class_size (data_manager a') = Z.of_nat (length (students (data_manager a'))) + 1 /\
  class_size (data_manager a') <> Z.of_nat (length (students (data_manager a'))) /\
  (students (data_manager a) <> [] ->
   get_summary (data_manager a') =
     Ok (Z.of_nat (length (students (data_manager a))) + 1,
         PrimFloat.div (sum_percentages (students (data_manager a)))
                       (float_of_int (Z.of_nat (length (students (data_manager a))) + 1)))).
Proof.
  intros Hw a'. destruct (failed_add_run a code name c1 c2 c3 exam Hw) as (Hs & Hc & _).
  fold a' in Hs, Hc. rewrite Hs.
  repeat split; try assumption; try lia.
  intros Hne. unfold get_summary. rewrite Hs, Hc.
  destruct (students (data_manager a)) as [|s0 l]; [contradiction|].
  destruct (Z.eqb_spec (Z.of_nat (length (s0 :: l)) + 1) 0); [lia | reflexivity].
Qed.

Lemma failed_add_leaves_class_size_stale_cy :
  students (data_manager (exec (_handle_submission "1003" "Cy" 0 0 0 0) read_only)) = [ann; bob] /\
  class_size (data_manager (exec (_handle_submission "1003" "Cy" 0 0 0 0) read_only)) = 3 /\
  get_summary (data_manager read_only) = Ok (2, 75%float) /\
  get_summary (data_manager (exec (_handle_submission "1003" "Cy" 0 0 0 0) read_only))
    = Ok (3, 50%float).
Proof.
  destruct (failed_add_leaves_class_size_stale read_only "1003" "Cy" 0 0 0 0 eq_refl)
    as (H1 & H2 & _ & H4).
  split; [exact H1|]. split; [exact H2|]. split; [reflexivity|].
  rewrite (H4 ltac:(discriminate)). reflexivity.
Defined.


(** ** load_data, then save_data *)

(** A mark within the range where the float arithmetic of these
    definitions is that of Python: four such marks add up to less than 2^53,
    up to which the conversion of an integer to a float is exact.  (Far
    above, the division of the percentage raises [OverflowError].) *)
Definition small (z : Z) : bool := Z.abs z <? 2 ^ 50.

Definition small_marks (z1 z2 z3 z4 : Z) : Prop :=
  small z1 && small z2 && small z3 && small z4 = true.

(** The carriage return: text mode reads it as a line end. *)
Definition CR : ascii := ascii_of_nat 13.

(** A line of ASCII text with no line end inside: reading the file in text
    mode hands it over as it is written. *)
Definition one_line (r : string) : Prop :=
  isascii r = true /\ has_char LF r = false /\ has_char CR r = false.

(** A record line that [to_file_format] could have written: ASCII text on
    one line, no white space around it, six fields, and each score as [str]
    prints an integer, the four within the range of [small].
    ([to_file_format] also writes other codes and names, which do not come
    back as they were.) *)
Definition canonical_record (r : string) : Prop :=
  one_line r /\
  strip r = r /\
  exists (code name : string) (z1 z2 z3 z4 : Z),
    split "," r = [code; name; PyText.str z1; PyText.str z2; PyText.str z3; PyText.str z4] /\
    small_marks z1 z2 z3 z4.

Lemma load_line_canonical (r : string) (a : App) :
  canonical_record r ->
  exists s,
    load_line (r ++ newline) a = (with_students (students (data_manager a) ++ [s]) a, Ok tt) /\
    to_file_format s = r.
Proof.
  intros (_ & Hstrip & code & name & z1 & z2 & z3 & z4 & Hsplit & _).
  exists (_recalculate_derived_data (mkStudent code name z1 z2 z3 z4 0 0 PrimFloat.zero "")).
  split.
  - unfold load_line. rewrite strip_newline, Hstrip, Hsplit.
    unfold Student__init__, Py.int. rewrite !int_str.
    destruct a as [[sts cs] f w d]. reflexivity.
  - transitivity (join "," (split "," r)); [rewrite Hsplit; reflexivity | apply join_split].
Qed.

Lemma load_lines_canonical (rs : list string) (a : App) :
  Forall canonical_record rs ->
  exists new,
    for_each (map (fun r => (r ++ newline)%string) rs) load_line a
      = (with_students (students (data_manager a) ++ new) a, Ok tt) /\
    map to_file_format new = rs.
Proof.
  intros H. revert a. induction H as [|r rs Hr _ IH]; intros a.
  - exists []. cbn. rewrite app_nil_r. destruct a as [[sts cs] f w d]. split; reflexivity.
  - destruct (load_line_canonical r a Hr) as (s & Hrun & Hs).
    destruct (IH (with_students (students (data_manager a) ++ [s]) a)) as (new & Hrun' & Hnew).
    exists (s :: new). split; [|cbn; rewrite Hs, Hnew; reflexivity].
    cbn [map for_each]. rewrite (PyFacts.run_bind_ok _ _ _ _ _ Hrun), Hrun'.
    destruct a as [[sts cs] f w d]. cbn. rewrite <- app_assoc. reflexivity.
Qed.

Lemma load_data_canonical (a : App) (header : string) (n : Z) (rs : list string) :
  file a = FileText (writelines ((header ++ newline)%string ::
                                 map (fun r => (r ++ newline)%string) rs)) ->
  has_char LF header = false ->
  PyText.int (strip (header ++ newline)) = Some n ->
  Forall canonical_record rs ->
  exists new,
    load_data a = (with_class_size (Z.of_nat (length new)) (with_students new a), Ok tt) /\
    map to_file_format new = rs.
Proof.
  intros Hfile Hh Hn Hrs.
  assert (Hlines : readlines (writelines ((header ++ newline)%string ::
                                          map (fun r => (r ++ newline)%string) rs))
                   = (header ++ newline)%string :: map (fun r => (r ++ newline)%string) rs).
  { rewrite writelines_cons, append_assoc.
    change (newline ++ ?t)%string with (String LF t).
    rewrite (readlines_line _ _ Hh), readlines_writelines; [reflexivity|].
    eapply Forall_impl; [exact Hrs|]. intros r ((_ & H & _) & _). exact H. }
  destruct a as [[sts cs] f w d]. cbn [file] in Hfile. subst f.
  destruct (load_lines_canonical rs
              (mkApp (mkDataManager [] n) (FileText (writelines ((header ++ newline)%string ::
                        map (fun r => (r ++ newline)%string) rs))) w d) Hrs)
    as (new & Hrun & Hnew).
  exists new. split; [|exact Hnew].
  unfold load_data, set_students. rewrite PyFacts.run_bind_modify.
  apply PyFacts.run_try_ok.
  erewrite PyFacts.run_bind_ok.
  2:{ unfold open_readlines. cbn [file]. reflexivity. }
  rewrite Hlines. cbv beta iota. unfold Py.int at 1. rewrite Hn. rewrite PyFacts.run_bind_ret.
  unfold set_class_size at 1. rewrite PyFacts.run_bind_modify.
  erewrite PyFacts.run_bind_ok by exact Hrun.
  reflexivity.
Qed.

(** C9, amended.  A roster file of ASCII text made of a first line that
    parses as an integer and of record lines in the form [to_file_format]
    writes (six fields, each score in the decimal form [str] prints and
    within the range of [small], no white space around the line), every line
    ended by a line feed and free of carriage returns: loading it and saving
    the roster writes the same record lines back, byte for byte, under a
    first line that holds their number. *)
Theorem load_save_round_trip (a : App) (header : string) (n : Z) (rs : list string) :
  writable a = true ->
  file a = FileText (writelines ((header ++ newline)%string ::
                                 map (fun r => (r ++ newline)%string) rs)) ->
  one_line header -> plain header = true ->
  PyText.int (strip (header ++ newline)) = Some n ->
  Forall canonical_record rs ->
  let a' := exec save_data (exec load_data a) in
  file a' = FileText (writelines ((PyText.str (Z.of_nat (length rs)) ++ newline)%string ::
                                  map (fun r => (r ++ newline)%string) rs)) /\
  map to_file_format (students (data_manager a')) = rs /\
  class_size (data_manager a') = Z.of_nat (length rs).
Proof.
  intros Hw Hfile (_ & Hh & _) _ Hn Hrs a'. subst a'.
  destruct (load_data_canonical a header n rs Hfile Hh Hn Hrs) as (new & Hload & Hnew).
  assert (Hlen : length new = length rs) by (rewrite <- Hnew, length_map; reflexivity).
  assert (Hrun : exec save_data (exec load_data a) =
                 with_file (writelines (output_lines new))
                   (with_class_size (Z.of_nat (length new))
                      (with_class_size (Z.of_nat (length new)) (with_students new a)))).
  { unfold exec. rewrite Hload. cbn [fst]. rewrite save_data_succeeds by exact Hw.
    reflexivity. }
  rewrite Hrun.
  unfold with_file, with_class_size, with_students, output_lines.
  cbn [fst file data_manager students class_size].
  rewrite Hlen. split; [|split; [exact Hnew | reflexivity]].
  do 3 f_equal. rewrite <- Hnew, map_map. reflexivity.
Qed.

(** The file of [read_only] under a wrong count, on a disk that can be
    written. *)
Definition miscounted : App :=
  mkApp (mkDataManager [] 0)
        (FileText (writelines [("7" ++ newline)%string;
                               ("1001,Ann,10,10,10,50" ++ newline)%string;
                               ("1002,Bob,20,20,20,100" ++ newline)%string]))
        true [].

Lemma load_save_round_trip_miscounted :
  file (exec save_data (exec load_data miscounted)) =
    FileText (writelines [("2" ++ newline)%string;
                          ("1001,Ann,10,10,10,50" ++ newline)%string;
                          ("1002,Bob,20,20,20,100" ++ newline)%string]).
Proof.
  refine (proj1 (load_save_round_trip miscounted "7" 7
                   ["1001,Ann,10,10,10,50"; "1002,Bob,20,20,20,100"]
                   eq_refl eq_refl _ eq_refl eq_refl _)).
  - split; [reflexivity | split; reflexivity].
  - apply List.Forall_cons; [|apply List.Forall_cons; [|apply List.Forall_nil]].
    + split; [split; [reflexivity | split; reflexivity]|]. split; [reflexivity|].
      exists "1001", "Ann", 10, 10, 10, 50. split; reflexivity.
    + split; [split; [reflexivity | split; reflexivity]|]. split; [reflexivity|].
      exists "1002", "Bob", 20, 20, 20, 100. split; reflexivity.
Defined.

(** A file whose one record has the score 05. *)
Definition leading_zero : App :=
  mkApp (mkDataManager [] 0)
        (FileText (writelines [("1" ++ newline)%string;
                               ("1001,Ann,05,10,10,50" ++ newline)%string]))
        true [].

(** C9, the counterexample.  The record 1001,Ann,05,10,10,50 has six fields
    and integer scores; it is loaded, and saved as 1001,Ann,5,10,10,50. *)
Lemma leading_zero_is_not_written_back :
  split "," "1001,Ann,05,10,10,50" = ["1001"; "Ann"; "05"; "10"; "10"; "50"] /\
  map PyText.int ["05"; "10"; "10"; "50"] = [Some 5; Some 10; Some 10; Some 50] /\
  file (exec save_data (exec load_data leading_zero)) =
    FileText (writelines [("1" ++ newline)%string;
                          ("1001,Ann,5,10,10,50" ++ newline)%string]) /\
  file (exec save_data (exec load_data leading_zero)) <> file leading_zero.
Proof.
  split; [reflexivity|]. split; [reflexivity|]. split; [vm_compute; reflexivity|].
  vm_compute. discriminate.
Qed.

(** [load_data] on a file whose second record has a score that is no
    integer: the loop stops there, the first record is loaded, and the class
    size is still the count the first line declares. *)
Example load_data_stops_at_bad_score :
  let a := exec load_data
             (mkApp (mkDataManager [] 0)
                    (FileText (writelines [("5" ++ newline)%string;
                                           ("1001,Ann,10,10,10,50" ++ newline)%string;
                                           ("1002,Bob,20,20,20,x" ++ newline)%string]))
                    true []) in
  map name (students (data_manager a)) = ["Ann"] /\
  class_size (data_manager a) = 5 /\
  dialogs a = [showerror "Error" "Error processing student data: " (Some (ValueError "x"))].
Proof. cbv zeta. repeat split; vm_compute; reflexivity. Qed.

(** After a load in which every line parses, the class size is the length
    of the roster. *)
Lemma load_data_class_size (a : App) (header : string) (n : Z) (rs : list string) :
  file a = FileText (writelines ((header ++ newline)%string ::
                                 map (fun r => (r ++ newline)%string) rs)) ->
  has_char LF header = false ->
  PyText.int (strip (header ++ newline)) = Some n ->
  Forall canonical_record rs ->
  class_size (data_manager (exec load_data a))
  = Z.of_nat (length (students (data_manager (exec load_data a)))).
Proof.
  intros Hfile Hh Hn Hrs.
  destruct (load_data_canonical a header n rs Hfile Hh Hn Hrs) as (new & Hload & _).
  unfold exec. rewrite Hload. reflexivity.
Qed.


End StudentReportFacts.

(* ===================================================================== *)
(** * The two quizzes side by side *)
(* ===================================================================== *)

Module QuizVariants.
Import PyText Py.

(** A tape whose first three cells make the first question of a Beginner
    quiz [1 - 9]. *)
Definition tape_1_minus_9 : nat -> Z :=
  fun i => match i with
           | 1%nat => 8
           | 2%nat => 1
           | _ => 0
           end.

(** C2, the counterexample.  [start_quiz] of main.py stores the question
    "1 - 9 =" with the answer -8: the first operand is the smaller one and the
    stored answer is negative. *)
Lemma start_quiz_negative_answer :
  let a := exec (Main.start_quiz "Beginner") (Main.initial_app (mkRng tape_1_minus_9 0)) in
  Main.quiz_data a !! 0%nat = Some (Main.mkQuestion "1 - 9 =" (-8) 1) /\
  ~ (0 <= -8) /\ ~ (9 <= 1).
Proof.
  cbv zeta. split; [vm_compute; reflexivity | lia].
Qed.

(** C2, amended.  In both quizzes the stored answer of every generated
    problem is the sum or the difference of the two operands shown, by the
    operator shown, with operands drawn from the range of the tier.  In
    quiz.py ([generate_problem]) the first operand of a subtraction is the
    larger one and the answer is never negative; main.py ([start_quiz], ten
    questions at once) stores the operands as drawn. *)
Theorem generated_answers_match_operands :
  (forall (c : Quiz.Controller) (level : string) (lo hi : Z),
     Quiz.difficulty (Quiz.quiz_logic c) = Some level ->
     In (level, (lo, hi)) Quiz.DIFFICULTY_SETTINGS ->
     exists (num1 num2 : Z) (operation : string),
       eval Quiz.generate_problem c
         = Ok (PyText.str num1 ++ " " ++ operation ++ " " ++ PyText.str num2)%string /\
       lo <= num1 <= hi /\ lo <= num2 <= hi /\
       (operation = "+" /\
          Quiz.current_answer (Quiz.quiz_logic (exec Quiz.generate_problem c)) = Some (num1 + num2) \/
        operation = "-" /\ num2 <= num1 /\
          Quiz.current_answer (Quiz.quiz_logic (exec Quiz.generate_problem c)) = Some (num1 - num2)) /\
       (exists a, Quiz.current_answer (Quiz.quiz_logic (exec Quiz.generate_problem c)) = Some a /\
                  0 <= a) /\
       Quiz.attempts_remaining (Quiz.quiz_logic (exec Quiz.generate_problem c)) = 2) /\
  (forall (a : Main.App) (level : string) (lo hi : Z),
     In (level, (lo, hi)) Main.DIFFICULTY_RANGES ->
     length (Main.quiz_data (exec (Main.start_quiz level) a)) = 10%nat /\
     Forall (MainFacts.answer_matches lo hi) (Main.quiz_data (exec (Main.start_quiz level) a))).
Proof.
  split.
  - exact QuizFacts.generate_problem_answer.
  - intros a level lo hi Hin.
    pose proof (MainFacts.start_quiz_run level lo hi a Hin) as (H1 & H2 & _).
    split; assumption.
Qed.

Lemma generated_answers_match_operands_beginner :
  (exists a, Quiz.current_answer
               (Quiz.quiz_logic
                  (exec Quiz.generate_problem
                     (QuizFacts.controller_at
                        (Quiz.mkLogic 0 0 None 2 5 (Some "Beginner") 10 None)))) = Some a /\
             0 <= a) /\
  length (Main.quiz_data (exec (Main.start_quiz "Beginner")
                               (Main.initial_app (mkRng tape_1_minus_9 0)))) = 10%nat.
Proof.
  split.
  - destruct (proj1 generated_answers_match_operands
                (QuizFacts.controller_at (Quiz.mkLogic 0 0 None 2 5 (Some "Beginner") 10 None))
                "Beginner" 1 9 eq_refl (or_introl eq_refl))
      as (n1 & n2 & op & _ & _ & _ & _ & H & _).
    exact H.
  - exact (proj1 (proj2 generated_answers_match_operands
                    (Main.initial_app (mkRng tape_1_minus_9 0)) "Beginner" 1 9
                    (or_introl eq_refl))).
Defined.

(** C3, amended.  The answers are ASCII texts that [int] reads.  In both
    quizzes a right answer at the first attempt adds 10 points, one at the
    second attempt adds 5, and either way the count of questions goes up by
    one and the problem is done; after two wrong answers the message gives
    the right answer and the problem is done.  In main.py the two wrong
    answers cost exactly one life.  In quiz.py they cost exactly one life,
    and the count goes up by one, while more than one life is left; on the
    last life [check_answer] shows the results itself, which puts the lives
    back to 5 and the count back to 0. *)
Theorem two_attempt_scoring_rule :
  (forall (c : Quiz.Controller) (a : Z),
     Quiz.current_answer (Quiz.quiz_logic c) = Some a ->
     Quiz.attempts_remaining (Quiz.quiz_logic c) = 2 ->
     (forall x, plain x = true -> PyText.int x = Some a ->
        let c1 := exec (Quiz.check_answer x) c in
        eval (Quiz.check_answer x) c = Ok ("Correct! (+10 points)", true) /\
        Quiz.score (Quiz.quiz_logic c1) = Quiz.score (Quiz.quiz_logic c) + 10 /\
        Quiz.questions_attempted (Quiz.quiz_logic c1)
          = Quiz.questions_attempted (Quiz.quiz_logic c) + 1 /\
        Quiz.lives (Quiz.quiz_logic c1) = Quiz.lives (Quiz.quiz_logic c)) /\
     (forall x y vx, plain x = true -> plain y = true ->
        PyText.int x = Some vx -> vx <> a -> PyText.int y = Some a ->
        let c1 := exec (Quiz.check_answer x) c in
        let c2 := exec (Quiz.check_answer y) c1 in
        eval (Quiz.check_answer x) c = Ok ("Wrong. One more attempt remaining.", false) /\
        Quiz.score (Quiz.quiz_logic c1) = Quiz.score (Quiz.quiz_logic c) /\
        Quiz.questions_attempted (Quiz.quiz_logic c1)
          = Quiz.questions_attempted (Quiz.quiz_logic c) /\
        Quiz.lives (Quiz.quiz_logic c1) = Quiz.lives (Quiz.quiz_logic c) /\
        eval (Quiz.check_answer y) c1 = Ok ("Correct! (+5 points)", true) /\
        Quiz.score (Quiz.quiz_logic c2) = Quiz.score (Quiz.quiz_logic c) + 5 /\
        Quiz.questions_attempted (Quiz.quiz_logic c2)
          = Quiz.questions_attempted (Quiz.quiz_logic c) + 1 /\
        Quiz.lives (Quiz.quiz_logic c2) = Quiz.lives (Quiz.quiz_logic c)) /\
     (forall x y vx vy, plain x = true -> plain y = true ->
        PyText.int x = Some vx -> vx <> a -> PyText.int y = Some vy -> vy <> a ->
        let c1 := exec (Quiz.check_answer x) c in
        let c2 := exec (Quiz.check_answer y) c1 in
        eval (Quiz.check_answer y) c1 =
          Ok (("Wrong! The answer was " ++ PyText.str a ++ ". You lost a life.")%string, true) /\
        Quiz.score (Quiz.quiz_logic c2) = Quiz.score (Quiz.quiz_logic c) /\
        (1 < Quiz.lives (Quiz.quiz_logic c) ->
           Quiz.lives (Quiz.quiz_logic c2) = Quiz.lives (Quiz.quiz_logic c) - 1 /\
           Quiz.questions_attempted (Quiz.quiz_logic c2)
             = Quiz.questions_attempted (Quiz.quiz_logic c) + 1 /\
           Quiz.ui c2 = Quiz.play_sfx "wrong" :: Quiz.play_sfx "wrong" :: Quiz.ui c) /\
        (Quiz.lives (Quiz.quiz_logic c) <= 1 ->
           Quiz.lives (Quiz.quiz_logic c2) = Quiz.MAX_LIVES /\
           Quiz.questions_attempted (Quiz.quiz_logic c2) = 0 /\
           Quiz.ui c2 = Quiz.tkraise "MainMenuFrame" ::
                        Quiz.quiz_complete "Game Over! Out of Lives."
                                           (Quiz.difficulty (Quiz.quiz_logic c))
                                           (Quiz.score (Quiz.quiz_logic c))
                                           (Quiz.calculate_rank (Quiz.quiz_logic c)) ::
                        Quiz.play_sfx "wrong" :: Quiz.play_sfx "wrong" :: Quiz.ui c))) /\
  (forall (a : Main.App) (q : Main.Question),
     0 <= Main.question_index a ->
     Main.quiz_data a !! Z.to_nat (Main.question_index a) = Some q ->
     Main.attempts q = 1 ->
     (forall x, plain x = true -> PyText.int x = Some (Main.answer q) ->
        let a1 := exec (Main.check_answer x) a in
        Main.score a1 = Main.score a + 10 /\
        Main.question_index a1 = Main.question_index a + 1 /\
        Main.lives a1 = Main.lives a) /\
     (forall x y vx, plain x = true -> plain y = true ->
                     PyText.int x = Some vx -> vx <> Main.answer q ->
                     PyText.int y = Some (Main.answer q) ->
        let a1 := exec (Main.check_answer x) a in
        let a2 := exec (Main.check_answer y) a1 in
        (Main.score a1 = Main.score a /\ Main.question_index a1 = Main.question_index a /\
         Main.lives a1 = Main.lives a /\ Main.current_page a1 = Main.current_page a) /\
        Main.score a2 = Main.score a + 5 /\
        Main.question_index a2 = Main.question_index a + 1 /\
        Main.lives a2 = Main.lives a) /\
     (forall x y vx vy, plain x = true -> plain y = true ->
                        PyText.int x = Some vx -> vx <> Main.answer q ->
                        PyText.int y = Some vy -> vy <> Main.answer q ->
        let a1 := exec (Main.check_answer x) a in
        let a2 := exec (Main.check_answer y) a1 in
        Main.score a2 = Main.score a /\ Main.lives a2 = Main.lives a - 1 /\
        Main.question_index a2 = Main.question_index a + 1 /\
        Main.dialogs a2 =
          Main.showerror "Incorrect" (Main.heart_lost (Main.answer q)) :: Main.dialogs a)).
Proof.
  split.
  - intros c a Ha Hr.
    destruct (QuizFacts.quiz_two_attempt_rule c a Ha Hr) as (H1 & H2 & H3).
    split; [|split].
    + intros x _. apply H1.
    + intros x y vx _ _. apply H2.
    + intros x y vx vy _ _. apply H3.
  - intros a q Hi Hq Hatt.
    destruct (MainFacts.main_two_attempt_rule a q Hi Hq Hatt) as (H1 & H2 & H3).
    split; [|split].
    + intros x _. apply H1.
    + intros x y vx _ _. apply H2.
    + intros x y vx vy _ _. apply H3.
Qed.

(** A quiz.py game with four lives on the problem [5 + 7], and a main.py
    game on its first question. *)
Definition four_lives : Quiz.Controller :=
  QuizFacts.controller_at (Quiz.mkLogic 20 3 (Some 12) 2 4 (Some "Beginner") 10 (Some 0)).
Definition first_question : Main.App :=
  exec (Main.start_quiz "Beginner") (Main.initial_app (mkRng tape_1_minus_9 0)).

Lemma two_attempt_scoring_rule_on_games :
  (let c2 := exec (Quiz.check_answer "12") (exec (Quiz.check_answer "7") four_lives) in
   Quiz.score (Quiz.quiz_logic c2) = Quiz.score (Quiz.quiz_logic four_lives) + 5) /\
  (let c2 := exec (Quiz.check_answer "8") (exec (Quiz.check_answer "7") four_lives) in
   Quiz.lives (Quiz.quiz_logic c2) = Quiz.lives (Quiz.quiz_logic four_lives) - 1) /\
  (let a2 := exec (Main.check_answer "3") (exec (Main.check_answer "2") first_question) in
   Main.lives a2 = Main.lives first_question - 1).
Proof.
  destruct two_attempt_scoring_rule as [Hq Hm].
  destruct (Hq four_lives 12 eq_refl eq_refl) as (_ & Hsecond & Hwrong).
  split; [|split].
  - destruct (Hsecond "7" "12" 7 eq_refl eq_refl eq_refl ltac:(lia) eq_refl)
      as (_ & _ & _ & _ & _ & H & _).
    exact H.
  - destruct (Hwrong "7" "8" 7 8 eq_refl eq_refl eq_refl ltac:(lia) eq_refl ltac:(lia))
      as (_ & _ & H & _).
    exact (proj1 (H ltac:(cbn; lia))).
  - destruct (Hm first_question (Main.mkQuestion "1 - 9 =" (-8) 1)
                ltac:(vm_compute; congruence) ltac:(vm_compute; reflexivity) eq_refl)
      as (_ & _ & Hw).
    destruct (Hw "2" "3" 2 3 eq_refl eq_refl eq_refl ltac:(cbn; lia) eq_refl ltac:(cbn; lia))
      as (_ & H & _).
    exact H.
Defined.

(** The rank [ResultsPage] of main.py puts on show, by the raw score. *)
Definition rank_of_raw_score (score : Z) : string :=
  if 90 <=? score then "A+ (Excellent!)"
  else if 80 <=? score then "A (Great Job!)"
  else if 70 <=? score then "B (Good Work!)"
  else "C (Keep Practicing!)".

(** C7, the counterexample.  A main.py quiz that ends with 50 points out of
    100 is below 60 per cent of the maximum, and the rank shown is C, not F. *)
Lemma results_page_ranks_50_as_C :
  eval Main.ResultsPage__init__ (Main.set_score 50 first_question)
    = Ok (Main.ResultsPage 50 100 "C (Keep Practicing!)") /\
  50 * 100 < 60 * (Main.MAX_QUESTIONS * Main.FIRST_ATTEMPT_POINTS) /\
  "C (Keep Practicing!)" <> "F (Try Again)".
Proof.
  split; [vm_compute; reflexivity|]. split; [reflexivity | discriminate].
Qed.

(** C7, amended.  [calculate_rank] of quiz.py takes the percentage as
    [score / (max_questions * 10) * 100] and ranks it A+ from 90, A from 80,
    B from 70, C from 60 and F below 60, so that every score below 60 per cent
    of the maximum is ranked F.  The results page of main.py ranks the raw
    score, out of 100, A+ from 90, A from 80, B from 70 and C below 70: it
    never shows F. *)
Theorem rank_thresholds :
  (forall l : Quiz.MathQuizLogic,
     1 <= Quiz.max_questions l <= 20 ->
     0 <= Quiz.score l <= 1000 ->
     Quiz.score_percent l =
       PrimFloat.mul (PrimFloat.div (float_of_int (Quiz.score l))
                                    (float_of_int (Quiz.max_questions l * 10)))
                     (float_of_int 100) /\
     Quiz.calculate_rank l
       = QuizFacts.rank_of_exact_percent (Quiz.score l) (Quiz.max_questions l) /\
     (Quiz.score l * 100 < 60 * (Quiz.max_questions l * 10) ->
      Quiz.calculate_rank l = "F (Try Again)")) /\
  (forall a : Main.App,
     eval Main.ResultsPage__init__ a
       = Ok (Main.ResultsPage (Main.score a) 100 (rank_of_raw_score (Main.score a))) /\
     (Main.score a < 70 -> rank_of_raw_score (Main.score a) = "C (Keep Practicing!)")).
Proof.
  split.
  - exact QuizFacts.calculate_rank_by_percent.
  - intros a. split; [reflexivity|].
    intros H. unfold rank_of_raw_score.
    repeat match goal with
      | |- context [Z.leb ?x ?y] => destruct (Z.leb_spec x y); [lia|]
      end.
    reflexivity.
Qed.

Lemma rank_thresholds_at_55_and_50 :
  Quiz.calculate_rank (Quiz.mkLogic 55 10 (Some 12) 2 3 (Some "Beginner") 10 (Some 0))
    = "F (Try Again)" /\
  rank_of_raw_score (Main.score (Main.set_score 50 first_question)) = "C (Keep Practicing!)".
Proof.
  split.
  - apply (proj1 rank_thresholds
             (Quiz.mkLogic 55 10 (Some 12) 2 3 (Some "Beginner") 10 (Some 0)));
      cbn; lia.
  - apply (proj2 rank_thresholds (Main.set_score 50 first_question)). cbn. lia.
Defined.

(** C6, the counterexample.  In main.py the player quits at the first
    question and confirms: the results page is shown with all five lives left
    and no question answered. *)
Lemma quit_finishes_with_lives_left :
  let a := Main.run first_question [Main.QuitGame true] in
  Main.current_page a = Some (Main.ResultsPage 0 100 "C (Keep Practicing!)") /\
  Main.lives a = 5 /\ Main.question_index a = 0 /\
  ~ (Main.lives a = 0 \/ Main.question_index a = Main.MAX_QUESTIONS).
Proof.
  cbv zeta. split; [vm_compute; reflexivity|].
  split; [vm_compute; reflexivity|]. split; [vm_compute; reflexivity|].
  vm_compute. intros [H|H]; discriminate.
Qed.

End QuizVariants.

(* ===================================================================== *)
(** * Facts: the rest of the student record engine *)
(* ===================================================================== *)

Module RosterFacts.
Import PyText Py StudentReport PyTextFacts StudentReportFacts.

(** ** find_extremes *)

Lemma max_from_first (key : Student -> Z) (l : list Student) (best m : Student) :
  max_from key best l = m ->
  exists pre post,
    best :: l = (pre ++ m :: post)%list /\
    Forall (fun s => key s < key m) pre /\
    Forall (fun s => key s <= key m) post.
Proof.
  revert best. induction l as [|s rest IH]; intros best Hm.
  - cbn in Hm. subst m. exists [], []. cbn. repeat constructor.
  - cbn [max_from] in Hm. destruct (Z.ltb_spec (key best) (key s)) as [Hlt|Hge].
    + destruct (IH s Hm) as (pre & post & Heq & Hpre & Hpost).
      exists (best :: pre), post. split; [cbn; rewrite Heq; reflexivity|].
      split; [|exact Hpost]. constructor; [|exact Hpre].
      assert (Hs : key s <= key m).
      { destruct pre as [|p pre']; cbn in Heq; injection Heq as Hs _.
        - rewrite <- Hs. lia.
        - subst p. apply Forall_inv in Hpre. lia. }
      lia.
    + destruct (IH best Hm) as (pre & post & Heq & Hpre & Hpost).
      destruct pre as [|p pre']; cbn in Heq; injection Heq as Hp Hrest.
      * subst post best. exists [], (s :: rest). split; [reflexivity|].
        split; constructor; [lia | exact Hpost].
      * subst p rest.
        exists (best :: s :: pre'), post. split; [reflexivity|].
        split; [|exact Hpost].
        pose proof (Forall_inv Hpre) as Hb. cbn in Hb.
        constructor; [exact Hb|]. constructor; [lia|].
        exact (Forall_inv_tail Hpre).
Qed.

Lemma min_from_first (key : Student -> Z) (l : list Student) (best m : Student) :
  min_from key best l = m ->
  exists pre post,
    best :: l = (pre ++ m :: post)%list /\
    Forall (fun s => key m < key s) pre /\
    Forall (fun s => key m <= key s) post.
Proof.
  revert best. induction l as [|s rest IH]; intros best Hm.
  - cbn in Hm. subst m. exists [], []. cbn. repeat constructor.
  - cbn [min_from] in Hm. destruct (Z.ltb_spec (key s) (key best)) as [Hlt|Hge].
    + destruct (IH s Hm) as (pre & post & Heq & Hpre & Hpost).
      exists (best :: pre), post. split; [cbn; rewrite Heq; reflexivity|].
      split; [|exact Hpost]. constructor; [|exact Hpre].
      assert (Hs : key m <= key s).
      { destruct pre as [|p pre']; cbn in Heq; injection Heq as Hs _.
        - rewrite <- Hs. lia.
        - subst p. apply Forall_inv in Hpre. lia. }
      lia.
    + destruct (IH best Hm) as (pre & post & Heq & Hpre & Hpost).
      destruct pre as [|p pre']; cbn in Heq; injection Heq as Hp Hrest.
      * subst post best. exists [], (s :: rest). split; [reflexivity|].
        split; constructor; [lia | exact Hpost].
      * subst p rest.
        exists (best :: s :: pre'), post. split; [reflexivity|].
        split; [|exact Hpost].
        pose proof (Forall_inv Hpre) as Hb. cbn in Hb.
        constructor; [exact Hb|]. constructor; [lia|].
        exact (Forall_inv_tail Hpre).
Qed.

(** X1.  [find_extremes(True)] answers [None] on an empty roster and on no
    other; otherwise it answers a student of the roster whose total is the
    greatest, and of the students with that total the first in roster order:
    every student before it has a smaller total, none after it has a greater
    one. *)
Theorem find_extremes_highest_is_first_greatest (dm : DataManager) :
  match find_extremes true dm with
  | None => students dm = []
  | Some m =>
      exists pre post,
        students dm = (pre ++ m :: post)%list /\
        Forall (fun s => total_score s < total_score m) pre /\
        Forall (fun s => total_score s <= total_score m) post
  end.
Proof.
  unfold find_extremes. destruct (students dm) as [|s rest]; [reflexivity|].
  exact (max_from_first total_score rest s _ eq_refl).
Qed.

(** X2.  [find_extremes(False)] answers [None] on an empty roster and on no
    other; otherwise it answers the first student, in roster order, of those
    whose total is the least. *)
Theorem find_extremes_lowest_is_first_least (dm : DataManager) :
  match find_extremes false dm with
  | None => students dm = []
  | Some m =>
      exists pre post,
        students dm = (pre ++ m :: post)%list /\
        Forall (fun s => total_score m < total_score s) pre /\
        Forall (fun s => total_score m <= total_score s) post
  end.
Proof.
  unfold find_extremes. destruct (students dm) as [|s rest]; [reflexivity|].
  exact (min_from_first total_score rest s _ eq_refl).
Qed.

(** ** sort_records *)

Section SortBy.
Context {A : Type} (lt : A -> A -> bool).

Lemma insert_by_perm (x : A) (l : list A) : Permutation (insert_by lt x l) (x :: l).
Proof.
  induction l as [|y rest IH]; cbn; [reflexivity|].
  destruct (lt y x); [|reflexivity].
  rewrite IH. apply perm_swap.
Qed.

Lemma sort_by_perm (l : list A) : Permutation (sort_by lt l) l.
Proof.
  induction l as [|x rest IH]; cbn; [reflexivity|].
  rewrite insert_by_perm, IH. reflexivity.
Qed.

(** Elements none of which is smaller than another keep their order. *)
Lemma insert_by_filter (P : A -> bool) (x : A) (l : list A) :
  (forall a b, P a = true -> P b = true -> lt a b = false) ->
  List.filter P (insert_by lt x l) = List.filter P (x :: l).
Proof.
  intros HP. induction l as [|y rest IH]; [reflexivity|].
  cbn [insert_by]. destruct (lt y x) eqn:Hyx; [|reflexivity].
  cbn [List.filter] in *. rewrite IH.
  destruct (P y) eqn:Py, (P x) eqn:Px; try reflexivity.
  rewrite (HP y x Py Px) in Hyx. discriminate.
Qed.

Lemma sort_by_filter (P : A -> bool) (l : list A) :
  (forall a b, P a = true -> P b = true -> lt a b = false) ->
  List.filter P (sort_by lt l) = List.filter P l.
Proof.
  intros HP. induction l as [|x rest IH]; [reflexivity|].
  cbn [sort_by]. rewrite insert_by_filter by exact HP.
  cbn [List.filter]. rewrite IH. reflexivity.
Qed.

Hypothesis lt_asym : forall a b, lt a b = true -> lt b a = false.
Hypothesis le_trans : forall a b c, lt b a = false -> lt c b = false -> lt c a = false.

Lemma insert_by_sorted (x : A) (l : list A) :
  StronglySorted (fun a b => lt b a = false) l ->
  StronglySorted (fun a b => lt b a = false) (insert_by lt x l).
Proof.
  induction 1 as [|y rest Hs IH Hy]; cbn [insert_by].
  - repeat constructor.
  - destruct (lt y x) eqn:Hyx.
    + constructor; [exact IH|].
      rewrite (insert_by_perm x rest). constructor; [auto | exact Hy].
    + constructor; [constructor; assumption|].
      constructor; [exact Hyx|].
      eapply Forall_impl; [exact Hy|]. cbn. intros z Hz. eauto.
Qed.

Lemma sort_by_sorted (l : list A) :
  StronglySorted (fun a b => lt b a = false) (sort_by lt l).
Proof.
  induction l as [|x rest IH]; cbn [sort_by]; [constructor|].
  apply insert_by_sorted, IH.
Qed.

End SortBy.

Lemma StronglySorted_snoc {A} (R : A -> A -> Prop) (l : list A) (x : A) :
  StronglySorted R l -> Forall (fun a => R a x) l -> StronglySorted R (l ++ [x])%list.
Proof.
  induction 1 as [|y l Hs IH Hy]; intros Hx; cbn [app].
  - repeat constructor.
  - constructor.
    + apply IH. exact (Forall_inv_tail Hx).
    + apply Forall_app. split; [exact Hy|]. constructor; [exact (Forall_inv Hx) | constructor].
Qed.

Lemma StronglySorted_rev {A} (R : A -> A -> Prop) (l : list A) :
  StronglySorted R l -> StronglySorted (fun a b => R b a) (rev l).
Proof.
  induction 1 as [|x l Hs IH Hx]; cbn [rev]; [constructor|].
  apply StronglySorted_snoc; [exact IH|].
  apply List.Forall_forall. intros a Ha. apply in_rev in Ha.
  rewrite List.Forall_forall in Hx. exact (Hx a Ha).
Qed.

Lemma StronglySorted_weaken {A} (R R' : A -> A -> Prop) (l : list A) :
  (forall a b, R a b -> R' a b) -> StronglySorted R l -> StronglySorted R' l.
Proof.
  intros HR. induction 1 as [|x l Hs IH Hx]; constructor; [exact IH|].
  eapply Forall_impl; [exact Hx|]. cbn. auto.
Qed.

(** Sorting the pairs of a key and a student is sorting the students under
    their keys. *)
Section Keyed.
Context (k : Student -> Key).

Definition lt_under (a b : Student) : bool := key_lt (k a) (k b).

(** The roster [sort(key=k, reverse=reverse)] leaves. *)
Definition sorted_under (reverse : bool) (l : list Student) : list Student :=
  if reverse then rev (sort_by lt_under (rev l)) else sort_by lt_under l.

Lemma insert_by_keyed (x : Student) (l : list Student) :
  insert_by (fun p q : Key * Student => key_lt (fst p) (fst q)) (k x, x)
            (map (fun s => (k s, s)) l)
  = map (fun s => (k s, s)) (insert_by lt_under x l).
Proof.
  induction l as [|y rest IH]; [reflexivity|].
  cbn [map insert_by fst]. unfold lt_under at 1.
  destruct (key_lt (k y) (k x)); [|reflexivity].
  rewrite IH. reflexivity.
Qed.

Lemma sort_by_keyed (l : list Student) :
  sort_by (fun p q : Key * Student => key_lt (fst p) (fst q)) (map (fun s => (k s, s)) l)
  = map (fun s => (k s, s)) (sort_by lt_under l).
Proof.
  induction l as [|x rest IH]; [reflexivity|].
  cbn [map sort_by]. rewrite IH. apply insert_by_keyed.
Qed.

Lemma list_sort_keyed (reverse : bool) (l : list Student) :
  list_sort reverse (map (fun s => (k s, s)) l) = sorted_under reverse l.
Proof.
  unfold list_sort, sorted_under. destruct reverse.
  - rewrite <- map_rev, sort_by_keyed, <- map_rev, map_map. apply map_id.
  - rewrite sort_by_keyed, map_map. apply map_id.
Qed.

Lemma sorted_under_perm (reverse : bool) (l : list Student) :
  Permutation (sorted_under reverse l) l.
Proof.
  unfold sorted_under. destruct reverse.
  - rewrite <- Permutation_rev, sort_by_perm, <- Permutation_rev. reflexivity.
  - apply sort_by_perm.
Qed.

Lemma sorted_under_filter (P : Student -> bool) (reverse : bool) (l : list Student) :
  (forall a b, P a = true -> P b = true -> lt_under a b = false) ->
  List.filter P (sorted_under reverse l) = List.filter P l.
Proof.
  intros HP. unfold sorted_under. destruct reverse.
  - rewrite List.filter_rev, sort_by_filter by exact HP.
    rewrite List.filter_rev. apply rev_involutive.
  - apply sort_by_filter, HP.
Qed.

Lemma sorted_under_sorted (reverse : bool) (l : list Student) :
  (forall a b, lt_under a b = true -> lt_under b a = false) ->
  (forall a b c, lt_under b a = false -> lt_under c b = false -> lt_under c a = false) ->
  StronglySorted (fun a b => if reverse then lt_under a b = false else lt_under b a = false)
                 (sorted_under reverse l).
Proof.
  intros Hasym Htrans. unfold sorted_under. destruct reverse.
  - apply (StronglySorted_rev (fun a b => lt_under b a = false)).
    apply sort_by_sorted; assumption.
  - apply sort_by_sorted; assumption.
Qed.

Lemma keyed_by_attr (key_attr : string) (l : list Student) :
  (forall s, getattr s key_attr = Some (k s)) ->
  keyed_by key_attr l = Some (map (fun s => (k s, s)) l).
Proof.
  intros Hk. induction l as [|s rest IH]; [reflexivity|].
  cbn [keyed_by map]. rewrite Hk, IH. reflexivity.
Qed.

Lemma sort_records_run (key_attr : string) (ascending : bool) (dm : DataManager) :
  (forall s, getattr s key_attr = Some (k s)) ->
  sort_records key_attr ascending dm
  = Some (mkDataManager (sorted_under (negb ascending) (students dm)) (class_size dm)).
Proof.
  intros Hk. unfold sort_records.
  assert (Hkeyed :
    (if String.eqb key_attr "total_score"
     then Some (map (fun s => (KInt (total_score s), s)) (students dm))
     else if String.eqb key_attr "overall_percentage"
          then Some (map (fun s => (KFloat (overall_percentage s), s)) (students dm))
          else keyed_by key_attr (students dm))
    = Some (map (fun s => (k s, s)) (students dm))).
  { destruct (String.eqb_spec key_attr "total_score") as [->|_].
    - f_equal. apply map_ext. intros s. specialize (Hk s). cbn in Hk. congruence.
    - destruct (String.eqb_spec key_attr "overall_percentage") as [->|_].
      + f_equal. apply map_ext. intros s. specialize (Hk s). cbn in Hk. congruence.
      + apply keyed_by_attr, Hk. }
  rewrite Hkeyed, list_sort_keyed. reflexivity.
Qed.

End Keyed.

(** The order of strings. *)
Lemma ascii_compare_refl (c : ascii) : Ascii.compare c c = Eq.
Proof. apply N.compare_refl. Qed.

Lemma ascii_compare_lt_trans (a b c : ascii) :
  Ascii.compare a b = Lt -> Ascii.compare b c = Lt -> Ascii.compare a c = Lt.
Proof.
  unfold Ascii.compare. rewrite !N.compare_lt_iff. apply N.lt_trans.
Qed.

Lemma string_compare_lt_trans (a b c : string) :
  String.compare a b = Lt -> String.compare b c = Lt -> String.compare a c = Lt.
Proof.
  revert b c. induction a as [|x a IH]; intros [|y b] [|z c]; cbn; try congruence.
  destruct (Ascii.compare x y) eqn:Hxy; try discriminate;
    destruct (Ascii.compare y z) eqn:Hyz; try discriminate; intros Hab Hbc.
  - apply Ascii.compare_eq_iff in Hxy, Hyz. subst. rewrite ascii_compare_refl. eauto.
  - apply Ascii.compare_eq_iff in Hxy. subst. rewrite Hyz. reflexivity.
  - apply Ascii.compare_eq_iff in Hyz. subst. rewrite Hxy. reflexivity.
  - rewrite (ascii_compare_lt_trans x y z Hxy Hyz). reflexivity.
Qed.

Lemma string_compare_refl (a : string) : String.compare a a = Eq.
Proof. induction a as [|x a IH]; cbn; [reflexivity|]. rewrite ascii_compare_refl. exact IH. Qed.

Lemma string_ltb_asym (a b : string) : String.ltb a b = true -> String.ltb b a = false.
Proof.
  unfold String.ltb. rewrite (String.compare_antisym b a).
  destruct (String.compare a b); cbn; congruence.
Qed.

Lemma string_ltb_le_trans (a b c : string) :
  String.ltb b a = false -> String.ltb c b = false -> String.ltb c a = false.
Proof.
  unfold String.ltb. intros Hba Hcb.
  destruct (String.compare c a) eqn:Hca; try reflexivity.
  destruct (String.compare b a) eqn:Hb; try discriminate.
  - apply String.compare_eq_iff in Hb. subst b. rewrite Hca in Hcb. discriminate.
  - assert (Hab : String.compare a b = Lt).
    { rewrite String.compare_antisym, Hb. reflexivity. }
    rewrite (string_compare_lt_trans c a b Hca Hab) in Hcb. discriminate.
Qed.

Lemma string_ltb_leb (a b : string) : String.ltb b a = false <-> String.leb a b = true.
Proof.
  unfold String.ltb, String.leb. rewrite (String.compare_antisym b a).
  destruct (String.compare a b); cbn; split; congruence.
Qed.

(** The roster a sort by total leaves. *)
Lemma sorted_by_total (reverse : bool) (l : list Student) :
  let l' := sorted_under (fun s => KInt (total_score s)) reverse l in
  Permutation l' l /\
  StronglySorted (fun a b => if reverse then total_score b <= total_score a
                             else total_score a <= total_score b) l' /\
  forall total, List.filter (fun s => total_score s =? total) l'
                = List.filter (fun s => total_score s =? total) l.
Proof.
  cbv zeta. split; [apply sorted_under_perm|]. split.
  - eapply StronglySorted_weaken; cycle 1.
    + apply sorted_under_sorted; unfold lt_under, key_lt; intros; lia.
    + unfold lt_under, key_lt. intros a b. destruct reverse; cbn; lia.
  - intros total. apply sorted_under_filter. unfold lt_under, key_lt. intros; lia.
Qed.

(** X3.  [sort_records('total_score', ascending)] always succeeds and leaves
    the class size as it was.  The roster it leaves holds the same students,
    in the order of their totals, rising when [ascending] and falling
    otherwise; in both directions the students of one total stay in the order
    they had (a falling sort is not the rising one reversed). *)
Theorem sort_records_by_total_score (ascending : bool) (dm : DataManager) :
  exists dm',
    sort_records "total_score" ascending dm = Some dm' /\
    class_size dm' = class_size dm /\
    Permutation (students dm') (students dm) /\
    StronglySorted (fun a b => if ascending then total_score a <= total_score b
                               else total_score b <= total_score a) (students dm') /\
    forall total, List.filter (fun s => total_score s =? total) (students dm')
                  = List.filter (fun s => total_score s =? total) (students dm).
Proof.
  eexists. split.
  { apply (sort_records_run (fun s => KInt (total_score s))). reflexivity. }
  cbn [students class_size]. split; [reflexivity|].
  destruct (sorted_by_total (negb ascending) (students dm)) as (Hperm & Hsorted & Hstable).
  split; [exact Hperm|]. split; [|exact Hstable].
  destruct ascending; exact Hsorted.
Qed.

(** X4.  [sort_records('name', ascending)] always succeeds and leaves the
    class size as it was.  The roster it leaves holds the same students, in
    the order of their names as Python compares strings (character by
    character, a capital before every small letter), rising or falling; the
    students of one name stay in the order they had. *)
Theorem sort_records_by_name (ascending : bool) (dm : DataManager) :
  exists dm',
    sort_records "name" ascending dm = Some dm' /\
    class_size dm' = class_size dm /\
    Permutation (students dm') (students dm) /\
    StronglySorted (fun a b => if ascending then String.leb (name a) (name b) = true
                               else String.leb (name b) (name a) = true) (students dm') /\
    forall n, List.filter (fun s => String.eqb (name s) n) (students dm')
              = List.filter (fun s => String.eqb (name s) n) (students dm).
Proof.
  eexists. split.
  { apply (sort_records_run (fun s => KStr (name s))). reflexivity. }
  cbn [students class_size]. split; [reflexivity|]. split; [apply sorted_under_perm|]. split.
  - eapply StronglySorted_weaken; cycle 1.
    + apply sorted_under_sorted; unfold lt_under, key_lt; intros.
      * apply string_ltb_asym. assumption.
      * eapply string_ltb_le_trans; eassumption.
    + unfold lt_under, key_lt. intros a b. destruct ascending; cbn; apply string_ltb_leb.
  - intros n. apply sorted_under_filter. unfold lt_under, key_lt. intros a b Ha Hb.
    apply String.eqb_eq in Ha, Hb. rewrite Ha, Hb.
    unfold String.ltb. rewrite string_compare_refl. reflexivity.
Qed.

(** Two orders that agree on the elements of a list sort it alike. *)
Lemma insert_by_ext {A} (lt lt' : A -> A -> bool) (x : A) (l : list A) :
  (forall b, In b l -> lt b x = lt' b x) -> insert_by lt x l = insert_by lt' x l.
Proof.
  induction l as [|y rest IH]; intros H; [reflexivity|].
  cbn [insert_by]. rewrite <- (H y (or_introl eq_refl)).
  destruct (lt y x); [|reflexivity].
  rewrite IH; [reflexivity|]. intros b Hb. apply H. right. exact Hb.
Qed.

Lemma sort_by_ext {A} (lt lt' : A -> A -> bool) (l : list A) :
  (forall a b, In a l -> In b l -> lt a b = lt' a b) -> sort_by lt l = sort_by lt' l.
Proof.
  induction l as [|x rest IH]; intros H; [reflexivity|].
  cbn [sort_by]. rewrite <- IH.
  - apply insert_by_ext. intros b Hb. apply H; [right|left; reflexivity].
    eapply Permutation_in; [apply sort_by_perm | exact Hb].
  - intros a b Ha Hb. apply H; right; assumption.
Qed.

(** A student whose derived data are those of the scores. *)
Definition up_to_date (s : Student) : Prop := _recalculate_derived_data s = s.

Lemma up_to_date_fields (s : Student) :
  up_to_date s ->
  total_score s = c1 s + c2 s + c3 s + exam s /\
  overall_percentage s = percentage_of_total (total_score s).
Proof.
  intros H. unfold up_to_date in H. destruct s as [co na x1 x2 x3 ex cw tot pc gr].
  unfold _recalculate_derived_data in H. cbn in H. injection H as _ Htot Hpc _.
  cbn. rewrite <- Hpc, <- Htot. split; reflexivity.
Qed.

(** The percentages of the totals 0..160 are in the order of the totals. *)
Lemma percentages_upto_160 :
  forallb (fun i => forallb (fun j => Bool.eqb (PrimFloat.ltb (percentage_of_total i)
                                                              (percentage_of_total j))
                                               (i <? j))
                            (map Z.of_nat (seq 0 161)))
          (map Z.of_nat (seq 0 161)) = true.
Proof. vm_compute. reflexivity. Qed.

Lemma percentage_order (i j : Z) :
  0 <= i <= 160 -> 0 <= j <= 160 ->
  PrimFloat.ltb (percentage_of_total i) (percentage_of_total j) = (i <? j).
Proof.
  intros Hi Hj.
  pose proof (PyFacts.check_range _ _ percentages_upto_160 i ltac:(lia)) as H. cbv beta in H.
  pose proof (PyFacts.check_range _ _ H j ltac:(lia)) as H'. cbv beta in H'.
  apply Bool.eqb_prop. exact H'.
Qed.

(** X5.  On a roster whose students have the derived data of their scores and
    totals within 0..160, sorting by [overall_percentage] gives the roster
    that sorting by [total_score] gives, in either direction: dividing by 160
    and multiplying by 100 in floating point merges no two totals and swaps
    none. *)
Theorem sort_records_by_percentage_is_by_total (ascending : bool) (dm : DataManager) :
  Forall (fun s => up_to_date s /\ 0 <= total_score s <= TOTAL_MAX_MARKS) (students dm) ->
  sort_records "overall_percentage" ascending dm = sort_records "total_score" ascending dm.
Proof.
  intros Hl.
  rewrite (sort_records_run (fun s => KFloat (overall_percentage s)) "overall_percentage")
    by reflexivity.
  rewrite (sort_records_run (fun s => KInt (total_score s)) "total_score") by reflexivity.
  do 2 f_equal. unfold sorted_under.
  assert (Hagree : forall l, (forall a, In a l -> In a (students dm)) ->
            sort_by (lt_under (fun s => KFloat (overall_percentage s))) l
            = sort_by (lt_under (fun s => KInt (total_score s))) l).
  { intros l Hsub. apply sort_by_ext. intros a b Ha Hb.
    rewrite List.Forall_forall in Hl.
    destruct (Hl a (Hsub a Ha)) as (Hua & Ha'), (Hl b (Hsub b Hb)) as (Hub & Hb').
    unfold lt_under, key_lt.
    rewrite (proj2 (up_to_date_fields a Hua)), (proj2 (up_to_date_fields b Hub)).
    apply percentage_order; assumption. }
  destruct (negb ascending).
  - rewrite Hagree; [reflexivity|]. intros a Ha. apply in_rev. exact Ha.
  - apply Hagree. auto.
Qed.

Definition cy : Student :=
  _recalculate_derived_data (mkStudent "1003" "Cy" 20 20 20 100 0 0 PrimFloat.zero "").

Lemma sort_records_by_percentage_is_by_total_ann_bob_cy :
  option_map (fun dm => map name (students dm))
             (sort_records "overall_percentage" false (mkDataManager [ann; bob; cy] 3))
  = Some ["Bob"; "Cy"; "Ann"].
Proof.
  rewrite (sort_records_by_percentage_is_by_total false (mkDataManager [ann; bob; cy] 3)).
  - reflexivity.
  - cbn [students].
    repeat (apply List.Forall_cons; [split; [reflexivity | unfold TOTAL_MAX_MARKS; cbn; lia]|]). apply List.Forall_nil.
Defined.

(** The attributes [__init__] and [_recalculate_derived_data] give a
    student. *)
Definition data_attributes : list string :=
  ["code"; "name"; "c1"; "c2"; "c3"; "exam"; "coursework_total"; "total_score";
   "overall_percentage"; "grade"].

Lemma keyed_by_data_attribute (key_attr : string) (l : list Student) :
  In key_attr data_attributes ->
  exists keyed, keyed_by key_attr l = Some keyed /\ map snd keyed = l.
Proof.
  intros Hin. induction l as [|s rest (keyed & Hk & Hs)]; [exists []; split; reflexivity|].
  cbn [keyed_by]. rewrite Hk.
  assert (Hget : exists k, getattr s key_attr = Some k).
  { unfold data_attributes in Hin. cbn [In] in Hin.
    repeat (destruct Hin as [<-|Hin]; [eexists; reflexivity|]). contradiction. }
  destruct Hget as (k & ->). exists ((k, s) :: keyed). cbn. rewrite Hs. split; reflexivity.
Qed.

(** X6.  Whichever data attribute is the key, and in either direction,
    [sort_records] returns and only reorders the roster: the same students as
    many times as before, and the class size untouched. *)
Theorem sort_records_permutes (key_attr : string) (ascending : bool) (dm : DataManager) :
  In key_attr data_attributes ->
  exists dm',
    sort_records key_attr ascending dm = Some dm' /\
    Permutation (students dm') (students dm) /\ class_size dm' = class_size dm.
Proof.
  assert (Hsort : forall reverse (keyed : list (Key * Student)),
            Permutation (list_sort reverse keyed) (map snd keyed)).
  { intros reverse keyed. unfold list_sort. apply Permutation_map. destruct reverse.
    - rewrite <- Permutation_rev, sort_by_perm, <- Permutation_rev. reflexivity.
    - apply sort_by_perm. }
  intros Hin. unfold sort_records.
  destruct (String.eqb key_attr "total_score").
  { eexists. split; [reflexivity|]. cbn [students class_size]. split; [|reflexivity].
    rewrite Hsort, map_map. cbn. rewrite map_id. reflexivity. }
  destruct (String.eqb key_attr "overall_percentage").
  { eexists. split; [reflexivity|]. cbn [students class_size]. split; [|reflexivity].
    rewrite Hsort, map_map. cbn. rewrite map_id. reflexivity. }
  destruct (keyed_by_data_attribute key_attr (students dm) Hin) as (keyed & -> & Hk).
  eexists. split; [reflexivity|]. cbn [students class_size]. split; [|reflexivity].
  rewrite Hsort, Hk. reflexivity.
Qed.

Lemma sort_records_permutes_by_grade :
  In "grade" data_attributes /\
  exists dm',
    sort_records "grade" true (mkDataManager [ann; bob; cy] 3) = Some dm' /\
    Permutation (students dm') [ann; bob; cy] /\ class_size dm' = 3.
Proof.
  assert (Hin : In "grade" data_attributes) by (cbn; tauto).
  split; [exact Hin|].
  exact (sort_records_permutes "grade" true (mkDataManager [ann; bob; cy] 3) Hin).
Defined.

(** The first element of a sorted list in which equal elements kept their
    order. *)
Lemma filter_total_first (m : Student) (pre post : list Student) :
  Forall (fun s => total_score s <> total_score m) pre ->
  List.filter (fun s => total_score s =? total_score m) (pre ++ m :: post)%list
  = m :: List.filter (fun s => total_score s =? total_score m) post.
Proof.
  induction 1 as [|p pre Hp _ IH]; cbn [app List.filter].
  - rewrite Z.eqb_refl. reflexivity.
  - destruct (Z.eqb_spec (total_score p) (total_score m)); [contradiction|exact IH].
Qed.

Lemma extreme_head (better : Student -> Student -> Prop) (m : Student)
      (pre post sorted : list Student) :
  (forall a b, better a b -> better b a -> total_score a = total_score b) ->
  Permutation sorted (pre ++ m :: post) ->
  Forall (fun s => total_score s <> total_score m) pre ->
  List.filter (fun s => total_score s =? total_score m) sorted
    = List.filter (fun s => total_score s =? total_score m) (pre ++ m :: post)%list ->
  (forall h rest, sorted = h :: rest ->
     (forall x, In x rest -> better h x) /\
     (forall x, In x (pre ++ m :: post)%list -> better m x)) ->
  head sorted = Some m.
Proof.
  intros Hanti Hperm Hpre Hstable Hbest.
  rewrite filter_total_first in Hstable by exact Hpre.
  destruct sorted as [|h rest].
  { apply Permutation_nil in Hperm. destruct pre; discriminate. }
  destruct (Hbest h rest eq_refl) as (Hh & Hm).
  assert (Heq : total_score h = total_score m).
  { assert (Hmin : In m (h :: rest)).
    { eapply Permutation_in; [symmetry; exact Hperm|]. apply in_elt. }
    assert (Hhin : In h (pre ++ m :: post)%list).
    { eapply Permutation_in; [exact Hperm|]. left. reflexivity. }
    destruct Hmin as [->|Hmin]; [reflexivity|].
    apply Hanti; [apply Hh, Hmin | apply Hm, Hhin]. }
  cbn [List.filter] in Hstable. rewrite Heq, Z.eqb_refl in Hstable.
  injection Hstable as ->. reflexivity.
Qed.

(** X7.  Sorting by [total_score] and reading the head of the roster agrees
    with [find_extremes]: after a falling sort the first student is the one
    [find_extremes(True)] answers, after a rising sort the one
    [find_extremes(False)] answers, ties included; on an empty roster both
    have nothing to give. *)
Theorem sorted_roster_starts_with_extreme (highest : bool) (dm : DataManager) :
  exists dm',
    sort_records "total_score" (negb highest) dm = Some dm' /\
    head (students dm') = find_extremes highest dm.
Proof.
  eexists. split.
  { apply (sort_records_run (fun s => KInt (total_score s))). reflexivity. }
  cbn [students]. rewrite negb_involutive.
  destruct (sorted_by_total highest (students dm)) as (Hperm & Hsorted & Hstable).
  unfold find_extremes.
  destruct (students dm) as [|s0 rest0] eqn:Hl.
  { apply Permutation_sym, Permutation_nil in Hperm. rewrite Hperm. reflexivity. }
  destruct highest.
  - destruct (max_from_first total_score rest0 s0 _ eq_refl)
      as (pre & post & Heq & Hpre & Hpost).
    rewrite Heq in *. set (m := max_from total_score s0 rest0) in *.
    eapply (extreme_head (fun a b => total_score b <= total_score a)); try eassumption.
    + cbn; intros; lia.
    + eapply Forall_impl; [exact Hpre|]; cbn; intros; lia.
    + apply Hstable.
    + intros h rest' Hh. rewrite Hh in Hsorted.
      apply StronglySorted_inv in Hsorted. destruct Hsorted as [_ Hh'].
      split.
      * intros x Hx. rewrite List.Forall_forall in Hh'. specialize (Hh' x Hx). cbn in Hh'. lia.
      * intros x Hx. apply in_app_or in Hx. rewrite List.Forall_forall in Hpre, Hpost.
        destruct Hx as [Hin|[<-|Hin]]; [specialize (Hpre _ Hin) | | specialize (Hpost _ Hin)];
          cbn in *; lia.
  - destruct (min_from_first total_score rest0 s0 _ eq_refl)
      as (pre & post & Heq & Hpre & Hpost).
    rewrite Heq in *. set (m := min_from total_score s0 rest0) in *.
    eapply (extreme_head (fun a b => total_score a <= total_score b)); try eassumption.
    + cbn; intros; lia.
    + eapply Forall_impl; [exact Hpre|]; cbn; intros; lia.
    + apply Hstable.
    + intros h rest' Hh. rewrite Hh in Hsorted.
      apply StronglySorted_inv in Hsorted. destruct Hsorted as [_ Hh'].
      split.
      * intros x Hx. rewrite List.Forall_forall in Hh'. specialize (Hh' x Hx). cbn in Hh'. lia.
      * intros x Hx. apply in_app_or in Hx. rewrite List.Forall_forall in Hpre, Hpost.
        destruct Hx as [Hin|[<-|Hin]]; [specialize (Hpre _ Hin) | | specialize (Hpost _ Hin)];
          cbn in *; lia.
Qed.

(** ** _validate_numeric_input *)

Lemma digit_val_nonneg (c : ascii) : isdigit_char c = true -> 0 <= digit_val c <= 9.
Proof.
  unfold isdigit_char, digit_val. intros H.
  apply andb_prop in H as [H1 H2]. apply Nat.leb_le in H1, H2. lia.
Qed.

Lemma int_digits_all_digits (s : string) (acc : Z) (prev : bool) :
  all_digits s = true -> 0 <= acc -> s <> "" \/ prev = true ->
  exists v, int_digits s acc prev = Some v /\ 0 <= v.
Proof.
  revert acc prev. induction s as [|c r IH]; intros acc prev Hd Hacc Hne.
  - destruct Hne as [Hne| ->]; [contradiction|]. exists acc. split; [reflexivity | exact Hacc].
  - cbn in Hd. apply andb_prop in Hd as [Hc Hr]. cbn [int_digits]. rewrite Hc.
    pose proof (digit_val_nonneg c Hc).
    apply IH; [exact Hr | lia | right; reflexivity].
Qed.

Lemma int_isdigit (s : string) :
  isdigit s = true -> exists v, PyText.int s = Some v /\ 0 <= v.
Proof.
  intros H. destruct s as [|c r]; [discriminate|]. cbn [isdigit] in H.
  rewrite (int_unsigned _ H). apply int_digits_all_digits; [exact H | lia | left; discriminate].
Qed.

(** X8.  On an ASCII text short enough for [int] to read (the interpreter
    turns down literals of more than 4300 digits), [_validate_numeric_input]
    never raises and changes nothing.  It lets an entry be emptied; other
    than that it accepts exactly the texts made of the digits 0 to 9 only (no
    sign, no space) whose value is at most 100 in the exam field and at most
    20 in a coursework field. *)
Theorem validate_numeric_input_accepts {S} (P key : string) (s : S) :
  plain P = true ->
  exists ok : bool,
    _validate_numeric_input P key s = (s, Ok ok) /\
    (ok = true <->
     P = "" \/
     (isdigit P = true /\
      exists v, PyText.int P = Some v /\ 0 <= v /\
                (key = "exam" -> v <= 100) /\
                (key = "c1" \/ key = "c2" \/ key = "c3" -> v <= 20))).
Proof.
  intros _. unfold _validate_numeric_input.
  destruct (String.eqb_spec P "") as [->|Hne].
  { exists true. split; [reflexivity|]. split; [left; reflexivity | reflexivity]. }
  rewrite orb_false_r. destruct (isdigit P) eqn:Hd.
  2:{ exists false. split; [reflexivity|]. split; [discriminate|].
      intros [HP|[HP _]]; [contradiction | discriminate]. }
  destruct (int_isdigit P Hd) as (v & Hv & Hpos).
  unfold Py.int, bind. rewrite Hv. cbn [ret].
  destruct (String.eqb_spec key "exam") as [->|Hexam].
  - cbn [andb orb String.eqb Ascii.eqb Bool.eqb].
    destruct (Z.ltb_spec 100 v).
    + exists false. split; [reflexivity|]. split; [discriminate|].
      intros [HP|(_ & v' & Hv' & _ & Hle & _)]; [contradiction|].
      assert (v' = v) by congruence. specialize (Hle eq_refl). lia.
    + exists true. split; [reflexivity|]. split; [|reflexivity]. intros _. right.
      split; [reflexivity|]. exists v.
      split; [reflexivity|]. split; [exact Hpos|]. split; [intros _; assumption|].
      intros [H'|[H'|H']]; discriminate.
  - cbn [andb].
    destruct (String.eqb key "c1" || String.eqb key "c2" || String.eqb key "c3") eqn:Hc.
    + assert (Hkey : key = "c1" \/ key = "c2" \/ key = "c3").
      { apply orb_prop in Hc as [Hc|Hc]; [apply orb_prop in Hc as [Hc|Hc]|];
          apply String.eqb_eq in Hc; auto. }
      cbn [andb]. destruct (Z.ltb_spec 20 v).
      * exists false. split; [reflexivity|]. split; [discriminate|].
        intros [HP|(_ & v' & Hv' & _ & _ & Hle)]; [contradiction|].
        assert (v' = v) by congruence. specialize (Hle Hkey). lia.
      * exists true. split; [reflexivity|]. split; [|reflexivity]. intros _. right.
        split; [reflexivity|]. exists v.
        split; [reflexivity|]. split; [exact Hpos|]. split; [|intros _; assumption].
        intros ->. contradiction.
    + cbn [andb]. exists true. split; [reflexivity|]. split; [|reflexivity]. intros _. right.
      split; [reflexivity|]. exists v.
      split; [reflexivity|]. split; [exact Hpos|]. split.
      * intros ->. contradiction.
      * intros [E|[E|E]]; subst key; cbn in Hc; discriminate.
Qed.

Lemma validate_numeric_input_accepts_exam :
  eval (S := unit) (_validate_numeric_input "100" "exam") tt = Ok true /\
  eval (S := unit) (_validate_numeric_input "101" "exam") tt = Ok false /\
  eval (S := unit) (_validate_numeric_input "21" "c2") tt = Ok false /\
  eval (S := unit) (_validate_numeric_input "-1" "c2") tt = Ok false.
Proof.
  destruct (validate_numeric_input_accepts "100" "exam" tt eq_refl) as (ok & Hrun & Hok).
  unfold eval. rewrite Hrun. cbn [snd].
  split; [|repeat split].
  f_equal. apply Hok. right. split; [reflexivity|].
  exists 100. split; [reflexivity|]. split; [lia|]. split; [intros _; lia|].
  intros [H|[H|H]]; discriminate.
Defined.

(** ** save_data, then load_data *)

Lemma has_char_app (c : ascii) (s t : string) :
  has_char c (s ++ t) = has_char c s || has_char c t.
Proof.
  induction s as [|d s IH]; cbn; [reflexivity|]. rewrite IH. apply orb_assoc.
Qed.

Lemma split_no_sep (sep : ascii) (s : string) :
  has_char sep s = false -> split sep s = [s].
Proof.
  induction s as [|c r IH]; cbn; [reflexivity|].
  intros H. apply orb_false_elim in H as [Hc Hr]. rewrite Hc, (IH Hr). reflexivity.
Qed.

Lemma split_app_sep (sep : ascii) (s t : string) :
  has_char sep s = false -> split sep (s ++ String sep t) = s :: split sep t.
Proof.
  induction s as [|c r IH]; cbn.
  - intros _. rewrite Ascii.eqb_refl. reflexivity.
  - intros H. apply orb_false_elim in H as [Hc Hr]. rewrite Hc, (IH Hr). reflexivity.
Qed.

Lemma all_digits_has_char (c : ascii) (s : string) :
  isdigit_char c = false -> all_digits s = true -> has_char c s = false.
Proof.
  intros Hc. induction s as [|d r IH]; cbn; [reflexivity|].
  intros H. apply andb_prop in H as [Hd Hr]. rewrite (IH Hr), orb_false_r.
  destruct (Ascii.eqb_spec d c) as [->|]; [congruence | reflexivity].
Qed.

Lemma all_digits_str_nonneg (n : Z) : 0 <= n -> all_digits (str_nonneg n) = true.
Proof. intros H. apply all_digits_str_digits; [exact H | reflexivity]. Qed.

(** [str] prints digits after at most one minus sign. *)
Lemma str_has_char (c : ascii) (z : Z) :
  isdigit_char c = false -> c <> "-"%char -> has_char c (PyText.str z) = false.
Proof.
  intros Hc Hm. unfold PyText.str. destruct (Z.ltb_spec z 0).
  - cbn [has_char]. destruct (Ascii.eqb_spec "-"%char c) as [E|_]; [congruence|].
    apply all_digits_has_char; [exact Hc | apply all_digits_str_nonneg; lia].
  - apply all_digits_has_char; [exact Hc | apply all_digits_str_nonneg; lia].
Qed.

Lemma str_no_space (z : Z) : no_space (PyText.str z) = true.
Proof.
  unfold PyText.str. destruct (Z.ltb_spec z 0).
  - cbn. apply all_digits_no_space, all_digits_str_nonneg. lia.
  - apply all_digits_no_space, all_digits_str_nonneg. lia.
Qed.

Lemma str_not_empty (z : Z) : PyText.str z <> "".
Proof.
  unfold PyText.str. destruct (z <? 0); [discriminate|].
  apply str_digits_not_empty. lia.
Qed.

Lemma rstrip_app_fixed (s t : string) :
  rstrip t = t -> t <> "" -> rstrip (s ++ t) = (s ++ t)%string.
Proof.
  intros Ht Hne. induction s as [|c r IH]; cbn [append]; [exact Ht|].
  cbn [rstrip]. rewrite IH.
  destruct (r ++ t)%string eqn:E; [|reflexivity].
  destruct r; cbn in E; [contradiction | discriminate].
Qed.

Lemma lstrip_app_no_space (s t : string) :
  no_space s = true -> lstrip t = t -> lstrip (s ++ t) = (s ++ t)%string.
Proof.
  intros Hs Ht. destruct s as [|c r]; [exact Ht|].
  cbn in Hs. apply andb_prop in Hs as [Hc _]. cbn. 
  destruct (isspace c); [discriminate | reflexivity].
Qed.


(** A student whose record line reads back as the student: derived data
    those of the scores, a code free of white space and commas, a name free of
    commas and of line ends, and marks in the range of the model. *)
Definition storable (s : Student) : Prop :=
  up_to_date s /\
  no_space (code s) = true /\ has_char "," (code s) = false /\
  has_char "," (name s) = false /\ has_char LF (name s) = false /\
  has_char CR (name s) = false /\
  small_marks (c1 s) (c2 s) (c3 s) (exam s).

Lemma no_space_has_char (c : ascii) (s : string) :
  isspace c = true -> no_space s = true -> has_char c s = false.
Proof.
  intros Hc. induction s as [|d r IH]; cbn; [reflexivity|].
  intros H. apply andb_prop in H as [Hd Hr]. rewrite (IH Hr), orb_false_r.
  destruct (Ascii.eqb_spec d c) as [->|]; [rewrite Hc in Hd; discriminate | reflexivity].
Qed.

Lemma to_file_format_split (s : Student) :
  has_char "," (code s) = false -> has_char "," (name s) = false ->
  split "," (to_file_format s)
  = [code s; name s; PyText.str (c1 s); PyText.str (c2 s); PyText.str (c3 s);
     PyText.str (exam s)].
Proof.
  intros Hc Hn. unfold to_file_format.
  assert (Hstr : forall z, has_char "," (PyText.str z) = false)
    by (intros z; apply str_has_char; [reflexivity | discriminate]).
  cbn [append].
  rewrite (split_app_sep _ _ _ Hc), (split_app_sep _ _ _ Hn), !(split_app_sep _ _ _ (Hstr _)).
  rewrite (split_no_sep _ _ (Hstr _)). reflexivity.
Qed.

Lemma to_file_format_one_line (s : Student) :
  has_char LF (code s) = false -> has_char LF (name s) = false ->
  has_char LF (to_file_format s) = false.
Proof.
  intros Hc Hn. unfold to_file_format.
  rewrite !has_char_app, Hc, Hn.
  rewrite !str_has_char by (reflexivity || discriminate). reflexivity.
Qed.

Lemma to_file_format_strip (s : Student) :
  no_space (code s) = true -> strip (to_file_format s) = to_file_format s.
Proof.
  intros Hc. unfold strip.
  assert (Hr : rstrip (to_file_format s) = to_file_format s).
  { unfold to_file_format. rewrite <- !append_assoc.
    apply rstrip_app_fixed; [apply rstrip_no_space, str_no_space | apply str_not_empty]. }
  rewrite Hr. unfold to_file_format. apply lstrip_app_no_space; [exact Hc | reflexivity].
Qed.

Lemma load_line_storable (s : Student) (a : App) :
  storable s ->
  load_line (to_file_format s ++ newline) a
  = (with_students (students (data_manager a) ++ [s]) a, Ok tt).
Proof.
  intros (Hup & Hsp & Hcc & Hnc & _ & _).
  unfold load_line. rewrite strip_newline, to_file_format_strip by exact Hsp.
  rewrite to_file_format_split by assumption.
  unfold Student__init__, Py.int. rewrite !int_str.
  assert (Hs : _recalculate_derived_data
                 (mkStudent (code s) (name s) (c1 s) (c2 s) (c3 s) (exam s)
                            0 0 PrimFloat.zero "") = s).
  { transitivity (_recalculate_derived_data s); [destruct s; reflexivity | exact Hup]. }
  destruct a as [[sts cs] f w d]. cbn -[_recalculate_derived_data]. rewrite Hs. reflexivity.
Qed.

Lemma load_lines_storable (l : list Student) (a : App) :
  Forall storable l ->
  for_each (map (fun s => (to_file_format s ++ newline)%string) l) load_line a
  = (with_students (students (data_manager a) ++ l) a, Ok tt).
Proof.
  intros H. revert a. induction H as [|s l Hs _ IH]; intros a.
  - cbn. rewrite app_nil_r. destruct a as [[sts cs] f w d]. reflexivity.
  - cbn [map for_each].
    rewrite (PyFacts.run_bind_ok _ _ _ _ _ (load_line_storable s a Hs)), IH.
    destruct a as [[sts cs] f w d]. cbn. rewrite <- app_assoc. reflexivity.
Qed.

(** [load_data] on a file of a count and of lines without a line feed inside:
    the loop runs over these lines. *)
Lemma load_data_lines (a a1 : App) (n : Z) (rs : list string) :
  file a = FileText (writelines ((PyText.str n ++ newline)%string ::
                                 map (fun r => (r ++ newline)%string) rs)) ->
  Forall (fun r => has_char LF r = false) rs ->
  for_each (map (fun r => (r ++ newline)%string) rs) load_line
           (with_class_size n (with_students [] a)) = (a1, Ok tt) ->
  load_data a
  = (with_class_size (Z.of_nat (length (students (data_manager a1)))) a1, Ok tt).
Proof.
  intros Hfile Hrs Hrun.
  assert (Hlines : readlines (writelines ((PyText.str n ++ newline)%string ::
                                          map (fun r => (r ++ newline)%string) rs))
                   = (PyText.str n ++ newline)%string :: map (fun r => (r ++ newline)%string) rs).
  { rewrite writelines_cons, append_assoc.
    change (newline ++ ?t)%string with (String LF t).
    rewrite readlines_line, readlines_writelines; [reflexivity | exact Hrs |].
    apply str_has_char; [reflexivity | discriminate]. }
  destruct a as [[sts cs] f w d]. cbn [file] in Hfile. subst f.
  unfold load_data, set_students. rewrite PyFacts.run_bind_modify.
  apply PyFacts.run_try_ok.
  erewrite PyFacts.run_bind_ok.
  2:{ unfold open_readlines. cbn [file]. reflexivity. }
  rewrite Hlines. cbv beta iota. unfold Py.int at 1.
  rewrite strip_newline, strip_no_space by apply str_no_space.
  rewrite int_str, PyFacts.run_bind_ret.
  unfold set_class_size at 1. rewrite PyFacts.run_bind_modify.
  erewrite PyFacts.run_bind_ok by exact Hrun.
  destruct a1 as [[sts1 cs1] f1 w1 d1]. reflexivity.
Qed.

Lemma storable_one_line (s : Student) :
  storable s -> has_char LF (to_file_format s) = false.
Proof.
  intros (_ & Hsp & _ & _ & Hn & _).
  apply to_file_format_one_line; [|exact Hn].
  apply no_space_has_char; [reflexivity | exact Hsp].
Qed.

(** X9.  Saving and loading again gives the roster back.  When the file can
    be written and every student has the derived data of the scores, a code
    without white space or comma, a name without comma or line end and marks
    below 2^50 in magnitude,
    [save_data] then [load_data] leaves the very students that were there, in
    the same order, the class size their number, and shows no message. *)
Theorem save_load_round_trip (a : App) :
  writable a = true ->
  Forall storable (students (data_manager a)) ->
  let a' := exec load_data (exec save_data a) in
  students (data_manager a') = students (data_manager a) /\
  class_size (data_manager a') = Z.of_nat (length (students (data_manager a))) /\
  dialogs a' = dialogs a /\
  eval load_data (exec save_data a) = Ok tt.
Proof.
  intros Hw Hl a'. subst a'. unfold exec, eval.
  rewrite (save_data_succeeds a Hw). cbn [fst].
  set (l := students (data_manager a)) in *.
  set (a0 := with_file (writelines (output_lines l))
               (with_class_size (Z.of_nat (length l)) a)).
  pose proof (load_lines_storable l (with_class_size (Z.of_nat (length l))
                                       (with_students [] a0)) Hl) as Hrun.
  rewrite <- (map_map to_file_format (fun r => (r ++ newline)%string)) in Hrun.
  assert (Hfile : file a0 = FileText (writelines
             ((PyText.str (Z.of_nat (length l)) ++ newline)%string ::
              map (fun r => (r ++ newline)%string) (map to_file_format l)))).
  { rewrite map_map. reflexivity. }
  assert (Hone : Forall (fun r => has_char LF r = false) (map to_file_format l)).
  { apply List.Forall_map. eapply Forall_impl; [exact Hl|]. exact storable_one_line. }
  rewrite (load_data_lines a0 _ _ _ Hfile Hone Hrun).
  cbn [fst snd students data_manager class_size dialogs with_students with_class_size
         with_file a0 app].
  repeat split; reflexivity.
Qed.

Definition on_disk : App := mkApp (mkDataManager [ann; bob] 0) NoFile true [].

Lemma save_load_round_trip_ann_bob :
  students (data_manager (exec load_data (exec save_data on_disk))) = [ann; bob] /\
  file (exec save_data on_disk) = FileText two_on_file.
Proof.
  assert (H : Forall storable (students (data_manager on_disk))).
  { cbn [students data_manager on_disk].
    repeat (apply List.Forall_cons; [repeat split|]); apply List.Forall_nil. }
  split; [exact (proj1 (save_load_round_trip on_disk eq_refl H)) | reflexivity].
Defined.

(** The number of times [c] occurs in [s]. *)
Fixpoint count_char (c : ascii) (s : string) : nat :=
  match s with
  | EmptyString => O
  | String d r => ((if Ascii.eqb d c then 1 else 0) + count_char c r)%nat
  end.

Lemma count_char_app (c : ascii) (s t : string) :
  count_char c (s ++ t) = (count_char c s + count_char c t)%nat.
Proof. induction s as [|d s IH]; cbn; [reflexivity|]. rewrite IH. lia. Qed.

Lemma count_char_has_char (c : ascii) (s : string) :
  has_char c s = true -> (1 <= count_char c s)%nat.
Proof.
  induction s as [|d s IH]; cbn; [discriminate|].
  destruct (Ascii.eqb d c); cbn; [lia|]. intros H. specialize (IH H). lia.
Qed.

Lemma split_length (sep : ascii) (s : string) :
  length (split sep s) = S (count_char sep s).
Proof.
  induction s as [|c r IH]; cbn; [reflexivity|].
  destruct (Ascii.eqb c sep); cbn; [rewrite IH; reflexivity|].
  destruct (split sep r) as [|h t]; cbn in *; lia.
Qed.

Lemma count_char_lstrip (c : ascii) (s : string) :
  isspace c = false -> count_char c (lstrip s) = count_char c s.
Proof.
  intros Hc. induction s as [|d r IH]; cbn; [reflexivity|].
  destruct (isspace d) eqn:Hd; [|reflexivity].
  destruct (Ascii.eqb_spec d c) as [->|_]; [congruence|]. exact IH.
Qed.

Lemma count_char_rstrip (c : ascii) (s : string) :
  isspace c = false -> count_char c (rstrip s) = count_char c s.
Proof.
  intros Hc. induction s as [|d r IH]; cbn [rstrip]; [reflexivity|].
  destruct (rstrip r) as [|e r'] eqn:Hr.
  - cbn in IH. destruct (isspace d) eqn:Hd.
    + cbn. rewrite <- IH. destruct (Ascii.eqb_spec d c) as [->|_]; [congruence | reflexivity].
    + cbn. rewrite <- IH. reflexivity.
  - cbn [count_char]. rewrite <- IH. reflexivity.
Qed.

Lemma count_char_strip (c : ascii) (s : string) :
  isspace c = false -> count_char c (strip s) = count_char c s.
Proof.
  intros Hc. unfold strip. rewrite count_char_lstrip, count_char_rstrip by exact Hc. reflexivity.
Qed.

(** A line that has not six fields is passed over. *)
Lemma load_line_skips (line : string) (a : App) :
  length (split "," (strip line)) <> 6%nat -> load_line line a = (a, Ok tt).
Proof.
  intros H. unfold load_line.
  destruct (split "," (strip line)) as [|p0 [|p1 [|p2 [|p3 [|p4 [|p5 [|p6 t]]]]]]];
    try reflexivity.
  cbn in H. congruence.
Qed.

Lemma load_line_comma_in_name (s : Student) (a : App) :
  has_char "," (name s) = true ->
  load_line (to_file_format s ++ newline) a = (a, Ok tt).
Proof.
  intros Hn. apply load_line_skips.
  rewrite strip_newline, split_length, count_char_strip by reflexivity.
  unfold to_file_format. rewrite !count_char_app.
  apply count_char_has_char in Hn. cbn [count_char Ascii.eqb Bool.eqb]. lia.
Qed.

Lemma for_each_app {S A} (l1 l2 : list A) (f : A -> M S unit) (s s1 : S) :
  for_each l1 f s = (s1, Ok tt) -> for_each (l1 ++ l2) f s = for_each l2 f s1.
Proof.
  revert s. induction l1 as [|x l1 IH]; intros s H; cbn [for_each app] in *.
  - unfold ret in H. congruence.
  - unfold bind in *. destruct (f x s) as [s' [[]|e]]; [|discriminate]. apply IH, H.
Qed.

(** X10.  A name with a comma does not survive the file.  [save_data] writes
    the record of such a student (no line end in the code or the name) with
    seven fields or more, and [load_data] passes the line over without a
    message: after saving and loading, that
    student is gone from the roster and from the class size, while the
    students around, if their records are sound, are all there. *)
Theorem comma_in_name_is_lost_on_reload (a : App) (s : Student) (before after : list Student) :
  writable a = true ->
  students (data_manager a) = (before ++ s :: after)%list ->
  Forall storable before -> Forall storable after ->
  has_char "," (name s) = true ->
  has_char LF (code s) = false -> has_char LF (name s) = false ->
  has_char CR (code s) = false -> has_char CR (name s) = false ->
  small_marks (c1 s) (c2 s) (c3 s) (exam s) ->
  let a' := exec load_data (exec save_data a) in
  students (data_manager a') = (before ++ after)%list /\
  class_size (data_manager a') = Z.of_nat (length (before ++ after)) /\
  dialogs a' = dialogs a.
Proof.
  intros Hw Hl Hb Ha Hn Hlc Hln _ _ _ a'. subst a'. unfold exec.
  rewrite (save_data_succeeds a Hw). cbn [fst]. rewrite Hl.
  set (l := (before ++ s :: after)%list).
  set (a0 := with_file (writelines (output_lines l))
               (with_class_size (Z.of_nat (length l)) a)).
  set (a1 := with_class_size (Z.of_nat (length l)) (with_students [] a0)).
  assert (Hfile : file a0 = FileText (writelines
             ((PyText.str (Z.of_nat (length l)) ++ newline)%string ::
              map (fun r => (r ++ newline)%string) (map to_file_format l)))).
  { rewrite map_map. reflexivity. }
  assert (Hone : Forall (fun r => has_char LF r = false) (map to_file_format l)).
  { apply List.Forall_map. unfold l. apply Forall_app. split.
    - eapply Forall_impl; [exact Hb|]. exact storable_one_line.
    - apply List.Forall_cons; [apply to_file_format_one_line; assumption|].
      eapply Forall_impl; [exact Ha|]. exact storable_one_line. }
  assert (Hrun : for_each (map (fun r => (r ++ newline)%string) (map to_file_format l))
                          load_line a1
                 = (with_students (before ++ after) a1, Ok tt)).
  { rewrite map_map. unfold l. rewrite map_app.
    rewrite (for_each_app _ _ _ _ _ (load_lines_storable before a1 Hb)).
    cbn [map for_each].
    rewrite (PyFacts.run_bind_ok _ _ _ _ _ (load_line_comma_in_name s _ Hn)).
    rewrite (load_lines_storable after _ Ha).
    destruct a as [[sts cs] f w d]. cbn. reflexivity. }
  rewrite (load_data_lines a0 _ _ _ Hfile Hone Hrun).
  cbn [fst students data_manager class_size dialogs with_students with_class_size
         with_file a0 a1].
  repeat split; reflexivity.
Qed.

Definition lee_ann : Student :=
  _recalculate_derived_data (mkStudent "1004" "Lee, Ann" 10 10 10 50 0 0 PrimFloat.zero "").

Lemma comma_in_name_is_lost_on_reload_lee :
  file (exec save_data (mkApp (mkDataManager [ann; lee_ann; bob] 3) NoFile true []))
    = FileText (writelines [("3" ++ newline)%string;
                            ("1001,Ann,10,10,10,50" ++ newline)%string;
                            ("1004,Lee, Ann,10,10,10,50" ++ newline)%string;
                            ("1002,Bob,20,20,20,100" ++ newline)%string]) /\
  students (data_manager
    (exec load_data
       (exec save_data (mkApp (mkDataManager [ann; lee_ann; bob] 3) NoFile true []))))
    = [ann; bob].
Proof.
  split; [reflexivity|].
  refine (proj1 (comma_in_name_is_lost_on_reload
                   (mkApp (mkDataManager [ann; lee_ann; bob] 3) NoFile true [])
                   lee_ann [ann] [bob] eq_refl eq_refl _ _ eq_refl eq_refl eq_refl eq_refl
                   eq_refl eq_refl));
    (apply List.Forall_cons; [repeat split | apply List.Forall_nil]).
Defined.

(** ** load_data on any file *)

(** What a method leaves alone when it only works on the roster. *)
Definition same_disk (a a' : App) : Prop :=
  file a' = file a /\ writable a' = writable a /\ dialogs a' = dialogs a.

Lemma same_disk_refl (a : App) : same_disk a a.
Proof. repeat split. Qed.

Lemma same_disk_trans (a b c : App) : same_disk a b -> same_disk b c -> same_disk a c.
Proof. unfold same_disk. intros (H1 & H2 & H3) (H4 & H5 & H6). repeat split; congruence. Qed.

Lemma load_line_same_disk (line : string) (a : App) : same_disk a (fst (load_line line a)).
Proof.
  unfold load_line.
  destruct (split "," (strip line)) as [|p0 [|p1 [|p2 [|p3 [|p4 [|p5 [|p6 t]]]]]]];
    try apply same_disk_refl.
  unfold Student__init__, Py.int, bind.
  destruct (PyText.int p2); [|apply same_disk_refl].
  destruct (PyText.int p3); [|apply same_disk_refl].
  destruct (PyText.int p4); [|apply same_disk_refl].
  destruct (PyText.int p5); [|apply same_disk_refl].
  destruct a as [[sts cs] f w d]. repeat split.
Qed.

Lemma load_lines_same_disk (lines : list string) (a : App) :
  same_disk a (fst (for_each lines load_line a)).
Proof.
  revert a. induction lines as [|line lines IH]; intros a; [apply same_disk_refl|].
  cbn [for_each]. unfold bind.
  pose proof (load_line_same_disk line a) as H.
  destruct (load_line line a) as [a1 [[]|e]]; cbn [fst] in *; [|exact H].
  eapply same_disk_trans; [exact H | apply IH].
Qed.

(** X11.  [load_data] always returns: whatever is at the path, no exception
    leaves it.  It never writes the file, and it shows one message box at
    most, an error.  With no file at the path, and with an empty file, it
    shows none and leaves an empty roster and the class size it found; with a
    file that cannot be read it leaves an empty roster and shows the error. *)
Theorem load_data_always_returns (a : App) :
  exists a',
    load_data a = (a', Ok tt) /\
    file a' = file a /\ writable a' = writable a /\
    (dialogs a' = dialogs a \/
     exists e, dialogs a' = showerror "Error" "Error processing student data: " (Some e)
                            :: dialogs a) /\
    (file a = NoFile \/ file a = FileText "" ->
     data_manager a' = mkDataManager [] (class_size (data_manager a)) /\
     dialogs a' = dialogs a) /\
    (file a = Unreadable ->
     data_manager a' = mkDataManager [] (class_size (data_manager a)) /\
     dialogs a' = showerror "Error" "Error processing student data: " (Some OSError)
                  :: dialogs a).
Proof.
  destruct a as [[sts cs] f w d].
  unfold load_data, set_students. rewrite PyFacts.run_bind_modify. cbn [data_manager class_size].
  set (a0 := mkApp (mkDataManager [] cs) f w d).
  unfold try_except, open_readlines.
  unfold bind at 1. cbn [file a0].
  destruct f as [| |text].
  - eexists. split; [reflexivity|]. cbn.
    split; [reflexivity|]. split; [reflexivity|]. split; [left; reflexivity|].
    split; [intros _; split; reflexivity | intros; discriminate].
  - eexists. split; [reflexivity|]. cbn.
    split; [reflexivity|]. split; [reflexivity|]. split; [right; eexists; reflexivity|].
    split; [intros [H|H]; discriminate | intros _; split; reflexivity].
  - destruct (readlines text) as [|first rest] eqn:Hlines.
    { eexists. split; [reflexivity|]. cbn.
      split; [reflexivity|]. split; [reflexivity|]. split; [left; reflexivity|].
      split; [intros _; split; reflexivity | intros; discriminate]. }
    assert (Htext : FileText text = FileText "" -> False).
    { intros E. injection E as E. subst text. discriminate. }
    unfold Py.int at 1. unfold bind at 1.
    destruct (PyText.int (strip first)) as [n|].
    + cbn [ret]. unfold set_class_size at 1. rewrite PyFacts.run_bind_modify.
      cbn [data_manager students class_size file writable dialogs a0].
      set (a1 := mkApp (mkDataManager [] n) (FileText text) w d).
      unfold bind at 1.
      pose proof (load_lines_same_disk rest a1) as (Hf & Hw & Hd).
      destruct (for_each rest load_line a1) as [a2 [[]|e]]; cbn [fst] in *.
      * destruct a2 as [[sts2 cs2] f2 w2 d2]. cbn in Hf, Hw, Hd. subst.
        eexists. split; [reflexivity|]. cbn. split; [reflexivity|]. split; [reflexivity|].
        split; [left; reflexivity|].
        split; [intros [H|H]; [discriminate | contradiction] | intros; discriminate].
      * destruct a2 as [[sts2 cs2] f2 w2 d2]. cbn in Hf, Hw, Hd. subst.
        destruct e; (eexists; split; [reflexivity|]; cbn;
          split; [reflexivity|]; split; [reflexivity|];
          split; [try (left; reflexivity); right; eexists; reflexivity|];
          split; [intros [H|H]; [discriminate | contradiction] | intros; discriminate]).
    + eexists. split; [reflexivity|]. cbn. split; [reflexivity|]. split; [reflexivity|].
      split; [right; eexists; reflexivity|].
      split; [intros [H|H]; [discriminate | contradiction] | intros; discriminate].
Qed.

(** ** The add, delete and update handlers *)

Lemma lower_all_digits (s : string) : all_digits s = true -> lower s = s.
Proof.
  induction s as [|c r IH]; cbn; [reflexivity|].
  intros H. apply andb_prop in H as [Hc Hr]. rewrite (IH Hr). f_equal.
  destruct c as [[] [] [] [] [] [] [] []]; try discriminate; reflexivity.
Qed.

Lemma find_loop_app (term : string) (i : nat) (l1 l2 : list Student) :
  find_loop term i (l1 ++ l2)
  = (find_loop term i l1 ++ find_loop term (i + length l1) l2)%list.
Proof.
  revert i. induction l1 as [|s l1 IH]; intros i; cbn [app find_loop length].
  - rewrite Nat.add_0_r. reflexivity.
  - rewrite IH. replace (S i + length l1)%nat with (i + S (length l1))%nat by lia.
    destruct (matches term s); reflexivity.
Qed.

Lemma handle_submission_returns (a : App) (code name : string) (c1 c2 c3 exam : Z) :
  eval (_handle_submission code name c1 c2 c3 exam) a = Ok tt.
Proof.
  destruct a as [[sts cs] f w d].
  unfold _handle_submission, eval, Student__init__, students_append, save_data,
    get_students, set_students, set_class_size, messagebox, open_writelines,
    bind, try_except, modify, ret, Py.int.
  destruct w; reflexivity.
Qed.

(** The texts the facts on the handlers are stated for.  A roster of ASCII
    codes and names is one the search reads as Python does; with marks in the
    range of [small] as well, it is one a save can write.  The entries of the
    form are ASCII, the mark entries short enough for [int]. *)
Definition ascii_student (s : Student) : bool := isascii (code s) && isascii (name s).

Definition ascii_roster (a : App) : bool :=
  forallb ascii_student (students (data_manager a)).

Definition plain_student (s : Student) : bool :=
  ascii_student s && small (c1 s) && small (c2 s) && small (c3 s) && small (exam s).

Definition plain_roster (a : App) : bool :=
  forallb plain_student (students (data_manager a)).

Definition plain_form (inputs : Inputs) : bool :=
  isascii (in_code inputs) && isascii (in_name inputs) &&
  plain (in_c1 inputs) && plain (in_c2 inputs) && plain (in_c3 inputs) &&
  plain (in_exam inputs).

(** The message of an add that is turned down: the marks are read before the
    code and the name are looked at. *)
Definition add_refusal (inputs : Inputs) : Dialog :=
  match PyText.int (in_c1 inputs), PyText.int (in_c2 inputs),
        PyText.int (in_c3 inputs), PyText.int (in_exam inputs) with
  | Some _, Some _, Some _, Some _ =>
      showwarning "Validation Error" "Code must be 4 digits and Name must be filled."
  | _, _, _, _ =>
      showerror "Input Error" "Please ensure all mark fields are complete numbers." None
  end.

(** X12.  With ASCII entries in the form, an add is turned down when a mark
    is no integer, when the code is not made of four digits or when the name
    is empty.  It then returns normally, leaves the roster, the class size
    and the file as they were, and shows one message: the input error if a
    mark is no integer, the validation warning otherwise. *)
Theorem add_refused_changes_nothing (a : App) (inputs : Inputs) :
  plain_form inputs = true ->
  PyText.int (in_c1 inputs) = None \/ PyText.int (in_c2 inputs) = None \/
  PyText.int (in_c3 inputs) = None \/ PyText.int (in_exam inputs) = None \/
  String.length (in_code inputs) <> 4%nat \/ isdigit (in_code inputs) = false \/
  in_name inputs = "" ->
  _submit_inline_add inputs a = (with_dialog (add_refusal inputs) a, Ok tt).
Proof.
  intros _ H. unfold _submit_inline_add, add_refusal, try_except, bind, Py.int.
  destruct (PyText.int (in_c1 inputs)) as [z1|]; [|reflexivity].
  destruct (PyText.int (in_c2 inputs)) as [z2|]; [|reflexivity].
  destruct (PyText.int (in_c3 inputs)) as [z3|]; [|reflexivity].
  destruct (PyText.int (in_exam inputs)) as [z4|]; [|reflexivity].
  cbn [ret].
  assert (Hbad : negb (len (in_code inputs) =? 4) || negb (isdigit (in_code inputs))
                 || String.eqb (in_name inputs) "" = true).
  { destruct H as [H|[H|[H|[H|[H|[H|H]]]]]]; try discriminate.
    - unfold len. destruct (Z.eqb_spec (Z.of_nat (String.length (in_code inputs))) 4); [lia|].
      reflexivity.
    - rewrite H. apply orb_true_iff. left. apply orb_true_r.
    - rewrite H. apply orb_true_r. }
  rewrite Hbad. reflexivity.
Qed.

Lemma add_refused_changes_nothing_short_code :
  exec (_submit_inline_add (mkInputs "12" "Cy" "1" "2" "3" "4")) read_only
    = with_dialog (showwarning "Validation Error"
                     "Code must be 4 digits and Name must be filled.") read_only /\
  exec (_submit_inline_add (mkInputs "12" "Cy" "1" "2" "3" "4.5")) read_only
    = with_dialog (showerror "Input Error"
                     "Please ensure all mark fields are complete numbers." None) read_only.
Proof.
  split.
  - unfold exec.
    rewrite (add_refused_changes_nothing read_only (mkInputs "12" "Cy" "1" "2" "3" "4")).
    + reflexivity.
    + reflexivity.
    + right. right. right. right. left. cbn. lia.
  - unfold exec.
    rewrite (add_refused_changes_nothing read_only (mkInputs "12" "Cy" "1" "2" "3" "4.5")).
    + reflexivity.
    + reflexivity.
    + right. right. right. left. reflexivity.
Defined.

(** X13.  With ASCII entries in the form and a roster a save can write, an
    add goes through on four marks that are integers - negative or above the
    maximum as well: their range is not looked at, nor whether the code is
    taken - a code of four digits and a name that is not empty.  On a file
    that can be written, the student made of these entries, with the derived
    data of the marks, is last on the roster, the class size is one more, the
    file holds the whole roster, and a search of the code finds the
    student. *)
Theorem add_accepted (a : App) (inputs : Inputs) (z1 z2 z3 z4 : Z) :
  plain_form inputs = true -> plain_roster a = true ->
  PyText.int (in_c1 inputs) = Some z1 -> PyText.int (in_c2 inputs) = Some z2 ->
  PyText.int (in_c3 inputs) = Some z3 -> PyText.int (in_exam inputs) = Some z4 ->
  small_marks z1 z2 z3 z4 ->
  String.length (in_code inputs) = 4%nat -> isdigit (in_code inputs) = true ->
  in_name inputs <> "" ->
  writable a = true ->
  let s := _recalculate_derived_data
             (mkStudent (in_code inputs) (in_name inputs) z1 z2 z3 z4 0 0 PrimFloat.zero "") in
  let l := students (data_manager a) in
  let a' := exec (_submit_inline_add inputs) a in
  eval (_submit_inline_add inputs) a = Ok tt /\
  students (data_manager a') = (l ++ [s])%list /\
  class_size (data_manager a') = Z.of_nat (length l) + 1 /\
  file a' = FileText (writelines (output_lines (l ++ [s]))) /\
  In (length l, s) (find_student (in_code inputs) (data_manager a')).
Proof.
  intros _ _ H1 H2 H3 H4 _ Hlen Hdig Hname Hw s l a'.
  assert (Hrun : _submit_inline_add inputs a
                 = _handle_submission (in_code inputs) (in_name inputs) z1 z2 z3 z4 a).
  { unfold _submit_inline_add, try_except, bind at 1 2 3 4, Py.int.
    rewrite H1, H2, H3, H4. cbn [ret].
    unfold len. rewrite Hlen, Hdig.
    destruct (String.eqb_spec (in_name inputs) ""); [contradiction|].
    change (Z.of_nat 4 =? 4) with true. cbn [negb orb].
    pose proof (handle_submission_returns a (in_code inputs) (in_name inputs) z1 z2 z3 z4)
      as Hret.
    unfold eval in Hret.
    destruct (_handle_submission (in_code inputs) (in_name inputs) z1 z2 z3 z4 a)
      as [a1 r]. cbn [snd] in Hret. subst r. reflexivity. }
  assert (Hexec : a' = with_dialog (showinfo "Success" ("Student " ++ in_name inputs ++
                                                        " added and saved.")%string)
                         (with_file (writelines (output_lines (l ++ [s])))
                            (with_class_size (Z.of_nat (length (l ++ [s])))
                               (with_students (l ++ [s]) a)))).
  { subst a'. unfold exec. rewrite Hrun.
    pose proof (handle_submission_run a (in_code inputs) (in_name inputs) z1 z2 z3 z4) as Hs.
    cbv zeta in Hs. unfold exec in Hs. rewrite Hs, Hw. reflexivity. }
  split.
  { unfold eval. rewrite Hrun. apply handle_submission_returns. }
  rewrite Hexec. cbn [students data_manager class_size file with_dialog with_file
                       with_class_size with_students].
  split; [reflexivity|]. split; [rewrite length_app; cbn; lia|]. split; [reflexivity|].
  unfold find_student. cbn [students].
  assert (Hall : all_digits (in_code inputs) = true).
  { destruct (in_code inputs); [discriminate | exact Hdig]. }
  rewrite (strip_no_space _ (all_digits_no_space _ Hall)), (lower_all_digits _ Hall).
  rewrite find_loop_app. apply in_or_app. right. cbn [find_loop Nat.add].
  unfold matches. subst s. cbn [code _recalculate_derived_data].
  rewrite String.eqb_refl. left. reflexivity.
Qed.

Lemma add_accepted_out_of_range :
  map exam (students (data_manager
     (exec (_submit_inline_add (mkInputs "1001" "Dee" "-5" "20" "20" "500")) on_disk)))
  = [50; 100; 500].
Proof.
  pose proof (add_accepted on_disk (mkInputs "1001" "Dee" "-5" "20" "20" "500") (-5) 20 20 500
                eq_refl eq_refl
                eq_refl eq_refl eq_refl eq_refl eq_refl eq_refl eq_refl ltac:(discriminate)
                eq_refl)
    as (_ & H & _).
  rewrite H. reflexivity.
Defined.

(** The first result of a search splits the roster: no student before it
    matches, and the other results are the matches after it. *)
Lemma find_loop_first (term : string) (i : nat) (l : list Student)
      (ref : nat) (s : Student) (rest : list (nat * Student)) :
  find_loop term i l = (ref, s) :: rest ->
  exists before after,
    l = (before ++ s :: after)%list /\ ref = (i + length before)%nat /\
    Forall (fun x => matches term x = false) before /\
    matches term s = true /\
    rest = find_loop term (S ref) after.
Proof.
  revert i. induction l as [|x l IH]; intros i H; cbn [find_loop] in H; [discriminate|].
  destruct (matches term x) eqn:Hx.
  - injection H as -> -> <-. exists [], l. cbn. rewrite Nat.add_0_r. repeat split; auto.
  - destruct (IH (S i) H) as (before & after & -> & -> & Hb & Hs & ->).
    exists (x :: before), after. cbn [app length].
    replace (i + S (length before))%nat with (S i + length before)%nat by lia.
    repeat split; auto.
Qed.

Lemma find_student_first_split (term : string) (dm : DataManager)
      (ref : nat) (s : Student) (rest : list (nat * Student)) :
  find_student term dm = (ref, s) :: rest ->
  exists before after,
    students dm = (before ++ s :: after)%list /\ ref = length before /\
    Forall (fun x => matches (lower (strip term)) x = false) before /\
    matches (lower (strip term)) s = true /\
    map snd rest = List.filter (matches (lower (strip term))) after.
Proof.
  intros H. unfold find_student in H.
  destruct (find_loop_first _ _ _ _ _ _ H) as (before & after & Hl & Hr & Hb & Hs & Hrest).
  exists before, after. rewrite Hrest, find_loop_students. repeat split; auto.
Qed.

Lemma filter_none {A} (P : A -> bool) (l : list A) :
  Forall (fun x => P x = false) l -> List.filter P l = [].
Proof.
  induction 1 as [|x l Hx _ IH]; cbn; [reflexivity|]. rewrite Hx. exact IH.
Qed.

(** X14.  With an ASCII term and a roster a save can write, a delete that
    is confirmed, on a file that can be written, takes
    off the roster the first student the search finds and no other: the
    students before it, none of which matches, and all the students after it
    stay in their order, so the other students the term matches are still
    found.  The class size is one less and the file holds the roster that is
    left. *)
Theorem delete_confirmed_removes_first_match (a : App) (inputs : Inputs)
        (ref : nat) (s : Student) (rest : list (nat * Student)) :
  isascii (in_code inputs) = true -> plain_roster a = true ->
  writable a = true ->
  in_code inputs <> "" ->
  find_student (in_code inputs) (data_manager a) = (ref, s) :: rest ->
  let a' := exec (_submit_inline_delete inputs true) a in
  (exists before after,
     students (data_manager a) = (before ++ s :: after)%list /\
     students (data_manager a') = (before ++ after)%list /\
     Forall (fun x => matches (lower (strip (in_code inputs))) x = false) before) /\
  map snd (find_student (in_code inputs) (data_manager a')) = map snd rest /\
  class_size (data_manager a') = Z.of_nat (length (students (data_manager a))) - 1 /\
  file a' = FileText (writelines (output_lines (students (data_manager a')))).
Proof.
  intros _ _ Hw Hcode Hfind a'.
  destruct (find_student_first_split _ _ _ _ _ Hfind)
    as (before & after & Hl & Href & Hb & Hs & Hrest).
  assert (Hrun : a' = with_dialog (showinfo "Success"
                         ("Record for " ++ name s ++ " deleted and file saved.")%string)
                       (with_file (writelines (output_lines (before ++ after)))
                          (with_class_size (Z.of_nat (length (before ++ after)))
                             (with_students (before ++ after)
                                (with_dialog
                                   (askyesno "Confirm Delete"
                                      ("Are you sure you want to delete " ++ name s ++
                                       " (" ++ code s ++ ")?")%string true) a))))).
  { subst a'. unfold _submit_inline_delete, exec.
    destruct (String.eqb_spec (in_code inputs) ""); [contradiction|].
    rewrite (PyFacts.run_bind_ok _ _ a a (data_manager a) eq_refl). rewrite Hfind.
    destruct a as [[sts cs] f w d]. cbn in Hw, Hl. subst w sts ref.
    cbn -[writelines output_lines]. rewrite delete_middle. reflexivity. }
  rewrite Hrun.
  cbn [students data_manager class_size file with_dialog with_file with_class_size
         with_students].
  split; [exists before, after; auto|]. split.
  - rewrite find_student_students. cbn [students].
    rewrite List.filter_app, (filter_none _ _ Hb), Hrest. reflexivity.
  - split; [|reflexivity]. rewrite Hl, !length_app. cbn [length]. lia.
Qed.

Lemma delete_confirmed_removes_first_match_an :
  students (data_manager
    (exec (_submit_inline_delete (mkInputs "an" "" "" "" "" "") true)
          (mkApp (mkDataManager [bob; ann; lee_ann] 3) NoFile true [])))
  = [bob; lee_ann] /\
  map snd (find_student "an"
    (data_manager (exec (_submit_inline_delete (mkInputs "an" "" "" "" "" "") true)
                        (mkApp (mkDataManager [bob; ann; lee_ann] 3) NoFile true []))))
  = [lee_ann].
Proof.
  destruct (delete_confirmed_removes_first_match
              (mkApp (mkDataManager [bob; ann; lee_ann] 3) NoFile true [])
              (mkInputs "an" "" "" "" "" "") 1 ann [(2%nat, lee_ann)]
              eq_refl eq_refl eq_refl ltac:(discriminate) eq_refl) as (_ & H & _).
  split; [reflexivity | exact H].
Defined.

(** X15.  With an ASCII term on a roster of ASCII codes and names, a delete
    changes the roster, the class size and the file only
    when a student is found and the question is answered yes: with no term,
    with a term nobody matches, or with the answer no, they are as they were
    and the handler returns normally. *)
Theorem delete_without_consent_changes_nothing (a : App) (inputs : Inputs) (confirm : bool) :
  isascii (in_code inputs) = true -> ascii_roster a = true ->
  in_code inputs = "" \/ find_student (in_code inputs) (data_manager a) = [] \/
  confirm = false ->
  let a' := exec (_submit_inline_delete inputs confirm) a in
  data_manager a' = data_manager a /\ file a' = file a /\
  eval (_submit_inline_delete inputs confirm) a = Ok tt.
Proof.
  intros _ _ H a'. subst a'. unfold _submit_inline_delete, exec, eval.
  destruct (String.eqb_spec (in_code inputs) "") as [_|Hne].
  { destruct a as [[sts cs] f w d]. repeat split. }
  rewrite (PyFacts.run_bind_ok _ _ a a (data_manager a) eq_refl).
  destruct (find_student (in_code inputs) (data_manager a)) as [|[ref s] rest].
  { destruct a as [[sts cs] f w d]. repeat split. }
  destruct H as [H|[H|H]]; [contradiction | discriminate |]. subst confirm.
  destruct a as [[sts cs] f w d]. repeat split.
Qed.

Lemma delete_without_consent_changes_nothing_bob :
  data_manager (exec (_submit_inline_delete (mkInputs "1002" "" "" "" "" "") false) read_only)
  = data_manager read_only.
Proof.
  exact (proj1 (delete_without_consent_changes_nothing read_only
                  (mkInputs "1002" "" "" "" "" "") false eq_refl eq_refl
                  (or_intror (or_intror eq_refl)))).
Defined.

Lemma contains_empty (hay : string) : contains "" hay = true.
Proof. destruct hay; reflexivity. Qed.

Lemma matches_empty (s : Student) : matches "" s = true.
Proof. unfold matches. rewrite contains_empty. apply orb_true_r. Qed.

Lemma find_loop_all (i : nat) (l : list Student) :
  map snd (find_loop "" i l) = l.
Proof.
  rewrite find_loop_students. induction l as [|x l IH]; [reflexivity|].
  cbn [List.filter]. rewrite matches_empty, IH. reflexivity.
Qed.

(** X16.  A term made of white space only is a term for the handlers and
    none for the search: [find_student] strips it to the empty string, which
    is part of every name, and answers the whole roster.  The delete handler,
    which turns down the empty term only, then takes the first student of the
    roster, whoever it is. *)
Theorem blank_term_matches_everyone (a : App) (inputs : Inputs) :
  in_code inputs <> "" -> strip (in_code inputs) = "" ->
  map snd (find_student (in_code inputs) (data_manager a)) = students (data_manager a) /\
  students (data_manager (exec (_submit_inline_delete inputs true) a))
  = tail (students (data_manager a)).
Proof.
  intros Hne Hblank.
  assert (Hall : map snd (find_student (in_code inputs) (data_manager a))
                 = students (data_manager a)).
  { unfold find_student. rewrite Hblank. apply find_loop_all. }
  split; [exact Hall|].
  unfold _submit_inline_delete, exec.
  destruct (String.eqb_spec (in_code inputs) ""); [contradiction|].
  rewrite (PyFacts.run_bind_ok _ _ a a (data_manager a) eq_refl).
  unfold find_student in *. rewrite Hblank in *. cbn [lower] in *.
  destruct a as [[[|s l] cs] f w d]; [reflexivity|].
  cbn [students data_manager find_loop] in *.
  rewrite matches_empty.
  destruct w; reflexivity.
Qed.

Lemma blank_term_matches_everyone_space :
  students (data_manager (exec (_submit_inline_delete (mkInputs " " "" "" "" "" "") true)
                               on_disk)) = [bob].
Proof.
  exact (proj2 (blank_term_matches_everyone on_disk (mkInputs " " "" "" "" "" "")
                  ltac:(discriminate) eq_refl)).
Defined.

Lemma student_assign_run (ref : nat) (f : Student -> Student) (a : App) :
  student_assign ref f a = (with_students (alter f ref (students (data_manager a))) a, Ok tt).
Proof. destruct a as [[sts cs] fl w d]. reflexivity. Qed.

(** What an entry of the update form does to the student: nothing when it is
    blank, an assignment when it holds an integer; [None] when it holds
    anything else. *)
Definition entry_change (entry : string) (set : Z -> Student -> Student)
  : option (Student -> Student) :=
  if String.eqb entry "" then Some (fun s => s) else option_map set (PyText.int entry).

Definition rename (new_name : string) (s : Student) : Student :=
  if String.eqb new_name "" then s else set_name new_name s.

Lemma assign_if_filled_run (ref : nat) (entry : string) (set : Z -> Student -> Student)
      (f : Student -> Student) (a : App) :
  entry_change entry set = Some f ->
  assign_if_filled ref entry set a
  = (with_students (alter f ref (students (data_manager a))) a, Ok tt).
Proof.
  unfold entry_change, assign_if_filled. destruct (String.eqb entry "").
  - intros H. injection H as <-. rewrite list_alter_id by reflexivity.
    destruct a as [[sts cs] fl w d]. reflexivity.
  - unfold Py.int, bind. destruct (PyText.int entry) as [v|]; [|discriminate].
    intros H. injection H as <-. cbn [ret]. apply student_assign_run.
Qed.

Lemma assign_if_filled_raises (ref : nat) (entry : string) (set : Z -> Student -> Student)
      (a : App) :
  entry_change entry set = None ->
  assign_if_filled ref entry set a = (a, Raise (ValueError entry)).
Proof.
  unfold entry_change, assign_if_filled. destruct (String.eqb entry ""); [discriminate|].
  unfold Py.int, bind. destruct (PyText.int entry); [discriminate | reflexivity].
Qed.

Lemma rename_run (ref : nat) (new_name : string) (a : App) :
  (if String.eqb new_name "" then ret tt else student_assign ref (set_name new_name)) a
  = (with_students (alter (rename new_name) ref (students (data_manager a))) a, Ok tt).
Proof.
  unfold rename. destruct (String.eqb new_name "").
  - rewrite list_alter_id by reflexivity. destruct a as [[sts cs] fl w d]. reflexivity.
  - apply student_assign_run.
Qed.

Lemma alter_at {A} (f : A -> A) (l : list A) (i : nat) (x : A) :
  l !! i = Some x -> alter f i l = <[i := f x]> l.
Proof.
  revert i. induction l as [|y l IH]; intros [|i] H; try discriminate.
  - injection H as ->. reflexivity.
  - cbn. f_equal. apply IH. exact H.
Qed.

(** The name entry and the changes of the four mark entries, applied in
    the order of the handler. *)
Definition changes (inputs : Inputs) (f1 f2 f3 f4 : Student -> Student) (s : Student)
  : Student :=
  f4 (f3 (f2 (f1 (rename (in_name inputs) s)))).

Lemma update_run (a : App) (inputs : Inputs) (ref : nat) (s : Student)
      (rest : list (nat * Student)) (f1 f2 f3 f4 : Student -> Student) :
  in_code inputs <> "" ->
  find_student (in_code inputs) (data_manager a) = (ref, s) :: rest ->
  entry_change (in_c1 inputs) set_c1 = Some f1 ->
  entry_change (in_c2 inputs) set_c2 = Some f2 ->
  entry_change (in_c3 inputs) set_c3 = Some f3 ->
  entry_change (in_exam inputs) set_exam = Some f4 ->
  let s' := _recalculate_derived_data (changes inputs f1 f2 f3 f4 s) in
  let l' := <[ref := s']> (students (data_manager a)) in
  _submit_inline_update inputs a =
    (if writable a
     then with_dialog (showinfo "Success"
                         ("Record for " ++ name s' ++ " updated and file saved.")%string)
            (with_file (writelines (output_lines l'))
               (with_class_size (Z.of_nat (length l')) (with_students l' a)))
     else with_dialog (showerror "Save Error" "Could not save data to file: " (Some OSError))
            (with_class_size (Z.of_nat (length l')) (with_students l' a)),
     Ok tt).
Proof.
  intros Hcode Hfind H1 H2 H3 H4 s' l'.
  pose proof (find_student_first _ _ _ _ _ Hfind) as Href.
  unfold _submit_inline_update.
  destruct (String.eqb_spec (in_code inputs) ""); [contradiction|].
  rewrite (PyFacts.run_bind_ok _ _ a a (data_manager a) eq_refl). rewrite Hfind.
  assert (Hbody : forall k : unit -> M App unit,
    ((if String.eqb (in_name inputs) "" then ret tt
      else student_assign ref (set_name (in_name inputs))) ;;
     assign_if_filled ref (in_c1 inputs) set_c1 ;;
     assign_if_filled ref (in_c2 inputs) set_c2 ;;
     assign_if_filled ref (in_c3 inputs) set_c3 ;;
     assign_if_filled ref (in_exam inputs) set_exam ;;
     student_assign ref _recalculate_derived_data ;;
     k tt) a = k tt (with_students l' a)).
  { intros k.
    erewrite PyFacts.run_bind_ok by apply rename_run.
    erewrite PyFacts.run_bind_ok by (apply assign_if_filled_run; exact H1).
    erewrite PyFacts.run_bind_ok by (apply assign_if_filled_run; exact H2).
    erewrite PyFacts.run_bind_ok by (apply assign_if_filled_run; exact H3).
    erewrite PyFacts.run_bind_ok by (apply assign_if_filled_run; exact H4).
    erewrite PyFacts.run_bind_ok by apply student_assign_run.
    f_equal. destruct a as [[sts cs] fl w d].
    cbn [with_students students data_manager class_size file writable dialogs] in *.
    rewrite !list_alter_alter_eq. subst l' s'. cbn [students data_manager].
    rewrite (alter_at _ _ _ _ Href). reflexivity. }
  unfold try_except.
  match goal with |- (let (_, _) := ?m a in _) = _ =>
    replace (m a) with
      ((saved <- save_data ;;
        if saved : bool
        then l <- get_students ;;
             messagebox (showinfo "Success"
                           ("Record for " ++ match l !! ref with
                                             | Some student => name student
                                             | None => ""
                                             end ++ " updated and file saved.")%string)
        else ret tt) (with_students l' a))
  end.
  2:{ symmetry. exact (Hbody (fun _ =>
        saved <- save_data ;;
        if saved : bool
        then l <- get_students ;;
             messagebox (showinfo "Success"
                           ("Record for " ++ match l !! ref with
                                             | Some student => name student
                                             | None => ""
                                             end ++ " updated and file saved.")%string)
        else ret tt)). }
  assert (Hat : l' !! ref = Some s').
  { subst l'. apply list_lookup_insert_eq. apply lookup_lt_Some in Href. exact Href. }
  destruct (writable a) eqn:Hw.
  - erewrite PyFacts.run_bind_ok.
    2:{ apply save_data_succeeds. destruct a as [[sts cs] fl w d]. exact Hw. }
    destruct a as [[sts cs] fl w d].
    cbn [with_students with_class_size with_file with_dialog students data_manager
           class_size file writable dialogs] in *.
    unfold get_students, messagebox, bind, modify.
    cbn [with_students with_class_size with_file with_dialog students data_manager
           class_size file writable dialogs].
    rewrite Hat. subst w. reflexivity.
  - erewrite PyFacts.run_bind_ok.
    2:{ apply save_data_fails. destruct a as [[sts cs] fl w d]. exact Hw. }
    destruct a as [[sts cs] fl w d]. reflexivity.
Qed.

(** The value a mark has after the update: the old one when the entry is
    blank, the integer the entry holds otherwise; [None] when the entry holds
    no integer. *)
Definition entered (entry : string) (old : Z) : option Z :=
  if String.eqb entry "" then Some old else PyText.int entry.

Definition new_name (inputs : Inputs) (s : Student) : string :=
  if String.eqb (in_name inputs) "" then name s else in_name inputs.

Lemma entered_change (entry : string) (old z : Z) (set : Z -> Student -> Student) :
  entered entry old = Some z ->
  exists f, entry_change entry set = Some f /\
            (f = (fun s => s) /\ z = old \/ f = set z).
Proof.
  unfold entered, entry_change. destruct (String.eqb entry "").
  - intros H. injection H as <-. eexists. split; [reflexivity|]. left. split; reflexivity.
  - intros ->. eexists. split; [reflexivity|]. right. reflexivity.
Qed.

(** X17.  An update that goes through, with ASCII entries in the form and a
    roster a save can write.  The student is the first the search finds;
    every entry that is filled holds an integer (of any sign, and of a size
    within the range of [small]) and replaces its mark, the name entry when
    filled replaces the name, a blank entry leaves its field and the code is
    never changed.  On a file that can
    be written the student has the derived data of the new marks, stays at
    its place in the roster, the others are untouched, and the file holds the
    roster. *)
Theorem update_changes_filled_fields (a : App) (inputs : Inputs) (ref : nat) (s : Student)
        (rest : list (nat * Student)) (z1 z2 z3 z4 : Z) :
  plain_form inputs = true -> plain_roster a = true ->
  writable a = true ->
  in_code inputs <> "" ->
  find_student (in_code inputs) (data_manager a) = (ref, s) :: rest ->
  entered (in_c1 inputs) (c1 s) = Some z1 ->
  entered (in_c2 inputs) (c2 s) = Some z2 ->
  entered (in_c3 inputs) (c3 s) = Some z3 ->
  entered (in_exam inputs) (exam s) = Some z4 ->
  small_marks z1 z2 z3 z4 ->
  let s' := _recalculate_derived_data
              (mkStudent (code s) (new_name inputs s) z1 z2 z3 z4 0 0 PrimFloat.zero "") in
  let a' := exec (_submit_inline_update inputs) a in
  eval (_submit_inline_update inputs) a = Ok tt /\
  students (data_manager a') = <[ref := s']> (students (data_manager a)) /\
  students (data_manager a) !! ref = Some s /\
  class_size (data_manager a') = Z.of_nat (length (students (data_manager a))) /\
  file a' = FileText (writelines (output_lines (students (data_manager a')))).
Proof.
  intros _ _ Hw Hcode Hfind H1 H2 H3 H4 _ s' a'.
  destruct (entered_change _ _ _ set_c1 H1) as (f1 & E1 & F1).
  destruct (entered_change _ _ _ set_c2 H2) as (f2 & E2 & F2).
  destruct (entered_change _ _ _ set_c3 H3) as (f3 & E3 & F3).
  destruct (entered_change _ _ _ set_exam H4) as (f4 & E4 & F4).
  pose proof (update_run a inputs ref s rest f1 f2 f3 f4 Hcode Hfind E1 E2 E3 E4) as Hrun.
  cbv zeta in Hrun. rewrite Hw in Hrun.
  assert (Hs : _recalculate_derived_data (changes inputs f1 f2 f3 f4 s) = s').
  { subst s'. unfold changes, rename, new_name.
    destruct F1 as [[-> ->]| ->], F2 as [[-> ->]| ->], F3 as [[-> ->]| ->],
             F4 as [[-> ->]| ->];
      destruct (String.eqb (in_name inputs) ""); destruct s; reflexivity. }
  rewrite Hs in Hrun.
  subst a'. unfold exec, eval. rewrite Hrun.
  cbn [fst snd students data_manager class_size file with_dialog with_file with_class_size
         with_students].
  split; [reflexivity|]. split; [reflexivity|].
  split; [exact (find_student_first _ _ _ _ _ Hfind)|].
  split; [rewrite length_insert; reflexivity | reflexivity].
Qed.

Lemma update_changes_filled_fields_bob :
  students (data_manager (exec (_submit_inline_update (mkInputs "1002" "" "" "" "" "40")) on_disk))
  = [ann; _recalculate_derived_data (mkStudent "1002" "Bob" 20 20 20 40 0 0 PrimFloat.zero "")].
Proof.
  destruct (update_changes_filled_fields on_disk (mkInputs "1002" "" "" "" "" "40") 1 bob []
              20 20 20 40 eq_refl eq_refl
              eq_refl ltac:(discriminate) eq_refl eq_refl eq_refl eq_refl eq_refl
              eq_refl)
    as (_ & H & _).
  rewrite H. reflexivity.
Defined.

(** X18.  With ASCII entries in the form and a roster of ASCII codes and
    names, an update stops at the first entry that is filled with something
    else than an integer, and what it has assigned by then stays.  With such
    an exam entry after a name and coursework entries that are blank or
    integers, the student keeps the new name and coursework marks with the
    old total, percentage and grade: nothing is recalculated, nothing is
    saved, the input error is shown.  If the coursework marks now add up to
    another sum, the derived data of the student are stale. *)
Theorem update_with_bad_exam_is_half_done (a : App) (inputs : Inputs) (ref : nat)
        (s : Student) (rest : list (nat * Student)) (z1 z2 z3 : Z) :
  plain_form inputs = true -> ascii_roster a = true ->
  in_code inputs <> "" ->
  find_student (in_code inputs) (data_manager a) = (ref, s) :: rest ->
  entered (in_c1 inputs) (c1 s) = Some z1 ->
  entered (in_c2 inputs) (c2 s) = Some z2 ->
  entered (in_c3 inputs) (c3 s) = Some z3 ->
  entered (in_exam inputs) (exam s) = None ->
  let s' := mkStudent (code s) (new_name inputs s) z1 z2 z3 (exam s)
                      (coursework_total s) (total_score s) (overall_percentage s) (grade s) in
  let a' := exec (_submit_inline_update inputs) a in
  eval (_submit_inline_update inputs) a = Ok tt /\
  students (data_manager a') = <[ref := s']> (students (data_manager a)) /\
  class_size (data_manager a') = class_size (data_manager a) /\
  file a' = file a /\
  dialogs a' = showerror "Input Error" "Please ensure mark fields contain valid numbers." None
               :: dialogs a /\
  (up_to_date s -> z1 + z2 + z3 <> c1 s + c2 s + c3 s -> ~ up_to_date s').
Proof.
  intros _ _ Hcode Hfind H1 H2 H3 H4 s' a'.
  pose proof (find_student_first _ _ _ _ _ Hfind) as Href.
  destruct (entered_change _ _ _ set_c1 H1) as (f1 & E1 & F1).
  destruct (entered_change _ _ _ set_c2 H2) as (f2 & E2 & F2).
  destruct (entered_change _ _ _ set_c3 H3) as (f3 & E3 & F3).
  assert (E4 : entry_change (in_exam inputs) set_exam = None).
  { unfold entered in H4. unfold entry_change.
    destruct (String.eqb (in_exam inputs) ""); [discriminate|]. rewrite H4. reflexivity. }
  assert (Hs : f3 (f2 (f1 (rename (in_name inputs) s))) = s').
  { subst s'. unfold rename, new_name.
    destruct F1 as [[-> ->]| ->], F2 as [[-> ->]| ->], F3 as [[-> ->]| ->];
      destruct (String.eqb (in_name inputs) ""); destruct s; reflexivity. }
  assert (Hrun : _submit_inline_update inputs a =
                 (with_dialog (showerror "Input Error"
                                 "Please ensure mark fields contain valid numbers." None)
                    (with_students (<[ref := s']> (students (data_manager a))) a), Ok tt)).
  { unfold _submit_inline_update.
    destruct (String.eqb_spec (in_code inputs) ""); [contradiction|].
    rewrite (PyFacts.run_bind_ok _ _ a a (data_manager a) eq_refl). rewrite Hfind.
    erewrite PyFacts.run_try_raise.
    2:{ erewrite PyFacts.run_bind_ok by apply rename_run.
        erewrite PyFacts.run_bind_ok by (apply assign_if_filled_run; exact E1).
        erewrite PyFacts.run_bind_ok by (apply assign_if_filled_run; exact E2).
        erewrite PyFacts.run_bind_ok by (apply assign_if_filled_run; exact E3).
        erewrite PyFacts.run_bind_raise by (apply assign_if_filled_raises; exact E4).
        reflexivity. }
    destruct a as [[sts cs] fl w d].
    cbn [with_students with_dialog students data_manager class_size file writable dialogs
           messagebox] in *.
    rewrite !list_alter_alter_eq. rewrite (alter_at _ _ _ _ Href).
    cbn [compose]. unfold compose. rewrite Hs. reflexivity. }
  subst a'. unfold exec, eval. rewrite Hrun.
  cbn [fst snd students data_manager class_size file dialogs with_dialog with_students].
  split; [reflexivity|]. split; [reflexivity|]. split; [reflexivity|].
  split; [reflexivity|]. split; [reflexivity|].
  intros Hup Hsum Hup'.
  destruct (up_to_date_fields s Hup) as (Htot & _).
  destruct (up_to_date_fields s' Hup') as (Htot' & _).
  subst s'. cbn [total_score c1 c2 c3 exam] in Htot'. lia.
Qed.

Lemma update_with_bad_exam_is_half_done_bob :
  map (fun s => (c1 s, total_score s))
      (students (data_manager
         (exec (_submit_inline_update (mkInputs "1002" "" "5" "" "" "4o")) on_disk)))
  = [(10, 80); (5, 160)].
Proof.
  destruct (update_with_bad_exam_is_half_done on_disk (mkInputs "1002" "" "5" "" "" "4o") 1 bob []
              5 20 20 eq_refl eq_refl
              ltac:(discriminate) eq_refl eq_refl eq_refl eq_refl eq_refl)
    as (_ & H & _).
  rewrite H. reflexivity.
Defined.

(** ** A record whose mark is no integer *)

Lemma load_line_bad_mark (line : string) (a : App) (p0 p1 p2 p3 p4 p5 : string) :
  split "," (strip line) = [p0; p1; p2; p3; p4; p5] ->
  PyText.int p2 = None \/ PyText.int p3 = None \/ PyText.int p4 = None \/
  PyText.int p5 = None ->
  exists literal, load_line line a = (a, Raise (ValueError literal)) /\
                  In literal [p2; p3; p4; p5].
Proof.
  intros Hsplit Hbad. unfold load_line. rewrite Hsplit.
  unfold Student__init__, Py.int, bind.
  destruct (PyText.int p2); [|exists p2; split; [reflexivity | cbn; auto]].
  destruct (PyText.int p3); [|exists p3; split; [reflexivity | cbn; auto]].
  destruct (PyText.int p4); [|exists p4; split; [reflexivity | cbn; auto]].
  destruct (PyText.int p5); [|exists p5; split; [reflexivity | cbn; auto]].
  destruct Hbad as [H|[H|[H|H]]]; discriminate.
Qed.

Lemma for_each_raise_after {S A} (l1 l2 : list A) (x : A) (f : A -> M S unit)
      (s s1 : S) (e : Exn) :
  for_each l1 f s = (s1, Ok tt) -> f x s1 = (s1, Raise e) ->
  for_each (l1 ++ x :: l2) f s = (s1, Raise e).
Proof.
  intros H1 Hx. rewrite (for_each_app _ _ _ _ _ H1). cbn [for_each].
  unfold bind. rewrite Hx. reflexivity.
Qed.

(** X19.  On a file of ASCII text, [load_data] stops at the first record
    with six fields and a mark
    that is no integer.  The records before it, when sound, are on the
    roster; this record and everything after it are not, whatever they hold;
    one error message is shown; and the class size is the number the first
    line of the file declares, not the number of students loaded.  If that
    number is 0 while students were loaded, [get_summary] divides by zero. *)
Theorem load_data_stops_at_first_bad_mark (a : App) (n : Z) (good : list Student)
        (bad : string) (more : list string) (p0 p1 p2 p3 p4 p5 : string) :
  file a = FileText (writelines
             ((PyText.str n ++ newline)%string ::
              map (fun r => (r ++ newline)%string) (map to_file_format good ++ bad :: more))) ->
  isascii (writelines
             ((PyText.str n ++ newline)%string ::
              map (fun r => (r ++ newline)%string) (map to_file_format good ++ bad :: more)))
    = true ->
  small n = true ->
  Forall storable good ->
  len bad <= 4300 ->
  has_char LF bad = false -> has_char CR bad = false ->
  Forall (fun r => has_char LF r = false) more ->
  split "," (strip bad) = [p0; p1; p2; p3; p4; p5] ->
  PyText.int p2 = None \/ PyText.int p3 = None \/ PyText.int p4 = None \/
  PyText.int p5 = None ->
  let a' := exec load_data a in
  eval load_data a = Ok tt /\
  students (data_manager a') = good /\
  class_size (data_manager a') = n /\
  (exists literal,
     dialogs a' = showerror "Error" "Error processing student data: "
                            (Some (ValueError literal)) :: dialogs a) /\
  (n = 0 -> good <> [] -> get_summary (data_manager a') = Raise ZeroDivisionError).
Proof.
  intros Hfile _ _ Hgood _ Hbad _ Hmore Hsplit Hint a'.
  set (a1 := with_class_size n (with_students [] a)).
  destruct (load_line_bad_mark (bad ++ newline) (with_students good a1) p0 p1 p2 p3 p4 p5)
    as (literal & Hraise & _); [rewrite strip_newline; exact Hsplit | exact Hint |].
  assert (Hrun : for_each (map (fun r => (r ++ newline)%string)
                               (map to_file_format good ++ bad :: more)) load_line a1
                 = (with_students good a1, Raise (ValueError literal))).
  { rewrite map_app, map_map. cbn [map].
    apply for_each_raise_after; [|exact Hraise].
    rewrite (load_lines_storable good a1 Hgood). reflexivity. }
  assert (Hlines : readlines (writelines
             ((PyText.str n ++ newline)%string ::
              map (fun r => (r ++ newline)%string) (map to_file_format good ++ bad :: more)))
           = (PyText.str n ++ newline)%string ::
             map (fun r => (r ++ newline)%string) (map to_file_format good ++ bad :: more)).
  { rewrite writelines_cons, append_assoc.
    change (newline ++ ?t)%string with (String LF t).
    rewrite readlines_line, readlines_writelines; [reflexivity| |].
    - apply Forall_app. split.
      + apply List.Forall_map. eapply Forall_impl; [exact Hgood|]. exact storable_one_line.
      + apply List.Forall_cons; assumption.
    - apply str_has_char; [reflexivity | discriminate]. }
  assert (Hload : load_data a =
                  (with_dialog (showerror "Error" "Error processing student data: "
                                          (Some (ValueError literal)))
                     (with_students good a1), Ok tt)).
  { destruct a as [[sts cs] f w d]. cbn [file] in Hfile. subst f.
    unfold load_data, set_students. rewrite PyFacts.run_bind_modify.
    erewrite PyFacts.run_try_raise; cycle 1.
    { erewrite PyFacts.run_bind_ok.
      2:{ unfold open_readlines. cbn [file]. reflexivity. }
      rewrite Hlines. cbv beta iota. unfold Py.int at 1.
      rewrite strip_newline, strip_no_space by apply str_no_space.
      rewrite int_str, PyFacts.run_bind_ret.
      unfold set_class_size at 1. rewrite PyFacts.run_bind_modify.
      erewrite PyFacts.run_bind_raise by exact Hrun. reflexivity. }
    reflexivity. }
  subst a'. unfold exec, eval. rewrite Hload.
  cbn [fst snd students data_manager class_size dialogs with_dialog with_students
         with_class_size a1].
  split; [reflexivity|]. split; [reflexivity|]. split; [reflexivity|].
  split; [exists literal; reflexivity|].
  intros -> Hne. unfold get_summary. cbn [students class_size].
  destruct good; [contradiction | reflexivity].
Qed.

Lemma load_data_stops_at_first_bad_mark_header_0 :
  let a := mkApp (mkDataManager [] 0)
                 (FileText (writelines [("0" ++ newline)%string;
                                        ("1001,Ann,10,10,10,50" ++ newline)%string;
                                        ("1002,Bob,20,20,20,x" ++ newline)%string;
                                        ("1003,Cy,20,20,20,100" ++ newline)%string]))
                 true [] in
  students (data_manager (exec load_data a)) = [ann] /\
  get_summary (data_manager (exec load_data a)) = Raise ZeroDivisionError.
Proof.
  cbv zeta.
  destruct (load_data_stops_at_first_bad_mark
              (mkApp (mkDataManager [] 0)
                 (FileText (writelines [("0" ++ newline)%string;
                                        ("1001,Ann,10,10,10,50" ++ newline)%string;
                                        ("1002,Bob,20,20,20,x" ++ newline)%string;
                                        ("1003,Cy,20,20,20,100" ++ newline)%string]))
                 true [])
              0 [ann] "1002,Bob,20,20,20,x" ["1003,Cy,20,20,20,100"]
              "1002" "Bob" "20" "20" "20" "x")
    as (_ & H1 & _ & _ & H2).
  - reflexivity.
  - reflexivity.
  - reflexivity.
  - apply List.Forall_cons; [repeat split | apply List.Forall_nil].
  - apply Z.leb_le. reflexivity.
  - reflexivity.
  - reflexivity.
  - apply List.Forall_cons; [reflexivity | apply List.Forall_nil].
  - reflexivity.
  - right. right. right. reflexivity.
  - split; [exact H1 | apply H2; [reflexivity | discriminate]].
Defined.

(** ** The grade in marks *)

(** X20.  The grade of a student with the derived data of the scores, in
    marks out of 160: A from 112 on, B from 96 to 110, C from 80 to 94, D
    from 64 to 78, and F for everything else - below 64, and the totals 79,
    95 and 111, whose percentages fall between two bands. *)
Theorem grade_bands_in_marks (s : Student) :
  up_to_date s ->
  0 <= total_score s <= TOTAL_MAX_MARKS ->
  (grade s = "A" <-> 112 <= total_score s) /\
  (grade s = "B" <-> 96 <= total_score s <= 110) /\
  (grade s = "C" <-> 80 <= total_score s <= 94) /\
  (grade s = "D" <-> 64 <= total_score s <= 78) /\
  (grade s = "F" <-> total_score s < 64 \/ total_score s = 79 \/ total_score s = 95 \/
                     total_score s = 111).
Proof.
  intros Hup Hrange. unfold TOTAL_MAX_MARKS in Hrange.
  destruct (up_to_date_fields s Hup) as (Htot & _).
  assert (Hg : grade s = grade_of_total (total_score s)).
  { transitivity (grade (_recalculate_derived_data s)).
    - unfold up_to_date in Hup. rewrite Hup. reflexivity.
    - rewrite Htot. apply grade_by_total. lia. }
  rewrite Hg. unfold grade_of_total.
  destruct (Z.leb_spec 112 (total_score s)); cbn [andb].
  { repeat split; intros; try discriminate; lia. }
  destruct (Z.leb_spec 96 (total_score s)); destruct (Z.leb_spec (total_score s) 110);
    cbn [andb]; try (repeat split; intros; try discriminate; lia).
  all: destruct (Z.leb_spec 80 (total_score s)); destruct (Z.leb_spec (total_score s) 94);
    cbn [andb]; try (repeat split; intros; try discriminate; lia).
  all: destruct (Z.leb_spec 64 (total_score s)); destruct (Z.leb_spec (total_score s) 78);
    cbn [andb]; try (repeat split; intros; try discriminate; lia).
Qed.

Lemma grade_bands_in_marks_ann :
  total_score ann = 80 /\ grade ann = "C".
Proof.
  split; [reflexivity|].
  destruct (grade_bands_in_marks ann eq_refl) as (_ & _ & (_ & H) & _).
  - unfold TOTAL_MAX_MARKS. cbn. lia.
  - apply H. cbn. lia.
Defined.

End RosterFacts.

(* ===================================================================== *)
(** * Facts: the timer and the handlers of quiz.py *)
(* ===================================================================== *)

Module QuizTimerFacts.
Import PyText Py Quiz QuizFacts.

(** ** What the handlers leave *)

(** The callbacks that wait once the timer [id] is cancelled. *)
Definition cancelled (id : option nat) (pending : list (nat * Callback))
  : list (nat * Callback) :=
  match id with
  | Some id => List.filter (fun p => negb (Nat.eqb (fst p) id)) pending
  | None => pending
  end.

(** The state [start_timer] leaves: the timer that was running is
    cancelled, 15 is displayed, 14 is left, and one tick waits. *)
Definition timer_started (c : Controller) : Controller :=
  mkController (quiz_logic c) (QUESTION_TIME_LIMIT - 1) (Some (next_id c))
               ((next_id c, cb_update_timer_display) :: cancelled (after_id c) (pending c))
               (S (next_id c)) (controls_enabled c) (rng c) (clock c) (ui c).

Lemma start_timer_run (c : Controller) : start_timer c = (timer_started c, Ok tt).
Proof. destruct c as [l tl [id|] pd ni ce rg ck u]; reflexivity. Qed.

(** One tick of the countdown. *)
Definition ticked (c : Controller) : Controller :=
  mkController (quiz_logic c) (time_left c - 1) (Some (next_id c))
               ((next_id c, cb_update_timer_display) :: pending c)
               (S (next_id c)) (controls_enabled c) (rng c) (clock c) (ui c).

Lemma tick_run (c : Controller) :
  0 <= time_left c -> update_timer_display c = (ticked c, Ok tt).
Proof.
  intros H. unfold update_timer_display.
  rewrite (PyFacts.run_bind_ok _ _ c c c eq_refl).
  destruct (Z.leb_spec 0 (time_left c)); [|lia].
  destruct c; reflexivity.
Qed.

(** The time-out. *)
Definition timed_out (c : Controller) : Controller :=
  mkController (set_attempts_remaining 1 (quiz_logic c)) (time_left c) (after_id c)
               ((next_id c, cb_next_question) :: pending c)
               (S (next_id c)) false (rng c) (clock c) (ui c).

Lemma timeout_run (c : Controller) :
  time_left c < 0 -> update_timer_display c = (timed_out c, Ok tt).
Proof.
  intros H. unfold update_timer_display.
  rewrite (PyFacts.run_bind_ok _ _ c c c eq_refl).
  destruct (Z.leb_spec 0 (time_left c)); [lia|].
  unfold set_controls, set_logic. rewrite !PyFacts.run_bind_modify.
  erewrite PyFacts.run_bind_ok by (apply check_answer_rejects; reflexivity).
  destruct c; reflexivity.
Qed.

(** The problem [generate_problem] draws in a range. *)
Definition drawn_answer (lo hi : Z) (c : Controller) : Z :=
  let num1 := lo + draw c mod (hi - lo + 1) in
  let num2 := lo + draw (advance c) mod (hi - lo + 1) in
  if draw (advance (advance c)) mod 2 =? 0 then num1 + num2
  else if num1 <? num2 then num2 - num1 else num1 - num2.

Definition posed (lo hi : Z) (c : Controller) : Controller :=
  mkController (mkLogic (score (quiz_logic c)) (questions_attempted (quiz_logic c))
                        (Some (drawn_answer lo hi c)) 2 (lives (quiz_logic c))
                        (difficulty (quiz_logic c)) (max_questions (quiz_logic c))
                        (Some (clock c)))
               (time_left c) (after_id c) (pending c) (next_id c) (controls_enabled c)
               (mkRng (tape (rng c)) (S (S (S (cursor (rng c)))))) (clock c) (ui c).

Lemma settings_range (level : string) (lo hi : Z) :
  In (level, (lo, hi)) DIFFICULTY_SETTINGS ->
  1 <= lo <= hi /\ forall s : Controller, dict_get DIFFICULTY_SETTINGS level s = (s, Ok (lo, hi)).
Proof.
  intros Hin. cbn in Hin.
  destruct Hin as [H|[H|[H|[]]]]; injection H as <- <- <-; (split; [lia | reflexivity]).
Qed.

Lemma generate_problem_run (c : Controller) (level : string) (lo hi : Z) :
  difficulty (quiz_logic c) = Some level ->
  In (level, (lo, hi)) DIFFICULTY_SETTINGS ->
  exec generate_problem c = posed lo hi c /\ exists text, eval generate_problem c = Ok text.
Proof.
  intros Hd Hin. destruct (settings_range level lo hi Hin) as (Hrange & Hget).
  unfold generate_problem, eval, exec, bind, get_logic. rewrite Hd, Hget.
  rewrite (random_int_run lo hi c) by lia.
  rewrite (random_int_run lo hi (advance c)) by lia.
  rewrite decide_operation_run.
  unfold posed, drawn_answer.
  destruct (draw (advance (advance c)) mod 2 =? 0).
  - destruct c as [[] ? ? ? ? ? [] ? ?]. cbn. split; [reflexivity | eauto].
  - cbn [String.eqb Ascii.eqb Bool.eqb andb].
    destruct (lo + draw c mod (hi - lo + 1) <? lo + draw (advance c) mod (hi - lo + 1));
      destruct c as [[] ? ? ? ? ? [] ? ?]; cbn; (split; [reflexivity | eauto]).
Qed.

Lemma drawn_answer_bounds (lo hi : Z) (c : Controller) :
  1 <= lo <= hi -> 0 <= drawn_answer lo hi c <= 2 * hi.
Proof.
  intros H. unfold drawn_answer.
  pose proof (Z.mod_pos_bound (draw c) (hi - lo + 1) ltac:(lia)).
  pose proof (Z.mod_pos_bound (draw (advance c)) (hi - lo + 1) ltac:(lia)).
  destruct (_ =? 0); [lia|]. destruct (Z.ltb_spec (lo + draw c mod (hi - lo + 1))
                                            (lo + draw (advance c) mod (hi - lo + 1))); lia.
Qed.

(** [next_question] while questions are left. *)
Lemma next_question_run (c : Controller) (level : string) (lo hi : Z) :
  difficulty (quiz_logic c) = Some level ->
  In (level, (lo, hi)) DIFFICULTY_SETTINGS ->
  questions_attempted (quiz_logic c) < max_questions (quiz_logic c) ->
  next_question c =
    (timer_started (posed lo hi
       (mkController (quiz_logic c) (time_left c) (after_id c) (pending c) (next_id c) true
                     (rng c) (clock c) (ui c))), Ok tt).
Proof.
  intros Hd Hin Hq. unfold next_question.
  rewrite (PyFacts.run_bind_ok _ _ c c (quiz_logic c) eq_refl).
  destruct (Z.leb_spec (max_questions (quiz_logic c)) (questions_attempted (quiz_logic c)));
    [lia|].
  unfold set_controls. rewrite PyFacts.run_bind_modify.
  set (c1 := mkController (quiz_logic c) (time_left c) (after_id c) (pending c) (next_id c)
                          true (rng c) (clock c) (ui c)).
  destruct (generate_problem_run c1 level lo hi Hd Hin) as (Hexec & text & Heval).
  assert (Hrun : generate_problem c1 = (posed lo hi c1, Ok text)).
  { unfold exec, eval in *. destruct (generate_problem c1). cbn in *. congruence. }
  rewrite (PyFacts.run_bind_ok _ _ _ _ _ Hrun). apply start_timer_run.
Qed.

(** ** The time-out *)

(** X21.  A time-out costs nothing.  When the countdown has run out,
    [update_timer_display] disables the controls, sets the attempts to 1 and
    hands the text Timeout to [check_answer], which takes it for an invalid
    input: no sound, no life lost, no question counted.  The [next_question]
    it schedules then poses a new problem with two attempts and a full
    countdown, under the same question number: as long as questions are left,
    waiting never ends the quiz. *)
Theorem timeout_poses_a_new_problem (c : Controller) (level : string) (lo hi : Z) :
  time_left c < 0 ->
  difficulty (quiz_logic c) = Some level ->
  In (level, (lo, hi)) DIFFICULTY_SETTINGS ->
  questions_attempted (quiz_logic c) < max_questions (quiz_logic c) ->
  let c1 := exec update_timer_display c in
  let c2 := exec next_question c1 in
  (controls_enabled c1 = false /\ attempts_remaining (quiz_logic c1) = 1 /\
   pending c1 = (next_id c, cb_next_question) :: pending c /\ ui c1 = ui c) /\
  lives (quiz_logic c2) = lives (quiz_logic c) /\
  score (quiz_logic c2) = score (quiz_logic c) /\
  questions_attempted (quiz_logic c2) = questions_attempted (quiz_logic c) /\
  attempts_remaining (quiz_logic c2) = 2 /\
  (exists a, current_answer (quiz_logic c2) = Some a /\ 0 <= a <= 2 * hi) /\
  controls_enabled c2 = true /\
  time_left c2 = QUESTION_TIME_LIMIT - 1 /\
  ui c2 = ui c.
Proof.
  intros Ht Hd Hin Hq c1 c2. subst c2 c1. unfold exec.
  rewrite (timeout_run c Ht). cbn [fst].
  rewrite (next_question_run (timed_out c) level lo hi);
    [| destruct c as [[] ? ? ? ? ? ? ? ?]; assumption | assumption
     | destruct c as [[] ? ? ? ? ? ? ? ?]; assumption].
  cbn [fst]. split; [destruct c as [[] ? ? ? ? ? ? ? ?]; repeat split|].
  destruct (settings_range level lo hi Hin) as (Hrange & _).
  destruct c as [[] ? ? ? ? ? ? ? ?].
  cbn [timer_started posed timed_out quiz_logic lives score questions_attempted
         attempts_remaining current_answer controls_enabled time_left ui].
  split; [reflexivity|]. split; [reflexivity|]. split; [reflexivity|]. split; [reflexivity|].
  split; [eexists; split; [reflexivity | apply drawn_answer_bounds, Hrange]|].
  split; [reflexivity|]. split; reflexivity.
Qed.

Lemma timeout_poses_a_new_problem_on_last_life :
  let c := mkController (mkLogic 20 3 (Some 12) 2 1 (Some "Beginner") 10 (Some 0))
                        (-1) (Some 3%nat) [] 4 true (mkRng tape0 0) 0 [] in
  lives (quiz_logic (exec next_question (exec update_timer_display c))) = 1 /\
  questions_attempted (quiz_logic (exec next_question (exec update_timer_display c))) = 3.
Proof.
  cbv zeta.
  destruct (timeout_poses_a_new_problem
              (mkController (mkLogic 20 3 (Some 12) 2 1 (Some "Beginner") 10 (Some 0))
                            (-1) (Some 3%nat) [] 4 true (mkRng tape0 0) 0 [])
              "Beginner" 1 9 eq_refl eq_refl (or_introl eq_refl) eq_refl)
    as (_ & H1 & _ & H2 & _).
  split; [exact H1 | exact H2].
Defined.

(** ** The countdown *)

(** The timer callback run [n] times in a row. *)
Fixpoint ticks (n : nat) : M Controller unit :=
  match n with
  | O => ret tt
  | S k => update_timer_display ;; ticks k
  end.

Lemma ticks_run (n : nat) (c : Controller) :
  Z.of_nat n <= time_left c + 1 ->
  exists c', ticks n c = (c', Ok tt) /\
             time_left c' = time_left c - Z.of_nat n /\
             quiz_logic c' = quiz_logic c /\ controls_enabled c' = controls_enabled c /\
             ui c' = ui c.
Proof.
  revert c. induction n as [|n IH]; intros c H.
  - exists c. cbn. repeat split. lia.
  - cbn [ticks]. rewrite (PyFacts.run_bind_ok _ _ _ _ _ (tick_run c ltac:(lia))).
    destruct (IH (ticked c)) as (c' & Hrun & Ht & Hl & Hc & Hu); [cbn; lia|].
    exists c'. split; [exact Hrun|]. cbn in *. repeat split; try assumption. lia.
Qed.

(** X22.  The countdown lasts sixteen ticks, not fifteen.  [start_timer]
    displays 15 and leaves 14; each of the next fifteen runs of the timer
    callback only counts down, the last of them displaying 0, and touches
    neither the quiz state nor the controls; the run after these is the
    time-out. *)
Theorem countdown_times_out_at_the_sixteenth_tick (c : Controller) :
  let c0 := exec start_timer c in
  time_left c0 = 14 /\
  (forall n, (n <= 15)%nat ->
     let cn := exec (ticks n) c0 in
     eval (ticks n) c0 = Ok tt /\
     time_left cn = 14 - Z.of_nat n /\
     quiz_logic cn = quiz_logic c /\ controls_enabled cn = controls_enabled c /\
     ui cn = ui c) /\
  (let c16 := exec (ticks 16) c0 in
   controls_enabled c16 = false /\
   attempts_remaining (quiz_logic c16) = 1 /\
   exists id waiting, pending c16 = (id, cb_next_question) :: waiting).
Proof.
  cbv zeta.
  assert (H0 : exec start_timer c = timer_started c)
    by (unfold exec; rewrite start_timer_run; reflexivity).
  rewrite H0. split; [reflexivity|]. split.
  - intros n Hn.
    destruct (ticks_run n (timer_started c)) as (c' & Hrun & Ht & Hl & Hc & Hu);
      [unfold timer_started, QUESTION_TIME_LIMIT; cbn; lia|].
    unfold exec, eval. rewrite Hrun. cbn [fst snd].
    split; [reflexivity|]. split; [rewrite Ht; reflexivity|].
    rewrite Hl, Hc, Hu. destruct c; repeat split.
  - destruct (ticks_run 15 (timer_started c)) as (c' & Hrun & Ht & Hl & Hc & Hu);
      [unfold timer_started, QUESTION_TIME_LIMIT; cbn; lia|].
    assert (H16 : ticks 16 (timer_started c) = update_timer_display c').
    { change 16%nat with (15 + 1)%nat.
      assert (Happ : forall n m s s', ticks n s = (s', Ok tt) ->
                                      ticks (n + m) s = ticks m s').
      { induction n as [|n IH]; intros m s s' H; cbn [ticks Nat.add] in *.
        - unfold ret in H. congruence.
        - unfold bind in *. destruct (update_timer_display s) as [s1 [[]|e]];
            [apply IH, H | discriminate]. }
      rewrite (Happ _ _ _ _ Hrun). cbn [ticks].
      unfold bind. destruct (update_timer_display c') as [s [[]|e]]; reflexivity. }
    unfold exec. rewrite H16, (timeout_run c')
      by (rewrite Ht; unfold timer_started, QUESTION_TIME_LIMIT; cbn; lia).
    cbn [fst timed_out controls_enabled quiz_logic pending].
    split; [reflexivity|]. split; [destruct (quiz_logic c'); reflexivity|]. eauto.
Qed.

(** ** submit_answer *)

(** The state once [submit_answer] has stopped the timer. *)
Definition stopped (c : Controller) : Controller :=
  mkController (quiz_logic c) (time_left c) None (cancelled (after_id c) (pending c))
               (next_id c) (controls_enabled c) (rng c) (clock c) (ui c).

(** The state with one more callback waiting. *)
Definition waiting (cb : Callback) (c : Controller) : Controller :=
  mkController (quiz_logic c) (time_left c) (after_id c) ((next_id c, cb) :: pending c)
               (S (next_id c)) (controls_enabled c) (rng c) (clock c) (ui c).


Lemma submit_answer_checks (x : string) (c : Controller) :
  strip x <> "" ->
  submit_answer x c =
    (r <- check_answer (strip x) ;;
     let '(feedback, solved) := r in
     if contains "Correct" feedback || contains "Wrong!" feedback
     then (if solved : bool then _ <- after cb_next_question ;; ret tt else start_timer)
     else if contains "Invalid Input" feedback
          then start_timer
          else (if solved : bool then _ <- after cb_next_question ;; ret tt else start_timer))
    (stopped c).
Proof.
  intros Hne. unfold submit_answer.
  destruct (String.eqb_spec (strip x) ""); [contradiction|].
  rewrite (PyFacts.run_bind_ok _ _ c c c eq_refl).
  erewrite PyFacts.run_bind_ok; [reflexivity|].
  destruct c as [l tl [id|] pd ni ce rg ck u]; reflexivity.
Qed.

Lemma submit_answer_solved (x : string) (c c1 : Controller) (feedback : string) :
  strip x <> "" ->
  check_answer (strip x) (stopped c) = (c1, Ok (feedback, true)) ->
  contains "Correct" feedback || contains "Wrong!" feedback = true ->
  submit_answer x c = (waiting cb_next_question c1, Ok tt).
Proof.
  intros Hne Hck Hfb. rewrite (submit_answer_checks x c Hne).
  rewrite (PyFacts.run_bind_ok _ _ _ _ _ Hck). cbv beta iota. rewrite Hfb.
  destruct c1; reflexivity.
Qed.

Lemma submit_answer_invalid (x : string) (c : Controller) :
  strip x <> "" -> PyText.int (strip x) = None ->
  submit_answer x c = (timer_started (stopped c), Ok tt).
Proof.
  intros Hne Hint. rewrite (submit_answer_checks x c Hne).
  rewrite (PyFacts.run_bind_ok _ _ _ _ _ (check_answer_rejects _ _ Hint)).
  cbv beta iota.
  change (contains "Correct" "Invalid Input" || contains "Wrong!" "Invalid Input") with false.
  change (contains "Invalid Input" "Invalid Input") with true.
  cbv iota. apply start_timer_run.
Qed.

(** X23.  An entry of ASCII text that is no integer restarts the countdown.
    The quiz state is as it was - no attempt used, nothing counted, no sound - but the
    timer that was running is cancelled and a new one starts from 15, so
    that such entries hold the time-out off for as long as they keep
    coming. *)
Theorem invalid_entry_restarts_the_countdown (x : string) (c : Controller) :
  isascii x = true ->
  strip x <> "" -> PyText.int (strip x) = None ->
  let c1 := exec (submit_answer x) c in
  eval (submit_answer x) c = Ok tt /\
  quiz_logic c1 = quiz_logic c /\ ui c1 = ui c /\
  controls_enabled c1 = controls_enabled c /\
  time_left c1 = QUESTION_TIME_LIMIT - 1 /\
  after_id c1 = Some (next_id c) /\
  pending c1 = (next_id c, cb_update_timer_display) :: cancelled (after_id c) (pending c).
Proof.
  intros _ Hne Hint c1. subst c1. unfold exec, eval.
  rewrite (submit_answer_invalid x c Hne Hint). destruct c; repeat split.
Qed.

Lemma invalid_entry_restarts_the_countdown_at_2 :
  let c := mkController (mkLogic 20 3 (Some 12) 2 4 (Some "Beginner") 10 (Some 0))
                        2 (Some 3%nat) [(3%nat, cb_update_timer_display)] 4 true
                        (mkRng tape0 0) 0 [] in
  time_left (exec (submit_answer "1 2") c) = 14 /\
  pending (exec (submit_answer "1 2") c) = [(4%nat, cb_update_timer_display)].
Proof.
  cbv zeta.
  destruct (invalid_entry_restarts_the_countdown "1 2"
              (mkController (mkLogic 20 3 (Some 12) 2 4 (Some "Beginner") 10 (Some 0))
                            2 (Some 3%nat) [(3%nat, cb_update_timer_display)] 4 true
                            (mkRng tape0 0) 0 [])
              eq_refl ltac:(discriminate) eq_refl) as (_ & _ & _ & _ & H1 & _ & H2).
  split; [exact H1 | exact H2].
Defined.

Lemma correct_feedback (points : Z) :
  points = 10 \/ points = 5 ->
  contains "Correct" ("Correct! (+" ++ PyText.str points ++ " points)")
  || contains "Wrong!" ("Correct! (+" ++ PyText.str points ++ " points)") = true.
Proof. intros [->| ->]; reflexivity. Qed.











(** ** start_game *)

Lemma initialize_quiz_run (c : Controller) :
  initialize_quiz c =
    next_question
      (mkController (mkLogic 0 0 (current_answer (quiz_logic c))
                             (attempts_remaining (quiz_logic c)) MAX_LIVES
                             (difficulty (quiz_logic c)) (max_questions (quiz_logic c))
                             (start_time (quiz_logic c)))
                    QUESTION_TIME_LIMIT (after_id c) (pending c) (next_id c)
                    (controls_enabled c) (rng c) (clock c) (ui c)).
Proof.
  unfold initialize_quiz, set_time_left, set_logic. rewrite !PyFacts.run_bind_modify.
  destruct c as [[] ? ? ? ? ? ? ? ?]. reflexivity.
Qed.

Lemma start_game_run (c : Controller) (level : string) (lo hi : Z) :
  In (level, (lo, hi)) DIFFICULTY_SETTINGS ->
  0 < max_questions (quiz_logic c) ->
  start_game level c =
    (mkController
       (mkLogic 0 0 (Some (drawn_answer lo hi c)) 2 MAX_LIVES (Some level)
                (max_questions (quiz_logic c)) (Some (clock c)))
       (QUESTION_TIME_LIMIT - 1) (Some (next_id c))
       ((next_id c, cb_update_timer_display) :: cancelled (after_id c) (pending c))
       (S (next_id c)) true (mkRng (tape (rng c)) (S (S (S (cursor (rng c)))))) (clock c)
       (tkraise "QuizFrame" :: ui c), Ok tt).
Proof.
  intros Hin Hmax.
  destruct c as [[sc qa ca ar lv df mq st] tl ai pd ni ce rg ck u].
  cbn [quiz_logic max_questions] in Hmax.
  unfold start_game, set_difficulty, set_logic.
  rewrite PyFacts.run_bind_modify.
  erewrite PyFacts.run_bind_ok.
  2:{ rewrite initialize_quiz_run. apply (next_question_run _ level lo hi);
        [reflexivity | exact Hin | exact Hmax]. }
  reflexivity.
Qed.

(** X26.  [start_game] on one of the three levels starts a quiz afresh
    whatever the last one left: the score and the count of questions at 0,
    five lives, the level stored, a problem posed with two attempts and an
    answer between 0 and twice the top of the range, the controls enabled,
    the countdown started, and the quiz frame raised last. *)
Theorem start_game_starts_afresh (c : Controller) (level : string) (lo hi : Z) :
  In (level, (lo, hi)) DIFFICULTY_SETTINGS ->
  0 < max_questions (quiz_logic c) ->
  let c' := exec (start_game level) c in
  eval (start_game level) c = Ok tt /\
  score (quiz_logic c') = 0 /\ questions_attempted (quiz_logic c') = 0 /\
  lives (quiz_logic c') = MAX_LIVES /\ attempts_remaining (quiz_logic c') = 2 /\
  difficulty (quiz_logic c') = Some level /\
  max_questions (quiz_logic c') = max_questions (quiz_logic c) /\
  (exists a, current_answer (quiz_logic c') = Some a /\ 0 <= a <= 2 * hi) /\
  controls_enabled c' = true /\
  time_left c' = QUESTION_TIME_LIMIT - 1 /\
  pending c' = (next_id c, cb_update_timer_display) :: cancelled (after_id c) (pending c) /\
  ui c' = tkraise "QuizFrame" :: ui c.
Proof.
  intros Hin Hmax c'. subst c'.
  destruct (settings_range level lo hi Hin) as (Hrange & _).
  unfold exec, eval. rewrite (start_game_run c level lo hi Hin Hmax).
  cbn [fst snd quiz_logic ui lives questions_attempted pending attempts_remaining
         current_answer controls_enabled time_left score difficulty max_questions].
  split; [reflexivity|]. split; [reflexivity|]. split; [reflexivity|].
  split; [reflexivity|]. split; [reflexivity|]. split; [reflexivity|].
  split; [reflexivity|].
  split; [eexists; split; [reflexivity | apply drawn_answer_bounds, Hrange]|].
  repeat split.
Qed.

Lemma start_game_starts_afresh_after_a_game :
  let c := controller_at (mkLogic 85 0 (Some 12) 0 MAX_LIVES (Some "Advanced") 10 (Some 0)) in
  score (quiz_logic (exec (start_game "Beginner") c)) = 0 /\
  difficulty (quiz_logic (exec (start_game "Beginner") c)) = Some "Beginner".
Proof.
  cbv zeta.
  destruct (start_game_starts_afresh
              (controller_at (mkLogic 85 0 (Some 12) 0 MAX_LIVES (Some "Advanced") 10 (Some 0)))
              "Beginner" 1 9 (or_introl eq_refl) eq_refl)
    as (_ & H1 & _ & _ & _ & H2 & _).
  split; [exact H1 | exact H2].
Defined.

End QuizTimerFacts.

(* ===================================================================== *)
(** * Facts: the runs of quiz.py *)
(* ===================================================================== *)

Module QuizRunFacts.
Import PyText Py Quiz QuizFacts QuizTimerFacts.

(** ** The queue of callbacks *)

Lemma waiting_under_filter (id id0 : nat) (l : list (nat * Callback)) :
  waiting_under id (List.filter (fun p => negb (Nat.eqb (fst p) id0)) l)
  = if Nat.eqb id id0 then None else waiting_under id l.
Proof.
  induction l as [|[i cb] l IH]; cbn [List.filter waiting_under fst];
    [destruct (Nat.eqb id id0); reflexivity|].
  destruct (Nat.eqb_spec i id0) as [->|Hi]; cbn [negb waiting_under].
  - rewrite IH. destruct (Nat.eqb_spec id id0) as [->|Hne]; [reflexivity|].
    destruct (Nat.eqb_spec id0 id); [congruence | reflexivity].
  - destruct (Nat.eqb_spec i id) as [->|Hne]; [|exact IH].
    destruct (Nat.eqb_spec id id0); [congruence | reflexivity].
Qed.

(** The identifiers in the queue have been handed out, and the timer the
    frame remembers is no [next_question]. *)
Definition queue_wf (aid : option nat) (pd : list (nat * Callback)) (ni : nat) : Prop :=
  (forall id cb, waiting_under id pd = Some cb -> (id < ni)%nat) /\
  (forall id, aid = Some id ->
     (id < ni)%nat /\ waiting_under id pd <> Some cb_next_question).

(** A [next_question] waits in the queue. *)
Definition next_question_waits (pd : list (nat * Callback)) : Prop :=
  exists id, waiting_under id pd = Some cb_next_question.

Lemma wf_cancel (aid : option nat) (pd : list (nat * Callback)) (ni : nat) :
  queue_wf aid pd ni -> queue_wf None (cancelled aid pd) ni.
Proof.
  intros (H1 & H2). split; [|intros id E; discriminate].
  intros id cb. destruct aid as [id0|]; cbn [cancelled]; [|apply H1].
  rewrite waiting_under_filter. destruct (Nat.eqb id id0); [discriminate | apply H1].
Qed.

Lemma wf_push (aid : option nat) (pd : list (nat * Callback)) (ni : nat) (cb : Callback) :
  queue_wf aid pd ni -> queue_wf aid ((ni, cb) :: pd) (S ni).
Proof.
  intros (H1 & H2). split.
  - intros id cb'. cbn [waiting_under]. destruct (Nat.eqb_spec ni id) as [->|Hne]; [lia|].
    intros H. specialize (H1 _ _ H). lia.
  - intros id E. destruct (H2 id E) as (Hlt & Hno). split; [lia|].
    cbn [waiting_under]. destruct (Nat.eqb_spec ni id); [lia | exact Hno].
Qed.

Lemma wf_push_timer (aid : option nat) (pd : list (nat * Callback)) (ni : nat) :
  queue_wf aid pd ni -> queue_wf (Some ni) ((ni, cb_update_timer_display) :: pd) (S ni).
Proof.
  intros (H1 & H2). split.
  - intros id cb'. cbn [waiting_under]. destruct (Nat.eqb_spec ni id) as [->|Hne]; [lia|].
    intros H. specialize (H1 _ _ H). lia.
  - intros id E. injection E as <-. split; [lia|].
    cbn [waiting_under]. rewrite Nat.eqb_refl. discriminate.
Qed.

Lemma wf_dequeue (aid : option nat) (pd : list (nat * Callback)) (ni id0 : nat) :
  queue_wf aid pd ni ->
  queue_wf aid (List.filter (fun p => negb (Nat.eqb (fst p) id0)) pd) ni.
Proof.
  intros (H1 & H2). split.
  - intros id cb. rewrite waiting_under_filter.
    destruct (Nat.eqb id id0); [discriminate | apply H1].
  - intros id E. destruct (H2 id E) as (Hlt & Hno). split; [exact Hlt|].
    rewrite waiting_under_filter. destruct (Nat.eqb id id0); [discriminate | exact Hno].
Qed.

Lemma waits_cancel (aid : option nat) (pd : list (nat * Callback)) (ni : nat) :
  queue_wf aid pd ni -> next_question_waits pd -> next_question_waits (cancelled aid pd).
Proof.
  intros (_ & H2) (id & Hid). destruct aid as [id0|]; cbn [cancelled]; [|exists id; exact Hid].
  exists id. rewrite waiting_under_filter.
  destruct (Nat.eqb_spec id id0) as [->|Hne]; [|exact Hid].
  destruct (H2 id0 eq_refl) as (_ & Hno). contradiction.
Qed.

Lemma waits_push (aid : option nat) (pd : list (nat * Callback)) (ni : nat) (cb : Callback) :
  queue_wf aid pd ni -> next_question_waits pd -> next_question_waits ((ni, cb) :: pd).
Proof.
  intros (H1 & _) (id & Hid). exists id. cbn [waiting_under].
  destruct (Nat.eqb_spec ni id) as [->|Hne]; [|exact Hid].
  specialize (H1 _ _ Hid). lia.
Qed.

Lemma waits_pushed (pd : list (nat * Callback)) (ni : nat) :
  next_question_waits ((ni, cb_next_question) :: pd).
Proof. exists ni. cbn [waiting_under]. rewrite Nat.eqb_refl. reflexivity. Qed.

Lemma waits_dequeue_timer (pd : list (nat * Callback)) (id0 : nat) :
  waiting_under id0 pd = Some cb_update_timer_display ->
  next_question_waits pd ->
  next_question_waits (List.filter (fun p => negb (Nat.eqb (fst p) id0)) pd).
Proof.
  intros H0 (id & Hid). exists id. rewrite waiting_under_filter.
  destruct (Nat.eqb_spec id id0) as [->|Hne]; [congruence | exact Hid].
Qed.


(** ** What holds between two events *)

(** The game and the queue between two events: ten questions to a game,
    one to five lives, the identifiers of the queue in order, and a
    [next_question] waiting whenever the count of questions is at ten or
    more. *)
Definition game_ok (c : Controller) : Prop :=
  max_questions (quiz_logic c) = 10 /\
  1 <= lives (quiz_logic c) <= MAX_LIVES /\
  0 <= questions_attempted (quiz_logic c) /\
  queue_wf (after_id c) (pending c) (next_id c) /\
  (10 <= questions_attempted (quiz_logic c) -> next_question_waits (pending c)).

(** What [check_answer] does with an integer: the problem is done - by a
    right answer, by the second wrong one, or by the wrong one that takes the
    last life - or one more attempt is left. *)
Lemma check_answer_effect (x : string) (v : Z) (c : Controller) :
  PyText.int x = Some v ->
  exists c1 feedback solved,
    check_answer x c = (c1, Ok (feedback, solved)) /\
    after_id c1 = after_id c /\ pending c1 = pending c /\ next_id c1 = next_id c /\
    max_questions (quiz_logic c1) = max_questions (quiz_logic c) /\
    (solved = true /\
     contains "Correct" feedback || contains "Wrong!" feedback = true /\
     (questions_attempted (quiz_logic c1) = questions_attempted (quiz_logic c) + 1 /\
      (lives (quiz_logic c1) = lives (quiz_logic c) \/
       lives (quiz_logic c1) = lives (quiz_logic c) - 1 /\ 0 < lives (quiz_logic c1))
      \/
      questions_attempted (quiz_logic c1) = 0 /\ lives (quiz_logic c1) = MAX_LIVES /\
      loses_last_life x c = true)
     \/
     solved = false /\ feedback = "Wrong. One more attempt remaining." /\
     questions_attempted (quiz_logic c1) = questions_attempted (quiz_logic c) /\
     lives (quiz_logic c1) = lives (quiz_logic c)).
Proof.
  intros Hx.
  destruct c as [[sc qa ca ar lv df mq st] tl aid pd ni ce rg ck u].
  unfold loses_last_life. run_py. rewrite Hx. cbn.
  destruct (match ca with Some a => v =? a | None => false end).
  { eexists _, _, _. split; [reflexivity|]. cbn.
    split; [reflexivity|]. split; [reflexivity|]. split; [reflexivity|]. split; [reflexivity|].
    left. split; [reflexivity|].
    split; [apply (correct_feedback (if ar =? 2 then 10 else 5)); destruct (ar =? 2); auto|].
    left. split; [reflexivity | left; reflexivity]. }
  cbn. destruct (ar - 1 =? 0); cbn.
  2:{ eexists _, _, _. split; [reflexivity|]. cbn.
      split; [reflexivity|]. split; [reflexivity|]. split; [reflexivity|]. split; [reflexivity|].
      right. repeat split. }
  assert (Hfb : contains "Correct" ("Wrong! The answer was " ++ str_answer ca ++
                                    ". You lost a life.")
                || contains "Wrong!" ("Wrong! The answer was " ++ str_answer ca ++
                                      ". You lost a life.") = true).
  { apply orb_true_iff. right. reflexivity. }
  destruct (Z.leb_spec (lv - 1) 0); cbn.
  - eexists _, _, _. split; [reflexivity|]. cbn.
    split; [reflexivity|]. split; [reflexivity|]. split; [reflexivity|]. split; [reflexivity|].
    left. split; [reflexivity|]. split; [exact Hfb|]. right.
    split; [reflexivity|]. split; reflexivity.
  - eexists _, _, _. split; [reflexivity|]. cbn.
    split; [reflexivity|]. split; [reflexivity|]. split; [reflexivity|]. split; [reflexivity|].
    left. split; [reflexivity|]. split; [exact Hfb|]. left. split; [reflexivity|].
    right. split; [reflexivity | lia].
Qed.

Lemma submit_answer_effect (x : string) (c : Controller) :
  strip x <> "" ->
  exists c1,
    submit_answer x c = (c1, Ok tt) /\
    max_questions (quiz_logic c1) = max_questions (quiz_logic c) /\
    next_id c1 = S (next_id c) /\
    (questions_attempted (quiz_logic c1) = questions_attempted (quiz_logic c) /\
     lives (quiz_logic c1) = lives (quiz_logic c) /\
     after_id c1 = Some (next_id c) /\
     pending c1 = (next_id c, cb_update_timer_display) :: cancelled (after_id c) (pending c)
     \/
     after_id c1 = None /\
     pending c1 = (next_id c, cb_next_question) :: cancelled (after_id c) (pending c) /\
     (questions_attempted (quiz_logic c1) = questions_attempted (quiz_logic c) + 1 /\
      (lives (quiz_logic c1) = lives (quiz_logic c) \/
       lives (quiz_logic c1) = lives (quiz_logic c) - 1 /\ 0 < lives (quiz_logic c1))
      \/
      questions_attempted (quiz_logic c1) = 0 /\ lives (quiz_logic c1) = MAX_LIVES /\
      loses_last_life (strip x) c = true)).
Proof.
  intros Hne.
  destruct (PyText.int (strip x)) as [v|] eqn:Hv.
  2:{ rewrite (submit_answer_invalid x c Hne Hv). eexists. split; [reflexivity|].
      destruct c as [[sc qa ca ar lv df mq st] tl aid pd ni ce rg ck u]. cbn.
      split; [reflexivity|]. split; [reflexivity|]. left. repeat split. }
  destruct (check_answer_effect (strip x) v (stopped c) Hv)
    as (c1 & feedback & solved & Hck & Ha & Hp & Hn & Hm & Hcase).
  assert (Hstop : after_id (stopped c) = None /\
                  pending (stopped c) = cancelled (after_id c) (pending c) /\
                  next_id (stopped c) = next_id c /\ quiz_logic (stopped c) = quiz_logic c)
    by (destruct c; repeat split).
  destruct Hstop as (Sa & Sp & Sn & Sl). rewrite Sl in *.
  destruct Hcase as [(-> & Hfb & Hgame) | (-> & -> & Hq & Hl)].
  - rewrite (submit_answer_solved x c c1 feedback Hne Hck Hfb).
    exists (waiting cb_next_question c1). split; [reflexivity|].
    destruct c1 as [[sc1 qa1 ca1 ar1 lv1 df1 mq1 st1] tl1 aid1 pd1 ni1 ce1 rg1 ck1 u1].
    assert (Hlose : loses_last_life (strip x) (stopped c) = loses_last_life (strip x) c)
      by (destruct c; reflexivity).
    rewrite Hlose in Hgame.
    cbn in *. subst. split; [reflexivity|]. split; [reflexivity|]. right.
    split; [reflexivity|]. split; [reflexivity|]. exact Hgame.
  - rewrite (submit_answer_checks x c Hne), (PyFacts.run_bind_ok _ _ _ _ _ Hck).
    cbv beta iota.
    change (contains "Correct" "Wrong. One more attempt remaining."
            || contains "Wrong!" "Wrong. One more attempt remaining.") with false.
    change (contains "Invalid Input" "Wrong. One more attempt remaining.") with false.
    cbv iota. rewrite start_timer_run. eexists. split; [reflexivity|].
    destruct c1 as [[sc1 qa1 ca1 ar1 lv1 df1 mq1 st1] tl1 aid1 pd1 ni1 ce1 rg1 ck1 u1].
    cbn in *. subst. split; [reflexivity|]. split; [reflexivity|]. left. repeat split.
Qed.

Lemma submit_answer_ok (x : string) (c : Controller) :
  game_ok c -> game_ok (exec (submit_answer x) c).
Proof.
  intros (Hm & Hl & Hq & Hwf & Hw).
  destruct (String.eqb_spec (strip x) "") as [E|Hne].
  { assert (Hsame : exec (submit_answer x) c = c)
      by (unfold submit_answer, exec; rewrite E; reflexivity).
    rewrite Hsame. unfold game_ok. auto. }
  destruct (submit_answer_effect x c Hne) as (c1 & Hrun & Hm1 & Hn1 & Hcase).
  unfold exec. rewrite Hrun. cbn [fst]. unfold game_ok. rewrite Hm1, Hn1.
  split; [exact Hm|].
  pose proof (wf_cancel _ _ _ Hwf) as Hwf0.
  destruct Hcase as [(Hq1 & Hl1 & Ha1 & Hp1) | (Ha1 & Hp1 & Hgame)].
  - rewrite Hq1, Hl1, Ha1, Hp1.
    split; [exact Hl|]. split; [exact Hq|].
    split; [apply (wf_push_timer None); exact Hwf0|].
    intros H10. eapply waits_push; [exact Hwf0|]. eapply waits_cancel; [exact Hwf | auto].
  - rewrite Ha1, Hp1.
    assert (Hgo : 1 <= lives (quiz_logic c1) <= MAX_LIVES /\
                  0 <= questions_attempted (quiz_logic c1)).
    { unfold MAX_LIVES in *.
      destruct Hgame as [(Hq1 & [Hl1 | (Hl1 & Hpos)]) | (Hq1 & Hl1 & _)]; lia. }
    split; [apply Hgo|]. split; [apply Hgo|].
    split; [apply wf_push; exact Hwf0|].
    intros _. apply waits_pushed.
Qed.

(** Two states with the same queue, count of questions, lives and number of
    questions to a game. *)
Definition same_round (c c' : Controller) : Prop :=
  after_id c' = after_id c /\ pending c' = pending c /\ next_id c' = next_id c /\
  questions_attempted (quiz_logic c') = questions_attempted (quiz_logic c) /\
  lives (quiz_logic c') = lives (quiz_logic c) /\
  max_questions (quiz_logic c') = max_questions (quiz_logic c).

(** Methods that leave these alone, whether they return or raise. *)
Definition keeps_round {A} (m : M Controller A) : Prop :=
  forall c, same_round c (fst (m c)).

Lemma same_round_refl (c : Controller) : same_round c c.
Proof. repeat split. Qed.

Lemma same_round_trans (c c1 c2 : Controller) :
  same_round c c1 -> same_round c1 c2 -> same_round c c2.
Proof.
  unfold same_round. intros (A1 & A2 & A3 & A4 & A5 & A6) (B1 & B2 & B3 & B4 & B5 & B6).
  repeat split; congruence.
Qed.

Lemma keeps_round_bind {A B} (m : M Controller A) (k : A -> M Controller B) :
  keeps_round m -> (forall x, keeps_round (k x)) -> keeps_round (bind m k).
Proof.
  intros Hm Hk c. unfold bind. specialize (Hm c).
  destruct (m c) as [c1 [x|e]]; cbn [fst] in *; [|exact Hm].
  eapply same_round_trans; [exact Hm | apply Hk].
Qed.

Lemma keeps_round_ret {A} (x : A) : keeps_round (ret x).
Proof. intros c. apply same_round_refl. Qed.

Lemma keeps_round_raise {A} (e : Exn) : keeps_round (@raise Controller A e).
Proof. intros c. apply same_round_refl. Qed.

Lemma keeps_round_get_logic : keeps_round get_logic.
Proof. intros c. apply same_round_refl. Qed.

Lemma keeps_round_with_rng {A} (f : Rng -> Rng * Result A) : keeps_round (with_rng f).
Proof. intros c. unfold with_rng. destruct (f (rng c)). repeat split. Qed.

Lemma keeps_round_dict_get {V} (d : list (string * V)) (key : string) :
  keeps_round (dict_get d key).
Proof.
  induction d as [|[k v] d IH]; intros c; cbn; [apply same_round_refl|].
  destruct (String.eqb k key); [apply same_round_refl | apply IH].
Qed.

Lemma keeps_round_set_logic (f : MathQuizLogic -> MathQuizLogic) :
  (forall l, questions_attempted (f l) = questions_attempted l /\
             lives (f l) = lives l /\ max_questions (f l) = max_questions l) ->
  keeps_round (set_logic f).
Proof.
  intros H c. destruct (H (quiz_logic c)) as (H1 & H2 & H3). repeat split; assumption.
Qed.

Lemma keeps_round_generate_problem : keeps_round generate_problem.
Proof.
  unfold generate_problem, random_int, decide_operation.
  repeat first
    [ apply keeps_round_bind; [|intros]
    | apply keeps_round_ret | apply keeps_round_raise
    | apply keeps_round_set_logic; intros []; repeat split
    | apply keeps_round_get_logic | apply keeps_round_with_rng | apply keeps_round_dict_get
    | match goal with
      | |- keeps_round (match ?x with _ => _ end) => destruct x
      | |- keeps_round (let '(_, _) := ?x in _) => destruct x
      end
    | intros c; apply same_round_refl ].
Qed.

(** [next_question] shows the results when ten questions are done; with
    questions left it poses a problem and starts the countdown, or stops at
    the level it cannot find. *)
Lemma next_question_effect (c : Controller) :
  let c1 := exec next_question c in
  max_questions (quiz_logic c1) = max_questions (quiz_logic c) /\
  (max_questions (quiz_logic c) <= questions_attempted (quiz_logic c) ->
   questions_attempted (quiz_logic c1) = 0 /\ lives (quiz_logic c1) = MAX_LIVES /\
   after_id c1 = after_id c /\ pending c1 = pending c /\ next_id c1 = next_id c) /\
  (questions_attempted (quiz_logic c) < max_questions (quiz_logic c) ->
   questions_attempted (quiz_logic c1) = questions_attempted (quiz_logic c) /\
   lives (quiz_logic c1) = lives (quiz_logic c) /\
   (after_id c1 = after_id c /\ pending c1 = pending c /\ next_id c1 = next_id c
    \/
    after_id c1 = Some (next_id c) /\
    pending c1 = (next_id c, cb_update_timer_display) :: cancelled (after_id c) (pending c) /\
    next_id c1 = S (next_id c))).
Proof.
  intros c1. subst c1. unfold next_question, exec.
  rewrite (PyFacts.run_bind_ok _ _ c c (quiz_logic c) eq_refl).
  destruct (Z.leb_spec (max_questions (quiz_logic c)) (questions_attempted (quiz_logic c)))
    as [Hdone|Hleft].
  { destruct c as [[sc qa ca ar lv df mq st] tl aid pd ni ce rg ck u]. cbn in *.
    split; [reflexivity|]. split; [intros _; repeat split | intros; lia]. }
  unfold set_controls. rewrite PyFacts.run_bind_modify.
  set (c0 := mkController (quiz_logic c) (time_left c) (after_id c) (pending c) (next_id c)
                          true (rng c) (clock c) (ui c)).
  pose proof (keeps_round_generate_problem c0) as (G1 & G2 & G3 & G4 & G5 & G6).
  unfold bind. destruct (generate_problem c0) as [c2 [text|e]]; cbn [fst] in *.
  - rewrite start_timer_run. unfold timer_started.
    cbn [fst quiz_logic after_id pending next_id].
    rewrite G1, G2, G3, G4, G5, G6. subst c0. cbn.
    split; [reflexivity|]. split; [intros; lia|]. intros _.
    split; [reflexivity|]. split; [reflexivity|]. right. repeat split.
  - rewrite G1, G2, G3, G4, G5, G6. subst c0. cbn.
    split; [reflexivity|]. split; [intros; lia|]. intros _.
    split; [reflexivity|]. split; [reflexivity|]. left. repeat split.
Qed.

Lemma next_question_ok (c : Controller) :
  max_questions (quiz_logic c) = 10 ->
  1 <= lives (quiz_logic c) <= MAX_LIVES ->
  0 <= questions_attempted (quiz_logic c) ->
  queue_wf (after_id c) (pending c) (next_id c) ->
  game_ok (exec next_question c).
Proof.
  intros Hm Hl Hq Hwf.
  pose proof (next_question_effect c) as (Hm1 & Hdone & Hleft). cbv zeta in *.
  unfold game_ok. rewrite Hm1, Hm in *.
  split; [reflexivity|].
  destruct (Z.le_gt_cases 10 (questions_attempted (quiz_logic c))) as [H10|H10].
  - destruct (Hdone H10) as (Hq1 & Hl1 & Ha & Hp & Hn). rewrite Hq1, Hl1, Ha, Hp, Hn.
    unfold MAX_LIVES. split; [lia|]. split; [lia|]. split; [exact Hwf | intros; lia].
  - destruct (Hleft ltac:(lia)) as (Hq1 & Hl1 & Hqueue). rewrite Hq1, Hl1.
    split; [exact Hl|]. split; [exact Hq|].
    split; [|intros; lia].
    destruct Hqueue as [(Ha & Hp & Hn) | (Ha & Hp & Hn)]; rewrite Ha, Hp, Hn.
    + exact Hwf.
    + apply (wf_push_timer None), (wf_cancel _ _ _ Hwf).
Qed.

Lemma update_timer_display_ok (c : Controller) :
  game_ok c -> game_ok (exec update_timer_display c).
Proof.
  intros (Hm & Hl & Hq & Hwf & Hw). unfold exec.
  destruct (Z.le_gt_cases 0 (time_left c)) as [Ht|Ht].
  - rewrite (tick_run c Ht). destruct c as [lg tl aid pd ni ce rg ck u]. cbn in *.
    unfold game_ok. cbn.
    split; [exact Hm|]. split; [exact Hl|]. split; [exact Hq|].
    split; [apply (wf_push_timer aid); exact Hwf|].
    intros H10. eapply waits_push; [exact Hwf | auto].
  - rewrite (timeout_run c Ht).
    destruct c as [[sc qa ca ar lv df mq st] tl aid pd ni ce rg ck u]. cbn in *.
    unfold game_ok. cbn.
    split; [exact Hm|]. split; [exact Hl|]. split; [exact Hq|].
    split; [apply wf_push; exact Hwf|].
    intros _. apply waits_pushed.
Qed.

(** The state once the callback under [id] has left the queue. *)
Definition dequeued (id : nat) (c : Controller) : Controller :=
  mkController (quiz_logic c) (time_left c) (after_id c)
               (List.filter (fun p => negb (Nat.eqb (fst p) id)) (pending c))
               (next_id c) (controls_enabled c) (rng c) (clock c) (ui c).

Lemma fire_run (id : nat) (c : Controller) :
  exec (fire id) c =
    match waiting_under id (pending c) with
    | Some cb => exec (call cb) (dequeued id c)
    | None => c
    end.
Proof.
  unfold fire, exec. rewrite (PyFacts.run_bind_ok _ _ c c c eq_refl).
  destruct (waiting_under id (pending c)); reflexivity.
Qed.

Lemma fire_ok (id : nat) (c : Controller) : game_ok c -> game_ok (exec (fire id) c).
Proof.
  intros Hok. rewrite fire_run.
  destruct (waiting_under id (pending c)) as [cb|] eqn:Hcb; [|exact Hok].
  destruct Hok as (Hm & Hl & Hq & Hwf & Hw).
  destruct cb; cbn [call].
  - apply update_timer_display_ok. unfold game_ok, dequeued. cbn.
    split; [exact Hm|]. split; [exact Hl|]. split; [exact Hq|].
    split; [apply wf_dequeue; exact Hwf|].
    intros H10. apply waits_dequeue_timer; [exact Hcb | auto].
  - apply next_question_ok; unfold dequeued; cbn; try assumption.
    apply wf_dequeue; exact Hwf.
Qed.

(** The state in which [start_game] calls [next_question]. *)
Definition afresh (level : string) (c : Controller) : Controller :=
  mkController (mkLogic 0 0 (current_answer (quiz_logic c))
                        (attempts_remaining (quiz_logic c)) MAX_LIVES
                        (Some level) (max_questions (quiz_logic c))
                        (start_time (quiz_logic c)))
               QUESTION_TIME_LIMIT (after_id c) (pending c) (next_id c)
               (controls_enabled c) (rng c) (clock c) (ui c).

Definition showing (shown : list UiEvent) (c : Controller) : Controller :=
  mkController (quiz_logic c) (time_left c) (after_id c) (pending c) (next_id c)
               (controls_enabled c) (rng c) (clock c) shown.

(** [start_game] whatever the level: the game is reset, [next_question]
    runs, and the quiz frame is raised unless [next_question] has raised. *)
Lemma start_game_run_any (level : string) (c : Controller) :
  exists shown,
    exec (start_game level) c = showing shown (exec next_question (afresh level c)) /\
    (shown = ui (exec next_question (afresh level c)) \/
     shown = tkraise "QuizFrame" :: ui (exec next_question (afresh level c))).
Proof.
  unfold start_game, set_difficulty, set_logic, exec, afresh, showing.
  rewrite PyFacts.run_bind_modify. unfold bind at 1. rewrite initialize_quiz_run.
  destruct c as [[sc qa ca ar lv df mq st] tl aid pd ni ce rg ck u].
  cbn -[next_question].
  match goal with |- context [next_question ?s] => destruct (next_question s) as [c1 [[]|e]] end;
    cbn [fst]; destruct c1.
  - eexists. split; [reflexivity|]. right. reflexivity.
  - eexists. split; [reflexivity|]. left. reflexivity.
Qed.

Lemma start_game_ok (level : string) (c : Controller) :
  game_ok c ->
  game_ok (exec (start_game level) c) /\
  results_shown (exec (start_game level) c) = results_shown c /\
  questions_attempted (quiz_logic (exec (start_game level) c)) < 10.
Proof.
  intros (Hm & Hl & Hq & Hwf & Hw).
  destruct (start_game_run_any level c) as (shown & Hrun & Hshown).
  set (c0 := afresh level c) in *.
  assert (Hok : game_ok (exec next_question c0)).
  { apply next_question_ok; subst c0; cbn; unfold MAX_LIVES; try assumption; lia. }
  pose proof (next_question_effect c0) as (_ & _ & Hleft). cbv zeta in Hleft.
  destruct (Hleft ltac:(subst c0; cbn; lia)) as (Hq1 & _).
  pose proof (next_question_shows_results c0) as Hres.
  replace (max_questions (quiz_logic c0) <=? questions_attempted (quiz_logic c0)) with false
    in Hres by (subst c0; cbn; symmetry; apply Z.leb_gt; lia).
  rewrite Hrun. split; [|split].
  - exact Hok.
  - unfold results_shown in *. cbn [ui showing].
    destruct Hshown as [-> | ->]; cbn [List.filter is_quiz_complete]; rewrite Hres;
      subst c0; reflexivity.
  - cbn [quiz_logic showing]. rewrite Hq1. subst c0. cbn. lia.
Qed.


(** ** The runs of the event loop *)

(** The events that show the results: the answer that takes the last
    life, and a [next_question] that is due when the questions of the game
    are done. *)
Definition finishing (c : Controller) (e : Event) : bool :=
  match e with
  | Submit entry => negb (String.eqb (strip entry) "") && loses_last_life (strip entry) c
  | StartGame _ => false
  | ShowFrame _ => false
  | Due id =>
      match waiting_under id (pending c) with
      | Some cb_next_question =>
          max_questions (quiz_logic c) <=? questions_attempted (quiz_logic c)
      | _ => false
      end
  end.

(** An event whose entry, if it has one, is an ASCII text short enough for
    [int]. *)
Definition plain_entry (e : Event) : bool :=
  match e with
  | Submit entry => plain entry
  | _ => true
  end.

Lemma opened_ok (r : Rng) (now : Z) : game_ok (opened r now).
Proof.
  unfold game_ok, opened. cbn. unfold MAX_LIVES.
  split; [reflexivity|]. split; [lia|]. split; [lia|]. split; [|intros; lia].
  split; [intros id cb H; discriminate | intros id H; discriminate].
Qed.

Lemma quiz_handle_ok (c : Controller) (e : Event) : game_ok c -> game_ok (handle c e).
Proof.
  intros Hok. destruct e as [entry | level | frame_name | id]; cbn [handle].
  - apply submit_answer_ok, Hok.
  - apply start_game_ok, Hok.
  - destruct c. exact Hok.
  - apply fire_ok, Hok.
Qed.

Lemma quiz_run_ok (events : list Event) (c : Controller) :
  game_ok c -> game_ok (run c events).
Proof.
  revert c. induction events as [|e events IH]; intros c Hok; [exact Hok|].
  cbn. apply IH, quiz_handle_ok, Hok.
Qed.

Lemma quiz_handle_shows_results (c : Controller) (e : Event) :
  game_ok c ->
  results_shown (handle c e) = if finishing c e then S (results_shown c) else results_shown c.
Proof.
  intros Hok. destruct e as [entry | level | frame_name | id]; cbn [handle finishing].
  - apply submit_answer_shows_results.
  - apply start_game_ok, Hok.
  - destruct c. reflexivity.
  - rewrite fire_run. destruct (waiting_under id (pending c)) as [[]|]; cbn [call].
    + rewrite update_timer_display_shows_no_results. reflexivity.
    + rewrite next_question_shows_results. reflexivity.
    + reflexivity.
Qed.

Lemma waiting_under_push (id ni : nat) (cb : Callback) (pd : list (nat * Callback)) :
  (id < ni)%nat -> waiting_under id ((ni, cb) :: pd) = waiting_under id pd.
Proof. intros H. cbn [waiting_under]. destruct (Nat.eqb_spec ni id); [lia | reflexivity]. Qed.

Lemma waiting_under_cancelled (id : nat) (aid : option nat) (pd : list (nat * Callback)) :
  aid <> Some id -> waiting_under id (cancelled aid pd) = waiting_under id pd.
Proof.
  intros H. destruct aid as [id0|]; cbn [cancelled]; [|reflexivity].
  rewrite waiting_under_filter. destruct (Nat.eqb_spec id id0); [congruence | reflexivity].
Qed.

(** A [next_question] that waits stays in the queue until it is due: the
    handlers cancel the timer only. *)
Lemma quiz_handle_keeps_waiting (c : Controller) (e : Event) (id : nat) :
  game_ok c ->
  waiting_under id (pending c) = Some cb_next_question ->
  e <> Due id ->
  waiting_under id (pending (handle c e)) = Some cb_next_question.
Proof.
  intros (Hm & Hl & Hq & (W1 & W2) & Hw) Hid He.
  assert (Hlt : (id < next_id c)%nat) by exact (W1 _ _ Hid).
  assert (Haid : after_id c <> Some id).
  { intros E. destruct (W2 id E) as (_ & Hno). contradiction. }
  destruct e as [entry | level | frame_name | id0]; cbn [handle]; [| |destruct c; exact Hid|].
  - destruct (String.eqb_spec (strip entry) "") as [E|Hne].
    { replace (exec (submit_answer entry) c) with c; [exact Hid|].
      unfold submit_answer, exec. rewrite E. reflexivity. }
    destruct (submit_answer_effect entry c Hne) as (c1 & Hrun & _ & _ & Hcase).
    unfold exec. rewrite Hrun. cbn [fst].
    destruct Hcase as [(_ & _ & _ & ->) | (_ & -> & _)];
      rewrite waiting_under_push, waiting_under_cancelled by assumption; exact Hid.
  - destruct (start_game_run_any level c) as (shown & -> & _). cbn [pending showing].
    pose proof (next_question_effect (afresh level c)) as (_ & _ & Hleft). cbv zeta in Hleft.
    destruct (Hleft ltac:(cbn; lia)) as (_ & _ & [(_ & -> & _) | (_ & -> & _)]);
      cbn [afresh pending after_id next_id]; [exact Hid|].
    rewrite waiting_under_push, waiting_under_cancelled by assumption. exact Hid.
  - assert (Hne : id <> id0) by congruence.
    assert (Hdq : waiting_under id (pending (dequeued id0 c)) = Some cb_next_question).
    { unfold dequeued. cbn [pending]. rewrite waiting_under_filter.
      destruct (Nat.eqb_spec id id0); [contradiction | exact Hid]. }
    rewrite fire_run. destruct (waiting_under id0 (pending c)) as [[]|]; cbn [call];
      [| |exact Hid].
    + unfold exec. destruct (Z.le_gt_cases 0 (time_left (dequeued id0 c))) as [Ht|Ht].
      * rewrite (tick_run _ Ht). cbn [fst ticked pending].
        rewrite waiting_under_push by exact Hlt. exact Hdq.
      * rewrite (timeout_run _ Ht). cbn [fst timed_out pending].
        rewrite waiting_under_push by exact Hlt. exact Hdq.
    + pose proof (next_question_effect (dequeued id0 c)) as (_ & Hdone & Hleft).
      cbv zeta in Hdone, Hleft.
      destruct (Z.le_gt_cases (max_questions (quiz_logic (dequeued id0 c)))
                              (questions_attempted (quiz_logic (dequeued id0 c)))) as [H|H].
      * destruct (Hdone H) as (_ & _ & _ & -> & _). exact Hdq.
      * destruct (Hleft H) as (_ & _ & [(_ & -> & _) | (_ & -> & _)]); [exact Hdq|].
        cbn [dequeued after_id next_id].
        rewrite waiting_under_push, waiting_under_cancelled by assumption. exact Hdq.
Qed.

(** Once ten questions are done the count stays at ten or more until the
    results are shown or a new game is started. *)
Lemma quiz_handle_keeps_count (c : Controller) (e : Event) :
  game_ok c ->
  10 <= questions_attempted (quiz_logic c) ->
  finishing c e = false ->
  (forall level, e <> StartGame level) ->
  10 <= questions_attempted (quiz_logic (handle c e)).
Proof.
  intros (Hm & Hl & Hq & Hwf & Hw) H10 Hfin Hstart.
  destruct e as [entry | level | frame_name | id]; cbn [handle finishing] in *;
    [| |destruct c; exact H10|].
  - destruct (String.eqb_spec (strip entry) "") as [E|Hne].
    { replace (exec (submit_answer entry) c) with c; [exact H10|].
      unfold submit_answer, exec. rewrite E. reflexivity. }
    cbn [negb andb] in Hfin.
    destruct (submit_answer_effect entry c Hne) as (c1 & Hrun & _ & _ & Hcase).
    unfold exec. rewrite Hrun. cbn [fst].
    destruct Hcase as [(-> & _) | (_ & _ & [(-> & _) | (_ & _ & Hlose)])];
      [lia | lia | congruence].
  - exfalso. exact (Hstart level eq_refl).
  - rewrite fire_run. destruct (waiting_under id (pending c)) as [[]|]; cbn [call];
      [| |exact H10].
    + unfold exec. destruct (Z.le_gt_cases 0 (time_left (dequeued id c))) as [Ht|Ht].
      * rewrite (tick_run _ Ht). exact H10.
      * rewrite (timeout_run _ Ht). destruct c as [[] ? ? ? ? ? ? ? ?]. exact H10.
    + apply Z.leb_gt in Hfin. lia.
Qed.


(** A run that neither starts a new game nor takes the callback [id]. *)
Definition goes_on (id : nat) (e : Event) : Prop :=
  e <> Due id /\ forall level, e <> StartGame level.

(** Once the questions of a game are done, the [next_question] that waits
    shows the results when it is due at last, unless they have been shown in
    the meantime. *)
Lemma done_finishes (events : list Event) (c : Controller) (id : nat) (shown : nat) :
  game_ok c ->
  waiting_under id (pending c) = Some cb_next_question ->
  (shown <= results_shown c)%nat ->
  (shown < results_shown c)%nat \/ 10 <= questions_attempted (quiz_logic c) ->
  Forall (goes_on id) events ->
  let c' := run c events in
  waiting_under id (pending c') = Some cb_next_question /\
  ((shown < results_shown c')%nat \/
   results_shown (handle c' (Due id)) = S (results_shown c')).
Proof.
  revert c. induction events as [|e events IH]; intros c Hok Hid Hle Hcase Hall c'.
  - subst c'. unfold run. cbn [fold_left]. split; [exact Hid|].
    destruct Hcase as [Hlt|H10]; [left; exact Hlt | right].
    pose proof Hok as (Hm & _). rewrite (quiz_handle_shows_results c (Due id) Hok).
    cbn [finishing]. rewrite Hid, Hm.
    destruct (Z.leb_spec 10 (questions_attempted (quiz_logic c))); [reflexivity | lia].
  - subst c'. unfold run. cbn [fold_left].
    apply List.Forall_cons_iff in Hall as ((He & Hstart) & Hall).
    pose proof (quiz_handle_shows_results c e Hok) as Hres.
    apply (IH (handle c e)).
    + apply quiz_handle_ok, Hok.
    + apply quiz_handle_keeps_waiting; assumption.
    + rewrite Hres. destruct (finishing c e); lia.
    + destruct Hcase as [Hlt|H10].
      * left. rewrite Hres. destruct (finishing c e); lia.
      * destruct (finishing c e) eqn:Hfin.
        -- left. rewrite Hres. lia.
        -- right. apply quiz_handle_keeps_count; assumption.
    + exact Hall.
Qed.

(** C6, amended.  A main.py quiz started by [start_quiz] is on the results
    page exactly when the lives are at 0, or the ten questions are done, or
    the player has confirmed Quit Game - which may be with lives left and
    fewer than ten questions done.  In quiz.py, after any run of the event
    loop from the opening of the window, with ASCII entries: the lives are
    between 1 and 5; the next event shows the results exactly when it is the
    answer that takes the last life or a [next_question] that is due with the
    ten questions done, so that a time-out never shows them; and when the ten
    questions are done a [next_question] waits in the queue, stays there
    whatever happens until it is due, and then shows the results, unless they
    have been shown in the meantime or a new game has been started. *)
Theorem quiz_finishes_when :
  (forall (level : string) (lo hi : Z) (a0 : Main.App) (events : list Main.Event),
     In (level, (lo, hi)) Main.DIFFICULTY_RANGES ->
     let a := Main.run (exec (Main.start_quiz level) a0) events in
     MainFacts.on_results a <->
     Main.lives a = 0 \/ Main.question_index a = Main.MAX_QUESTIONS \/
     In (Main.QuitGame true) events) /\
  (forall (r : Rng) (now : Z) (events : list Event),
     forallb plain_entry events = true ->
     let c := run (opened r now) events in
     1 <= lives (quiz_logic c) <= MAX_LIVES /\
     (forall e, plain_entry e = true ->
        results_shown (handle c e) =
          if finishing c e then S (results_shown c) else results_shown c) /\
     (max_questions (quiz_logic c) <= questions_attempted (quiz_logic c) ->
        (exists id, waiting_under id (pending c) = Some cb_next_question) /\
        (forall id later,
           waiting_under id (pending c) = Some cb_next_question ->
           forallb plain_entry later = true -> Forall (goes_on id) later ->
           let c' := run c later in
           waiting_under id (pending c') = Some cb_next_question /\
           ((results_shown c < results_shown c')%nat \/
            results_shown (handle c' (Due id)) = S (results_shown c'))))).
Proof.
  split; [exact MainFacts.main_quiz_finishes|].
  intros r now events _ c.
  assert (Hok : game_ok c) by apply quiz_run_ok, opened_ok.
  pose proof Hok as (Hm & Hl & Hq & Hwf & Hw).
  split; [exact Hl|].
  split; [intros e _; apply quiz_handle_shows_results, Hok|].
  rewrite Hm. intros H10.
  split; [exact (Hw H10)|].
  intros id later Hid _ Hlater.
  apply done_finishes; [exact Hok | exact Hid | lia | right; exact H10 | exact Hlater].
Qed.

(** A Beginner game on the tape of zeros, where every problem is [1 + 1]:
    ten right answers, each followed by the [next_question] it scheduled but
    the last. *)
Definition ten_right : list Event :=
  [StartGame "Beginner"; Submit "2"; Due 1; Submit "2"; Due 3; Submit "2"; Due 5;
   Submit "2"; Due 7; Submit "2"; Due 9; Submit "2"; Due 11; Submit "2"; Due 13;
   Submit "2"; Due 15; Submit "2"; Due 17; Submit "2"].

Lemma quiz_finishes_when_quit_or_done :
  MainFacts.on_results (Main.run QuizVariants.first_question [Main.QuitGame true]) /\
  (let c := run (opened (mkRng tape0 0) 0) ten_right in
   questions_attempted (quiz_logic c) = 10 /\
   results_shown c = 0%nat /\
   waiting_under 19 (pending c) = Some cb_next_question /\
   results_shown (handle (run c [Submit "x"; ShowFrame "SettingsFrame"]) (Due 19)) = 1%nat).
Proof.
  split.
  - apply (proj1 quiz_finishes_when "Beginner" 1 9
                 (Main.initial_app (mkRng QuizVariants.tape_1_minus_9 0))
                 [Main.QuitGame true] (or_introl eq_refl)).
    right. right. left. reflexivity.
  - cbv zeta.
    destruct (proj2 quiz_finishes_when (mkRng tape0 0) 0 ten_right eq_refl)
      as (_ & _ & Hdone).
    destruct (Hdone ltac:(vm_compute; discriminate)) as (_ & Hdue).
    split; [vm_compute; reflexivity|]. split; [vm_compute; reflexivity|].
    split; [vm_compute; reflexivity|].
    destruct (Hdue 19%nat [Submit "x"; ShowFrame "SettingsFrame"]
                ltac:(vm_compute; reflexivity) eq_refl) as (_ & [Hlt | Hshown]).
    + repeat (apply List.Forall_cons; [split; [discriminate | intros level; discriminate]|]).
      apply List.Forall_nil.
    + exfalso. revert Hlt. vm_compute. lia.
    + rewrite Hshown. vm_compute. reflexivity.
Defined.

End QuizRunFacts.

(* ===================================================================== *)
(** * Facts: a whole game of main.py *)
(* ===================================================================== *)

Module MainGameFacts.
Import PyText Py Main MainFacts.

(** ** The score, the lives and the questions passed *)

(** The questions passed with points are those passed without a life lost;
    each gave 5 or 10 points.  The results page shows the score as it is. *)
Definition tally (a : App) : Prop :=
  let passed := question_index a - (MAX_LIVES - lives a) in
  lives a <= MAX_LIVES /\ 0 <= passed /\
  5 * passed <= score a <= 10 * passed /\
  forall shown_score shown_max rank,
    current_page a = Some (ResultsPage shown_score shown_max rank) ->
    shown_score = score a /\ shown_max = 100.

Lemma tally_display_problem (a : App) :
  current_page a = Some QuizPage -> tally a -> tally (exec display_problem a).
Proof.
  intros Hpg (H1 & H2 & H3 & _).
  pose proof (display_problem_fields a) as (Hs & Hl & Hi & _).
  pose proof (display_problem_page a) as Hp.
  unfold tally. rewrite Hs, Hl, Hi.
  split; [exact H1|]. split; [exact H2|]. split; [exact H3|].
  intros sc mx rank Hres. rewrite Hp in Hres.
  destruct ((MAX_QUESTIONS <=? question_index a) || (lives a <=? 0)).
  - injection Hres as <- <- _. split; reflexivity.
  - congruence.
Qed.

Lemma handle_tally (a : App) (seen : list Event) (e : Event) :
  game_inv a seen -> tally a -> tally (handle a e).
Proof.
  intros (Hlen & Hidx & Hlv & [(Hpg & Hi & Hl & Hq) | (Hres & Hwhy)]) Ht.
  2:{ destruct Hres as (s1 & s2 & s3 & Hpg). unfold handle. rewrite Hpg. exact Ht. }
  unfold handle. rewrite Hpg. destruct e as [entry | [|]].
  - destruct (PyText.int entry) as [v|] eqn:Hv.
    + assert (Hq0 : exists q, quiz_data a !! Z.to_nat (question_index a) = Some q).
      { apply lookup_lt_is_Some. unfold MAX_QUESTIONS in *. lia. }
      destruct Hq0 as (q & Hq0).
      rewrite (check_answer_parsed a entry v q Hv ltac:(lia) Hq0).
      unfold after_answer. destruct Ht as (H1 & H2 & H3 & H4).
      destruct (v =? answer q).
      * apply tally_display_problem; [destruct a; exact Hpg|].
        destruct a as [sc lv df qd qi pg rg dl]. unfold tally in *. cbn in *.
        unfold FIRST_ATTEMPT_POINTS, SECOND_ATTEMPT_POINTS.
        split; [lia|]. split; [lia|]. split; [destruct (attempts q =? 1); lia|].
        intros ? ? ? E. congruence.
      * destruct (2 <? attempts q + 1).
        -- apply tally_display_problem; [destruct a; exact Hpg|].
           destruct a as [sc lv df qd qi pg rg dl]. unfold tally in *. cbn in *.
           unfold MAX_LIVES in *.
           split; [lia|]. split; [lia|]. split; [lia|].
           intros ? ? ? E. congruence.
        -- destruct a as [sc lv df qd qi pg rg dl]. unfold tally in *. cbn in *.
           split; [lia|]. split; [lia|]. split; [lia|]. exact H4.
    + rewrite (check_answer_unparsed a entry Hv).
      destruct a as [sc lv df qd qi pg rg dl]. exact Ht.
  - destruct Ht as (H1 & H2 & H3 & H4).
    destruct a as [sc lv df qd qi pg rg dl]. unfold tally in *. cbn in *.
    split; [lia|]. split; [lia|]. split; [lia|].
    intros ? ? ? E. injection E as <- <- _. split; reflexivity.
  - destruct a as [sc lv df qd qi pg rg dl]. exact Ht.
Qed.

Lemma run_tally (events seen : list Event) (a : App) :
  game_inv a seen -> tally a -> tally (run a events).
Proof.
  revert a seen. induction events as [|e events IH]; intros a seen Hg Ht; [exact Ht|].
  cbn. apply (IH _ (seen ++ [e])%list); [apply handle_inv, Hg | eapply handle_tally; eauto].
Qed.

Lemma start_quiz_game_inv (level : string) (lo hi : Z) (a0 : App) :
  In (level, (lo, hi)) DIFFICULTY_RANGES -> game_inv (exec (start_quiz level) a0) [].
Proof.
  intros Hin.
  pose proof (start_quiz_run level lo hi a0 Hin) as (Hlen & _ & _ & Hlv & Hidx & Hpg).
  unfold game_inv. rewrite Hlv, Hidx. unfold MAX_LIVES, MAX_QUESTIONS.
  split; [assumption|]. split; [lia|]. split; [lia|]. left.
  split; [assumption|]. split; [lia|]. split; [lia|]. intros [].
Qed.

Lemma start_quiz_tally (level : string) (lo hi : Z) (a0 : App) :
  In (level, (lo, hi)) DIFFICULTY_RANGES -> tally (exec (start_quiz level) a0).
Proof.
  intros Hin.
  pose proof (start_quiz_run level lo hi a0 Hin) as (_ & _ & Hsc & Hlv & Hidx & Hpg).
  unfold tally. rewrite Hsc, Hlv, Hidx, Hpg. unfold MAX_LIVES.
  split; [lia|]. split; [lia|]. split; [lia|]. intros ? ? ? E. discriminate.
Qed.

(** X27.  The score of a game, at any moment of it and on the results page.
    Whatever the player does after [start_quiz], each question left behind
    has either cost a life or given 5 or 10 points: with [failed] the lives
    lost and [passed] the other questions left behind, the score is between
    5 and 10 times [passed].  So the score is at most 100, a game that ends
    out of lives ends with 50 at most, and the results page shows the very
    score, out of 100. *)
Theorem main_score_is_bounded (level : string) (lo hi : Z) (a0 : App) (events : list Event) :
  In (level, (lo, hi)) DIFFICULTY_RANGES ->
  let a := run (exec (start_quiz level) a0) events in
  let failed := MAX_LIVES - lives a in
  let passed := question_index a - failed in
  0 <= failed <= MAX_LIVES /\ 0 <= passed /\ passed + failed <= MAX_QUESTIONS /\
  5 * passed <= score a <= 10 * passed /\
  score a <= 100 /\
  (lives a = 0 -> score a <= 50) /\
  (forall shown_score shown_max rank,
     current_page a = Some (ResultsPage shown_score shown_max rank) ->
     shown_score = score a /\ shown_max = 100).
Proof.
  intros Hin a failed passed.
  pose proof (start_quiz_game_inv level lo hi a0 Hin) as Hg.
  pose proof (start_quiz_tally level lo hi a0 Hin) as Ht.
  pose proof (run_tally events [] _ Hg Ht) as (H1 & H2 & H3 & H4).
  pose proof (run_inv events [] _ Hg) as (_ & Hi & Hl & _).
  fold a in H1, H2, H3, H4, Hi, Hl. subst passed failed.
  unfold MAX_LIVES, MAX_QUESTIONS in *.
  split; [lia|]. split; [lia|]. split; [lia|]. split; [lia|]. split; [lia|].
  split; [intros; lia | exact H4].
Qed.

Lemma main_score_is_bounded_three_answers :
  let a := run (exec (start_quiz "Beginner") (initial_app (mkRng (fun _ => 0) 0)))
               [Submit "2"; Submit "0"; Submit "1"] in
  (score a = 10 /\ question_index a = 2 /\ lives a = 4) /\
  5 * (question_index a - (MAX_LIVES - lives a)) <= score a
    <= 10 * (question_index a - (MAX_LIVES - lives a)).
Proof.
  cbv zeta. split; [split; [|split]; vm_compute; reflexivity|].
  exact (proj1 (proj2 (proj2 (proj2
           (main_score_is_bounded "Beginner" 1 9 (initial_app (mkRng (fun _ => 0) 0))
              [Submit "2"; Submit "0"; Submit "1"] (or_introl eq_refl)))))).
Defined.

(** ** How long a game lasts *)

(** An entry that [int] accepts. *)
Definition is_answer (e : Event) : bool :=
  match e with
  | Submit entry => match PyText.int entry with Some _ => true | None => false end
  | QuitGame _ => false
  end.

Definition answers (events : list Event) : Z :=
  Z.of_nat (length (List.filter is_answer events)).

Lemma answers_snoc (seen : list Event) (e : Event) :
  answers (seen ++ [e]) = answers seen + (if is_answer e then 1 else 0).
Proof.
  unfold answers. rewrite List.filter_app, length_app. cbn [List.filter].
  destruct (is_answer e); cbn [length]; lia.
Qed.

(** What the answers given so far have bought: every question left behind
    took one answer, and a second one if it cost a life; on the quiz page the
    question on show is at its first or second attempt, the questions after
    it are at their first, and the answers still to come are at most two a
    question. *)
Definition progress (a : App) (seen : list Event) : Prop :=
  question_index a + (MAX_LIVES - lives a) <= answers seen /\
  (current_page a = Some QuizPage ->
   exists q, quiz_data a !! Z.to_nat (question_index a) = Some q /\
             (attempts q = 1 \/ attempts q = 2) /\
             question_index a + (MAX_LIVES - lives a) + (attempts q - 1) <= answers seen /\
             answers seen + 2 * (MAX_QUESTIONS - question_index a) - (attempts q - 1) <= 20 /\
             forall j q', (Z.to_nat (question_index a) < j)%nat ->
                          quiz_data a !! j = Some q' -> attempts q' = 1).

Lemma progress_display_problem (a : App) (seen : list Event) (n : Z) :
  length (quiz_data a) = 10%nat ->
  0 <= question_index a <= MAX_QUESTIONS ->
  question_index a + (MAX_LIVES - lives a) <= n ->
  n + 2 * (MAX_QUESTIONS - question_index a) <= 20 ->
  (forall j q', (Z.to_nat (question_index a) <= j)%nat ->
                quiz_data a !! j = Some q' -> attempts q' = 1) ->
  answers seen = n ->
  progress (exec display_problem a) seen.
Proof.
  intros Hlen Hidx Hlow Hup Hfresh Hn.
  pose proof (display_problem_fields a) as (Hs & Hl & Hi & Hd & _).
  pose proof (display_problem_page a) as Hp.
  unfold progress. rewrite Hl, Hi, Hd, Hp, Hn.
  split; [exact Hlow|].
  destruct (Z.leb_spec MAX_QUESTIONS (question_index a)) as [Hdone|Hleft]; cbn [orb].
  { intros E. discriminate. }
  destruct (lives a <=? 0); [intros E; discriminate|].
  intros _.
  assert (Hq : exists q, quiz_data a !! Z.to_nat (question_index a) = Some q).
  { apply lookup_lt_is_Some. unfold MAX_QUESTIONS in *. lia. }
  destruct Hq as (q & Hq). exists q.
  assert (Hatt : attempts q = 1) by (eapply Hfresh; [|exact Hq]; lia).
  split; [exact Hq|]. split; [left; exact Hatt|]. rewrite Hatt.
  split; [lia|]. split; [lia|].
  intros j q' Hj Hq'. eapply Hfresh; [|exact Hq']. lia.
Qed.

Lemma handle_progress (a : App) (seen : list Event) (e : Event) :
  game_inv a seen -> progress a seen -> progress (handle a e) (seen ++ [e]).
Proof.
  intros (Hlen & Hidx & Hlv & [(Hpg & Hi & Hl & Hq) | (Hres & Hwhy)]) (Hlow & Hquiz).
  2:{ destruct Hres as (s1 & s2 & s3 & Hpg). unfold handle. rewrite Hpg.
      unfold progress. rewrite Hpg, answers_snoc.
      split; [destruct (is_answer e); lia | intros E; discriminate]. }
  destruct (Hquiz Hpg) as (q & Hq0 & Hatt & Hlow' & Hup & Hfresh).
  unfold handle. rewrite Hpg. destruct e as [entry | [|]].
  - destruct (PyText.int entry) as [v|] eqn:Hv.
    + rewrite (check_answer_parsed a entry v q Hv ltac:(lia) Hq0).
      assert (Hans : answers (seen ++ [Submit entry]) = answers seen + 1).
      { rewrite answers_snoc. cbn [is_answer]. rewrite Hv. reflexivity. }
      unfold after_answer.
      destruct (v =? answer q).
      * apply (progress_display_problem _ _ (answers seen + 1));
          destruct a as [sc lv df qd qi pg rg dl]; cbn in *; try assumption;
          unfold MAX_QUESTIONS, MAX_LIVES in *; try lia.
        intros j q' Hj Hq'. apply (Hfresh j q'); [lia | exact Hq'].
      * assert (Hbump : forall j q', (Z.to_nat (question_index a) < j)%nat ->
                  alter bump_attempts (Z.to_nat (question_index a)) (quiz_data a) !! j
                  = Some q' -> attempts q' = 1).
        { intros j q' Hj Hq'. rewrite list_lookup_alter_ne in Hq' by lia.
          exact (Hfresh j q' Hj Hq'). }
        destruct (Z.ltb_spec 2 (attempts q + 1)) as [Hlast|Hfirst].
        -- apply (progress_display_problem _ _ (answers seen + 1));
             destruct a as [sc lv df qd qi pg rg dl]; cbn in *;
             rewrite ?length_alter; try assumption;
             unfold MAX_QUESTIONS, MAX_LIVES in *; try lia.
           intros j q' Hj Hq'. apply (Hbump j q'); [lia | exact Hq'].
        -- assert (Hone : attempts q = 1) by lia.
           destruct a as [sc lv df qd qi pg rg dl]; cbn in *.
           unfold progress; cbn. rewrite Hans. split; [lia|]. intros _.
           exists (bump_attempts q).
           split; [rewrite list_lookup_alter_eq, Hq0; reflexivity|].
           cbn [bump_attempts attempts]. rewrite Hone.
           split; [right; reflexivity|]. split; [lia|]. split; [lia | exact Hbump].
    + rewrite (check_answer_unparsed a entry Hv).
      assert (Hans : answers (seen ++ [Submit entry]) = answers seen).
      { rewrite answers_snoc. cbn [is_answer]. rewrite Hv. lia. }
      destruct a as [sc lv df qd qi pg rg dl]; cbn in *.
      unfold progress; cbn. rewrite Hans. split; [lia|]. intros _.
      exists q. auto.
  - assert (Hans : answers (seen ++ [QuitGame true]) = answers seen).
    { rewrite answers_snoc. cbn [is_answer]. lia. }
    destruct a as [sc lv df qd qi pg rg dl]; cbn in *.
    unfold progress; cbn. rewrite Hans. split; [lia | intros E; discriminate].
  - assert (Hans : answers (seen ++ [QuitGame false]) = answers seen).
    { rewrite answers_snoc. cbn [is_answer]. lia. }
    destruct a as [sc lv df qd qi pg rg dl]; cbn in *.
    unfold progress; cbn. rewrite Hans. split; [lia|]. intros _.
    exists q. auto.
Qed.

Lemma run_progress (events seen : list Event) (a : App) :
  game_inv a seen -> progress a seen ->
  game_inv (run a events) (seen ++ events) /\ progress (run a events) (seen ++ events).
Proof.
  revert a seen. induction events as [|e events IH]; intros a seen Hg Hp.
  - rewrite app_nil_r. split; assumption.
  - cbn. replace (seen ++ e :: events)%list with ((seen ++ [e]) ++ events)%list
      by (rewrite <- app_assoc; reflexivity).
    apply IH; [apply handle_inv, Hg | apply handle_progress; assumption].
Qed.

(** An event whose entry, if it has one, is an ASCII text short enough for
    [int]. *)
Definition plain_event (e : Event) : bool :=
  match e with
  | Submit entry => plain entry
  | QuitGame _ => true
  end.

(** X28.  A game takes between ten and twenty answers.  After [start_quiz],
    with ASCII entries, once twenty entries that are integers have been
    submitted the results page is on, whatever else was typed or clicked in
    between; and a game that was not quit is not over before ten such
    entries. *)
Theorem main_quiz_takes_ten_to_twenty_answers (level : string) (lo hi : Z) (a0 : App)
        (events : list Event) :
  In (level, (lo, hi)) DIFFICULTY_RANGES ->
  forallb plain_event events = true ->
  let a := run (exec (start_quiz level) a0) events in
  (20 <= answers events -> on_results a) /\
  (on_results a -> ~ In (QuitGame true) events -> 10 <= answers events).
Proof.
  intros Hin _ a.
  pose proof (start_quiz_game_inv level lo hi a0 Hin) as Hg.
  pose proof (start_quiz_run level lo hi a0 Hin) as (Hlen & Hall & Hsc & Hlv & Hidx & Hpg).
  assert (Hp : progress (exec (start_quiz level) a0) []).
  { unfold progress. rewrite Hlv, Hidx. unfold answers, MAX_LIVES, MAX_QUESTIONS. cbn.
    split; [lia|]. intros _.
    assert (Hq : exists q, quiz_data (exec (start_quiz level) a0) !! 0%nat = Some q).
    { apply lookup_lt_is_Some. lia. }
    destruct Hq as (q & Hq).
    assert (Hone : forall j q', quiz_data (exec (start_quiz level) a0) !! j = Some q' ->
                                attempts q' = 1).
    { intros j q' Hq'.
      destruct (Forall_lookup_1 _ _ _ _ Hall Hq') as (_ & _ & _ & _ & _ & _ & _ & H).
      exact H. }
    exists q. split; [exact Hq|]. rewrite (Hone _ _ Hq).
    split; [left; reflexivity|]. split; [lia|]. split; [lia|]. intros j q' _. apply Hone. }
  destruct (run_progress events [] _ Hg Hp) as (Hg' & Hlow & Hquiz).
  pose proof (run_tally events [] _ Hg (start_quiz_tally level lo hi a0 Hin))
    as (Hfive & Hpassed & _).
  cbn [app] in Hg', Hlow, Hquiz. fold a in Hg', Hlow, Hquiz, Hpassed, Hfive.
  destruct Hg' as (_ & Hi & Hl & Hcase).
  unfold MAX_LIVES, MAX_QUESTIONS in *.
  split.
  - intros H20. destruct Hcase as [(Hq & Hleft & _) | (Hres & _)]; [|exact Hres].
    destruct (Hquiz Hq) as (q & _ & Hatt & _ & Hup & _). lia.
  - intros Hres Hnoquit.
    destruct Hcase as [(Hq & _) | (_ & Hwhy)].
    + destruct Hres as (s1 & s2 & s3 & E). congruence.
    + destruct Hwhy as [H0 | [H10 | Hquit]]; [lia | lia | contradiction].
Qed.

Lemma main_quiz_takes_ten_to_twenty_answers_all_right :
  let events := [Submit "2"; Submit "2"; Submit "2"; Submit "2"; Submit "2";
                 Submit "2"; Submit "2"; Submit "2"; Submit "2"; Submit "2"] in
  current_page (run (exec (start_quiz "Beginner") (initial_app (mkRng (fun _ => 0) 0))) events)
    = Some (ResultsPage 100 100 "A+ (Excellent!)") /\
  10 <= answers events.
Proof.
  cbv zeta. split; [vm_compute; reflexivity|].
  apply (proj2 (main_quiz_takes_ten_to_twenty_answers "Beginner" 1 9
                  (initial_app (mkRng (fun _ => 0) 0))
                  [Submit "2"; Submit "2"; Submit "2"; Submit "2"; Submit "2";
                   Submit "2"; Submit "2"; Submit "2"; Submit "2"; Submit "2"]
                  (or_introl eq_refl) eq_refl)).
  - eexists _, _, _. vm_compute. reflexivity.
  - cbn. intros H. repeat (destruct H as [H|H]; [discriminate|]). exact H.
Defined.

End MainGameFacts.
